(** * Gym progress reports: access control and report life cycle

    A shallow embedding of the API handlers of the repository
    (the Astro routes under [src/pages/api], the helpers of
    [lib/api-helpers.ts] and the table definitions of
    [supabase/migrations]) and the properties proved about them.

    Conventions of the embedding:
    - an instant is a [Z], the milliseconds since the epoch, which is what
      [Date.prototype.getTime] returns; the server and the database
      session are taken to run in UTC;
    - a JavaScript number is a rational ([Q]): the value of the decimal
      numeral that [JSON.stringify] prints for it and the database
      reads, which orders the numbers as they are ordered and tells
      the integers among them; request bodies come from
      [request.json()], which produces no [NaN] and no infinity;
    - a string is text in UTF-8;
    - an id is the text of a [uuid].  The database prints a uuid with
      its hexadecimal digits in lower case, and so does everything that
      comes out of it; a path parameter is in the spelling of the
      caller, and the database reads it as a uuid, in either case,
      whenever it is compared with a column or stored ([Db.uuid]);
    - [new Date()] and [crypto.randomUUID()] are explicit arguments
      ([now], [uuid]) of the handlers that call them;
    - a handler is a function of the database that returns the response
      or the thrown [ApiException] together with the database it leaves;
    - the tables carry what the migrations declare: primary keys and
      foreign keys, the unique key and the checks of [reports], the
      types of the columns ([uuid], [numeric(6,2)], [integer]) and the
      trigger that sets [week_number] and [year].  Of [trainers] and
      [clients] the handlers embedded here use the ids only, as the
      targets of foreign keys.  Row-level security is left out: the
      Supabase client is taken to see whole tables, and each query to
      get an answer. *)

From Stdlib Require Import ZArith QArith Qabs Lia Ascii String.
From stdpp Require Import gmap strings list fin_maps sorting.

Local Open Scope Z_scope.

(* ===================================================================== *)
(** * Dates: the part of [Date] the helpers use, in UTC *)
(* ===================================================================== *)

Module Clock.

Definition msPerDay : Z := 24 * 60 * 60 * 1000.

(** Days since 1970-01-01 of an instant ([Math.floor] of the quotient). *)
Definition dayNumber (t : Z) : Z := t / msPerDay.

(** Days since 1970-01-01 of the civil date [y]-[m]-[d] (proleptic
    Gregorian calendar, as [Date.UTC] has it). *)
Definition daysFromCivil (y m d : Z) : Z :=
  let y' := if m <=? 2 then y - 1 else y in
  let era := y' / 400 in
  let yoe := y' - era * 400 in
  let mp := if m <=? 2 then m + 9 else m - 3 in
  let doy := (153 * mp + 2) / 5 + d - 1 in
  let doe := yoe * 365 + yoe / 4 - yoe / 100 + doy in
  era * 146097 + doe - 719468.

(** Civil date (year, month 1..12, day 1..31) of a day number. *)
Definition civilFromDays (z : Z) : Z * Z * Z :=
  let z := z + 719468 in
  let era := z / 146097 in
  let doe := z - era * 146097 in
  let yoe := (doe - doe / 1460 + doe / 36524 - doe / 146096) / 365 in
  let doy := doe - (365 * yoe + yoe / 4 - yoe / 100) in
  let mp := (5 * doy + 2) / 153 in
  let d := doy - (153 * mp + 2) / 5 + 1 in
  let m := if mp <? 10 then mp + 3 else mp - 9 in
  let y := yoe + era * 400 in
  (if m <=? 2 then y + 1 else y, m, d).

(** [date.getFullYear()] *)
Definition getFullYear (t : Z) : Z :=
  let '(y, _, _) := civilFromDays (dayNumber t) in y.

(** [new Date(year, 0, 1).getTime()] *)
Definition startOfYear (year : Z) : Z := daysFromCivil year 1 1 * msPerDay.

(** [Date.UTC(y, m, d)] as an instant, for writing examples. *)
Definition utc (y m d hh mm ss : Z) : Z :=
  daysFromCivil y m d * msPerDay + ((hh * 60 + mm) * 60 + ss) * 1000.

(** [Math.ceil(a / b)] for a positive [b]. *)
Definition ceilDiv (a b : Z) : Z := - ((- a) / b).

(** Day of the week of a day number, Monday = 1 .. Sunday = 7
    (1970-01-01 was a Thursday). *)
Definition isoWeekday (days : Z) : Z := (days + 3) mod 7 + 1.

(** ISO 8601 week numbering: weeks start on Monday, and a week belongs
    to the year that holds its Thursday; week 1 is the week of the
    year's first Thursday.  Returns (ISO year, ISO week). *)
Definition isoWeekInfo (t : Z) : Z * Z :=
  let days := dayNumber t in
  let thursday := days - isoWeekday days + 4 in
  let '(isoYear, _, _) := civilFromDays thursday in
  (isoYear, (thursday - daysFromCivil isoYear 1 1) / 7 + 1).

(** PostgreSQL's [extract(week from ts)] (the ISO week number) and
    [extract(year from ts)] (the calendar year). *)
Definition extractWeek (t : Z) : Z := snd (isoWeekInfo t).
Definition extractYear (t : Z) : Z := getFullYear t.

End Clock.

(* ===================================================================== *)
(** * JSON values and the validators of [lib/api-helpers.ts] *)
(* ===================================================================== *)

(** A member of a parsed JSON request body.  Arrays and nested objects
    are not told apart: every schema below rejects them. *)
Inductive jsval : Type :=
  | JNull
  | JBool (b : bool)
  | JNum (n : Q)
  | JStr (s : string)
  | JCompound.

Module Zod.

(** [Number.isInteger] on a rational. *)
Definition isInteger (n : Q) : bool :=
  (Qnum n mod Z.pos (Qden n) =? 0)%Z.

Definition between (lo hi n : Q) : bool :=
  Qle_bool lo n && Qle_bool n hi.

(** The result of validating one optional member: [None] is a
    validation issue, [Some None] an absent member, [Some (Some v)] a
    member that passed.  [null] is not [undefined]: a schema that is
    [.optional()] but not [.nullable()] rejects it. *)

(** [z.number().min(lo).max(hi).optional()] *)
Definition numberOptional (lo hi : Q) (v : option jsval) : option (option Q) :=
  match v with
  | None => Some None
  | Some (JNum n) => if between lo hi n then Some (Some n) else None
  | Some _ => None
  end.

(** [z.number().int().min(lo).max(hi).optional()] *)
Definition intOptional (lo hi : Q) (v : option jsval) : option (option Q) :=
  match v with
  | None => Some None
  | Some (JNum n) =>
      if isInteger n && between lo hi n then Some (Some n) else None
  | Some _ => None
  end.

(** The UTF-16 code units of the character a byte of UTF-8 text
    starts: none for a continuation byte, two for the first byte of a
    character of four bytes, one otherwise. *)
Definition codeUnits (c : Ascii.ascii) : nat :=
  let n := Ascii.nat_of_ascii c in
  if (n <? 128)%nat then 1%nat
  else if (n <? 192)%nat then 0%nat
  else if (n <? 240)%nat then 1%nat
  else 2%nat.

(** [s.length], the number of UTF-16 code units of the text. *)
Fixpoint length16 (s : string) : nat :=
  match s with
  | EmptyString => 0%nat
  | String c rest => (codeUnits c + length16 rest)%nat
  end.

(** [z.string().max(maxLen).optional()] *)
Definition stringOptional (maxLen : nat) (v : option jsval) : option (option string) :=
  match v with
  | None => Some None
  | Some (JStr s) =>
      if (length16 s <=? maxLen)%nat then Some (Some s) else None
  | Some _ => None
  end.

(** [z.number().int().min(lo).max(hi)], a required member. *)
Definition intRequired (lo hi : Q) (v : option jsval) : option Q :=
  match v with
  | Some (JNum n) => if isInteger n && between lo hi n then Some n else None
  | _ => None
  end.

Definition isHexDigit (c : Ascii.ascii) : bool :=
  let n := Ascii.nat_of_ascii c in
  ((48 <=? n) && (n <=? 57) || (65 <=? n) && (n <=? 70)
   || (97 <=? n) && (n <=? 102))%nat.

Fixpoint uuidShape (i : nat) (cs : list Ascii.ascii) : bool :=
  match cs with
  | [] => (i =? 36)%nat
  | c :: cs' =>
      (if ((i =? 8) || (i =? 13) || (i =? 18) || (i =? 23))%nat
       then Ascii.eqb c "-"%char else isHexDigit c)
      && uuidShape (S i) cs'
  end.

(** [z.string().uuid()]: eight, four, four, four and twelve hexadecimal
    digits separated by hyphens. *)
Definition isUuid (s : string) : bool := uuidShape 0 (list_ascii_of_string s).

End Zod.

Module ApiHelpers.

(* ------------------------------------------------------------------ *)
(** ** Error handling *)

Record ApiException : Type := mkApiException {
  statusCode : Z;
  error : string
}.

(* ------------------------------------------------------------------ *)
(** ** Authentication and authorization *)

Inductive Role : Type := super_admin | trainer | client.

#[global] Instance Role_eq_dec : EqDecision Role.
Proof. solve_decision. Defined.

Record AuthenticatedUser : Type := mkUser {
  user_id : string;
  user_role : Role
}.

Definition requireAuth (user : option AuthenticatedUser)
  : ApiException + AuthenticatedUser :=
  match user with
  | None => inl (mkApiException 401 "Authentication required")
  | Some u => inr u
  end.

(* ------------------------------------------------------------------ *)
(** ** Validation schemas *)

(** [UuidParamSchema.parse({ id })] *)
Definition UuidParamSchema (id : string) : option string :=
  if Zod.isUuid id then Some id else None.

(** The parsed body of a report submission or edit: every member is
    optional ([None] is JavaScript's [undefined]). *)
Record ReportData : Type := mkReportData {
  d_weight : option Q;
  d_waist : option Q;
  d_chest : option Q;
  d_biceps_left : option Q;
  d_biceps_right : option Q;
  d_thigh_left : option Q;
  d_thigh_right : option Q;
  d_cardio_days : option Q;
  d_note : option string
}.

Definition SubmitReportSchema (body : gmap string jsval) : option ReportData :=
  weight ← Zod.numberOptional 0 1000 (body !! "weight");
  waist ← Zod.numberOptional 0 500 (body !! "waist");
  chest ← Zod.numberOptional 0 500 (body !! "chest");
  biceps_left ← Zod.numberOptional 0 200 (body !! "biceps_left");
  biceps_right ← Zod.numberOptional 0 200 (body !! "biceps_right");
  thigh_left ← Zod.numberOptional 0 300 (body !! "thigh_left");
  thigh_right ← Zod.numberOptional 0 300 (body !! "thigh_right");
  cardio_days ← Zod.intOptional 0 7 (body !! "cardio_days");
  note ← Zod.stringOptional 1000 (body !! "note");
  Some (mkReportData weight waist chest biceps_left biceps_right
          thigh_left thigh_right cardio_days note).

Definition EditReportSchema (body : gmap string jsval) : option ReportData :=
  weight ← Zod.numberOptional 0 1000 (body !! "weight");
  waist ← Zod.numberOptional 0 500 (body !! "waist");
  chest ← Zod.numberOptional 0 500 (body !! "chest");
  biceps_left ← Zod.numberOptional 0 200 (body !! "biceps_left");
  biceps_right ← Zod.numberOptional 0 200 (body !! "biceps_right");
  thigh_left ← Zod.numberOptional 0 300 (body !! "thigh_left");
  thigh_right ← Zod.numberOptional 0 300 (body !! "thigh_right");
  cardio_days ← Zod.intOptional 0 7 (body !! "cardio_days");
  note ← Zod.stringOptional 1000 (body !! "note");
  Some (mkReportData weight waist chest biceps_left biceps_right
          thigh_left thigh_right cardio_days note).

Inductive ContentType : Type := image_jpeg | image_png.

Record ImageUploadRequest : Type := mkImageUploadRequest {
  contentType : ContentType;
  size : Q
}.

Definition maxImageSize : Q := 5 * 1024 * 1024.

Definition ImageUploadRequestSchema (body : gmap string jsval)
  : option ImageUploadRequest :=
  ct ← match body !! "contentType" with
       | Some (JStr s) =>
           if decide (s = "image/jpeg") then Some image_jpeg
           else if decide (s = "image/png") then Some image_png
           else None
       | _ => None
       end;
  sz ← Zod.intRequired 1 maxImageSize (body !! "size");
  Some (mkImageUploadRequest ct sz).

Definition validMetrics : list string :=
  ["weight"; "waist"; "chest"; "biceps_left"; "biceps_right";
   "thigh_left"; "thigh_right"; "cardio_days"].

(** [val.split(sep)] for a one-character separator. *)
Fixpoint split (sep : Ascii.ascii) (val : string) : list string :=
  match val with
  | EmptyString => [EmptyString]
  | String c rest =>
      if Ascii.eqb c sep then EmptyString :: split sep rest
      else
        match split sep rest with
        | [] => [String c EmptyString]
        | piece :: pieces => String c piece :: pieces
        end
  end.

(** The white space and the line terminators that [trim] strips, by
    the bytes of their UTF-8 encodings: U+0009 to U+000D and U+0020; *)
Definition isWhiteSpace (a : Ascii.ascii) : bool :=
  let a := Ascii.nat_of_ascii a in
  ((a =? 9) || (a =? 10) || (a =? 11) || (a =? 12) || (a =? 13)
   || (a =? 32))%nat.

(** U+00A0; *)
Definition isWhiteSpace2 (a b : Ascii.ascii) : bool :=
  let a := Ascii.nat_of_ascii a in
  let b := Ascii.nat_of_ascii b in
  ((a =? 194) && (b =? 160))%nat.

(** U+1680, U+2000 to U+200A, U+2028, U+2029, U+202F, U+205F, U+3000
    and U+FEFF. *)
Definition isWhiteSpace3 (a b c : Ascii.ascii) : bool :=
  let a := Ascii.nat_of_ascii a in
  let b := Ascii.nat_of_ascii b in
  let c := Ascii.nat_of_ascii c in
  ((a =? 225) && (b =? 154) && (c =? 128)
   || (a =? 226) && (b =? 128)
      && ((128 <=? c) && (c <=? 138) || (c =? 168) || (c =? 169) || (c =? 175))
   || (a =? 226) && (b =? 129) && (c =? 159)
   || (a =? 227) && (b =? 128) && (c =? 128)
   || (a =? 239) && (b =? 187) && (c =? 191))%nat.

Fixpoint trimStart (s : string) : string :=
  match s with
  | EmptyString => EmptyString
  | String a rest =>
      if isWhiteSpace a then trimStart rest
      else
        match rest with
        | EmptyString => s
        | String b rest2 =>
            if isWhiteSpace2 a b then trimStart rest2
            else
              match rest2 with
              | EmptyString => s
              | String c rest3 =>
                  if isWhiteSpace3 a b c then trimStart rest3 else s
              end
        end
  end.

(** The same from the end, on the bytes in reverse order. *)
Fixpoint trimStartReversed (s : list Ascii.ascii) : list Ascii.ascii :=
  match s with
  | [] => []
  | a :: rest =>
      if isWhiteSpace a then trimStartReversed rest
      else
        match rest with
        | [] => s
        | b :: rest2 =>
            if isWhiteSpace2 b a then trimStartReversed rest2
            else
              match rest2 with
              | [] => s
              | c :: rest3 =>
                  if isWhiteSpace3 c b a then trimStartReversed rest3 else s
              end
        end
  end.

Definition trimEnd (s : string) : string :=
  string_of_list_ascii
    (reverse (trimStartReversed (reverse (list_ascii_of_string s)))).

(** [metric.trim()] *)
Definition trim (s : string) : string := trimEnd (trimStart s).

(** [TrendsQuerySchema.parse(queryParams).metrics]: the [metrics] query
    parameter, absent or a string, is transformed to the list of its
    trimmed, comma-separated pieces and then refined. *)
Definition TrendsQuerySchema (metrics : option string)
  : option (option (list string)) :=
  let transformed :=
    match metrics with
    | None => None
    | Some val =>
        if decide (val = EmptyString) then None
        else Some (map trim (split ","%char val))
    end in
  match transformed with
  | None => Some None
  | Some names =>
      if forallb (fun metric => bool_decide (metric ∈ validMetrics)) names
      then Some (Some names) else None
  end.

(* ------------------------------------------------------------------ *)
(** ** Week calculation helpers *)

(** [getCurrentWeekInfo()], with the clock reading as its argument. *)
Definition getCurrentWeekInfo (now : Z) : Z * Z :=
  let year := Clock.getFullYear now in
  let startOfYear := Clock.startOfYear year in
  let dayOfYear := (now - startOfYear) / (24 * 60 * 60 * 1000) + 1 in
  let weekNumber := Clock.ceilDiv dayOfYear 7 in
  (year, weekNumber).

(** [getWeekInfo(date)] *)
Definition getWeekInfo (date : Z) : Z * Z :=
  let year := Clock.getFullYear date in
  let startOfYear := Clock.startOfYear year in
  let dayOfYear := (date - startOfYear) / (24 * 60 * 60 * 1000) + 1 in
  let weekNumber := Clock.ceilDiv dayOfYear 7 in
  (year, weekNumber).

(** [canEditReport(createdAt, sequence)], with the clock reading. *)
Definition canEditReport (now : Z) (createdAt : Z) (sequence : Z) : bool :=
  if negb (sequence =? 0) then false
  else
    let oneHourAgo := now - 60 * 60 * 1000 in
    createdAt >? oneHourAgo.

End ApiHelpers.

(* ===================================================================== *)
(** * The tables of [supabase/migrations] *)
(* ===================================================================== *)

(** Rows keep the column names of the migrations; one module per table
    keeps [id], [created_at] and [deleted_at] apart. *)

Module Users.
(** [users], keyed by [id]. *)
Record Row : Type := mk {
  role : ApiHelpers.Role;
  deleted_at : option Z
}.
End Users.

Module TrainerClient.
(** [trainer_client], keyed by its primary key [(trainer_id, client_id)]. *)
Record Row : Type := mk {
  is_active : bool;
  started_at : Z
}.
End TrainerClient.

Module Report.
Record Row : Type := mk {
  id : string;
  client_id : string;
  created_at : Z;
  week_number : Z;
  year : Z;
  sequence : Z;
  weight : option Q;
  waist : option Q;
  chest : option Q;
  biceps_left : option Q;
  biceps_right : option Q;
  thigh_left : option Q;
  thigh_right : option Q;
  cardio_days : option Q;
  note : option string;
  deleted_at : option Z
}.
End Report.

Module ReportImage.
Record Row : Type := mk {
  id : string;
  report_id : string;
  storage_path : string;
  size_bytes : Z;
  width : option Z;
  height : option Z;
  created_at : Z;
  is_deleted : bool;
  deleted_at : option Z
}.
End ReportImage.

(** [trainers] and [clients] are the sets of the ids of their rows. *)
Record Database : Type := mkDatabase {
  users : gmap string Users.Row;
  trainer_client : gmap (string * string) TrainerClient.Row;
  reports : list Report.Row;
  report_images : list ReportImage.Row;
  trainers : gset string;
  clients : gset string
}.

Module Db.

(* ------------------------------------------------------------------ *)
(** ** The types of the columns *)

Definition lowerHex (c : Ascii.ascii) : Ascii.ascii :=
  let n := Ascii.nat_of_ascii c in
  if ((65 <=? n) && (n <=? 70))%nat then Ascii.ascii_of_nat (n + 32) else c.

(** [uuid]: the text of a uuid as the database reads and prints it,
    with the hexadecimal digits in lower case.  Every text that
    reaches the database as a uuid has passed [UuidParamSchema] or
    was printed by the database or by [crypto.randomUUID()]. *)
Fixpoint uuid (text : string) : string :=
  match text with
  | EmptyString => EmptyString
  | String c rest => String (lowerHex c) (uuid rest)
  end.

(** [numeric(6,2)]: the number rounded to two decimal places, a tie
    away from zero. *)
Definition numeric (v : Q) : Q :=
  let hundredths :=
    (2 * (Z.abs (Qnum v) * 100) + Z.pos (Qden v)) / (2 * Z.pos (Qden v)) in
  Qred (Z.sgn (Qnum v) * hundredths # 100).

(** Six digits, two of them decimals: a number that is 10^4 or more in
    absolute value once rounded overflows the column.  A NULL fits. *)
Definition fitsNumeric (v : option Q) : bool :=
  match v with
  | Some q => negb (Qle_bool 10000 (Qabs q))
  | None => true
  end.

(** [integer]: a number with a fractional part is no input for it. *)
Definition fitsInteger (v : option Q) : bool :=
  match v with
  | Some q => Zod.isInteger q
  | None => true
  end.

(* ------------------------------------------------------------------ *)
(** ** Queries *)

(** PostgREST's [.single()]: the row when exactly one row is selected,
    an error otherwise. *)
Definition single {A : Type} (rows : list A) : option A :=
  match rows with
  | [x] => Some x
  | _ => None
  end.

(** [.order(key, { ascending: true })]: a stable insertion sort. *)
Fixpoint insertBy {A : Type} (key : A -> Z) (x : A) (l : list A) : list A :=
  match l with
  | [] => [x]
  | y :: l' => if key x <=? key y then x :: l else y :: insertBy key x l'
  end.

Definition orderBy {A : Type} (key : A -> Z) (l : list A) : list A :=
  foldr (insertBy key) [] l.

(** [from("users").select("id").eq("id", id).eq("role", role)
    .is("deleted_at", null).single()] *)
Definition selectUser (id : string) (role : ApiHelpers.Role) (db : Database)
  : option Users.Row :=
  match users db !! uuid id with
  | Some u =>
      if decide (Users.role u = role /\ Users.deleted_at u = None)
      then Some u else None
  | None => None
  end.

(** [from("trainer_client").select("client_id").eq("trainer_id", t)
    .eq("client_id", c).eq("is_active", true).single()] *)
Definition selectActiveAssignment (trainerId clientId : string) (db : Database)
  : option TrainerClient.Row :=
  match trainer_client db !! (uuid trainerId, uuid clientId) with
  | Some a => if TrainerClient.is_active a then Some a else None
  | None => None
  end.

(** [from("trainer_client").select(...).eq("trainer_id", t)
    .eq("client_id", c).single()] *)
Definition selectAssignment (trainerId clientId : string) (db : Database)
  : option TrainerClient.Row :=
  trainer_client db !! (uuid trainerId, uuid clientId).

(** [from("reports").select(...).eq("id", reportId)
    .is("deleted_at", null).single()] *)
Definition selectReport (reportId : string) (db : Database) : option Report.Row :=
  single (filter (fun r => Report.id r = uuid reportId /\ Report.deleted_at r = None)
            (reports db)).

(** [from("reports").select("id, sequence").eq("client_id", c)
    .eq("year", y).eq("week_number", w).is("deleted_at", null)
    .order("sequence", { ascending: true })] *)
Definition selectWeekReports (clientId : string) (year weekNumber : Z)
    (db : Database) : list Report.Row :=
  orderBy Report.sequence
    (filter (fun r => Report.client_id r = uuid clientId /\ Report.year r = year
                      /\ Report.week_number r = weekNumber
                      /\ Report.deleted_at r = None)
       (reports db)).

(** [from("report_images").select(...).eq("report_id", reportId)
    .eq("is_deleted", false)] *)
Definition selectImages (reportId : string) (db : Database) : list ReportImage.Row :=
  filter (fun i => ReportImage.report_id i = uuid reportId
                   /\ ReportImage.is_deleted i = false)
    (report_images db).

(* ------------------------------------------------------------------ *)
(** ** Inserts and updates *)

(** The trigger [set_report_week_and_year], run before every insert
    into [reports]: it overwrites the two columns from [created_at]. *)
Definition set_report_week_and_year (new : Report.Row) : Report.Row :=
  Report.mk (Report.id new) (Report.client_id new) (Report.created_at new)
    (Clock.extractWeek (Report.created_at new))
    (Clock.extractYear (Report.created_at new))
    (Report.sequence new)
    (Report.weight new) (Report.waist new) (Report.chest new)
    (Report.biceps_left new) (Report.biceps_right new)
    (Report.thigh_left new) (Report.thigh_right new)
    (Report.cardio_days new) (Report.note new) (Report.deleted_at new).

(** [check (col >= 0)] and [check (col between lo and hi)] on a
    nullable column: a NULL passes. *)
Definition checkNonNegative (v : option Q) : bool :=
  match v with
  | Some q => Qle_bool 0 q
  | None => true
  end.

Definition checkBetween (lo hi : Q) (v : option Q) : bool :=
  match v with
  | Some q => Qle_bool lo q && Qle_bool q hi
  | None => true
  end.

Definition measureChecks (weight waist chest biceps_left biceps_right
    thigh_left thigh_right cardio_days : option Q) : bool :=
  checkNonNegative weight && checkNonNegative waist
  && checkNonNegative chest && checkNonNegative biceps_left
  && checkNonNegative biceps_right && checkNonNegative thigh_left
  && checkNonNegative thigh_right && checkBetween 0 7 cardio_days.

(** The values of the measures fit the types of their columns. *)
Definition measuresFit (weight waist chest biceps_left biceps_right
    thigh_left thigh_right cardio_days : option Q) : bool :=
  fitsNumeric weight && fitsNumeric waist
  && fitsNumeric chest && fitsNumeric biceps_left
  && fitsNumeric biceps_right && fitsNumeric thigh_left
  && fitsNumeric thigh_right && fitsInteger cardio_days.

(** The values handed to [insert], read into the types of the columns. *)
Definition reportColumns (new : Report.Row) : Report.Row :=
  Report.mk (uuid (Report.id new)) (uuid (Report.client_id new))
    (Report.created_at new) (Report.week_number new) (Report.year new)
    (Report.sequence new)
    (numeric <$> Report.weight new) (numeric <$> Report.waist new)
    (numeric <$> Report.chest new)
    (numeric <$> Report.biceps_left new) (numeric <$> Report.biceps_right new)
    (numeric <$> Report.thigh_left new) (numeric <$> Report.thigh_right new)
    (Report.cardio_days new) (Report.note new) (Report.deleted_at new).

(** [unique (client_id, week_number, year, sequence)]: the key of two
    rows, deleted or not. *)
Definition sameWeekSlot (a b : Report.Row) : Prop :=
  Report.client_id a = Report.client_id b
  /\ Report.week_number a = Report.week_number b
  /\ Report.year a = Report.year b
  /\ Report.sequence a = Report.sequence b.

#[global] Instance sameWeekSlot_dec a b : Decision (sameWeekSlot a b).
Proof. unfold sameWeekSlot. apply _. Defined.

(** The constraints of [create table public.reports] on a row about to
    be stored: the primary key, the foreign key to [clients], [check
    (sequence in (0, 1))], the checks and the types of the measures,
    and the unique key. *)
Definition reportAccepted (db : Database) (row : Report.Row) : Prop :=
  Forall (fun r => Report.id r <> Report.id row) (reports db)
  /\ Report.client_id row ∈ clients db
  /\ (Report.sequence row = 0 \/ Report.sequence row = 1)
  /\ measureChecks (Report.weight row) (Report.waist row) (Report.chest row)
       (Report.biceps_left row) (Report.biceps_right row)
       (Report.thigh_left row) (Report.thigh_right row)
       (Report.cardio_days row) = true
  /\ measuresFit (Report.weight row) (Report.waist row) (Report.chest row)
       (Report.biceps_left row) (Report.biceps_right row)
       (Report.thigh_left row) (Report.thigh_right row)
       (Report.cardio_days row) = true
  /\ Forall (fun r => ~ sameWeekSlot r row) (reports db).

#[global] Instance reportAccepted_dec db row : Decision (reportAccepted db row).
Proof. unfold reportAccepted. apply _. Defined.

(** [from("reports").insert(new).select(...).single()]: the stored row
    and the new table, or [None] for an [insertError]. *)
Definition insertReport (new : Report.Row) (db : Database)
  : option (Report.Row * list Report.Row) :=
  let row := set_report_week_and_year (reportColumns new) in
  if decide (reportAccepted db row) then Some (row, reports db ++ [row]) else None.

(** [from("reports").update(f).eq("id", reportId)] *)
Definition updateReports (reportId : string) (f : Report.Row -> Report.Row)
    (rows : list Report.Row) : list Report.Row :=
  map (fun r => if decide (Report.id r = uuid reportId) then f r else r) rows.

(** The values handed to [insert], read into the types of the columns. *)
Definition imageColumns (new : ReportImage.Row) : ReportImage.Row :=
  ReportImage.mk (uuid (ReportImage.id new)) (uuid (ReportImage.report_id new))
    (ReportImage.storage_path new) (ReportImage.size_bytes new)
    (ReportImage.width new) (ReportImage.height new)
    (ReportImage.created_at new) (ReportImage.is_deleted new)
    (ReportImage.deleted_at new).

(** The constraints of [create table public.report_images]: the
    primary key, the foreign key to [reports] and the check of the
    size. *)
Definition imageAccepted (db : Database) (row : ReportImage.Row) : Prop :=
  Forall (fun i => ReportImage.id i <> ReportImage.id row) (report_images db)
  /\ Exists (fun r => Report.id r = ReportImage.report_id row) (reports db)
  /\ ReportImage.size_bytes row <= 10485760.

#[global] Instance imageAccepted_dec db row : Decision (imageAccepted db row).
Proof. unfold imageAccepted. apply _. Defined.

(** [from("report_images").insert(new)]: the new table, or [None] for
    an [insertError]. *)
Definition insertImage (new : ReportImage.Row) (db : Database)
  : option (list ReportImage.Row) :=
  let row := imageColumns new in
  if decide (imageAccepted db row) then Some (report_images db ++ [row]) else None.

(** The constraints of [create table public.trainer_client] on a row
    about to be stored: the primary key and the foreign keys to
    [trainers] and [clients]. *)
Definition assignmentAccepted (db : Database) (trainer_id client_id : string) : Prop :=
  trainer_client db !! (trainer_id, client_id) = None
  /\ trainer_id ∈ trainers db /\ client_id ∈ clients db.

#[global] Instance assignmentAccepted_dec db trainer_id client_id
  : Decision (assignmentAccepted db trainer_id client_id).
Proof. unfold assignmentAccepted. apply _. Defined.

(** [from("trainer_client").insert({ trainer_id, client_id, ... })
    .select(...).single()]: the new table, or [None] for an
    [insertError]. *)
Definition insertAssignment (trainerId clientId : string)
    (row : TrainerClient.Row) (db : Database)
  : option (gmap (string * string) TrainerClient.Row) :=
  if decide (assignmentAccepted db (uuid trainerId) (uuid clientId))
  then Some (<[(uuid trainerId, uuid clientId) := row]> (trainer_client db))
  else None.

End Db.

(* ===================================================================== *)
(** * Handlers: a state and exception monad over the database *)
(* ===================================================================== *)

Definition Handler (A : Type) : Type :=
  Database -> (ApiHelpers.ApiException + A) * Database.

#[global] Instance Handler_ret : MRet Handler :=
  fun A (a : A) db => (inr a, db).

#[global] Instance Handler_bind : MBind Handler :=
  fun A B (k : A -> Handler B) (m : Handler A) db =>
    match m db with
    | (inl e, db') => (inl e, db')
    | (inr a, db') => k a db'
    end.

(** [throw new ApiException(statusCode, { error })] *)
Definition throw {A : Type} (statusCode : Z) (error : string) : Handler A :=
  fun db => (inl (ApiHelpers.mkApiException statusCode error), db).

(** A [select] and an [insert]/[update] of the Supabase client. *)
Definition query {A : Type} (q : Database -> A) : Handler A :=
  fun db => (inr (q db), db).

Definition store (f : Database -> Database) : Handler unit :=
  fun db => (inr tt, f db).

Definition lift {A : Type} (r : ApiHelpers.ApiException + A) : Handler A :=
  fun db => (r, db).

(** [Schema.parse(x)]: [createApiRoute] turns the [ZodError] into a 400. *)
Definition parse {A : Type} (r : option A) : Handler A :=
  match r with
  | Some a => mret a
  | None => throw 400 "Validation error"
  end.

Record Response (A : Type) : Type := mkResponse {
  status : Z;
  data : A
}.
Arguments mkResponse {A} _ _.
Arguments status {A} _.
Arguments data {A} _.

(** [createSuccessResponse(data, status)] *)
Definition createSuccessResponse {A : Type} (data : A) (status : Z) : Response A :=
  mkResponse status data.

(** [ReportDTO]: the report row and its [images]. *)
Definition ReportDTO : Type := Report.Row * list ReportImage.Row.

Definition setReports (rows : list Report.Row) (db : Database) : Database :=
  mkDatabase (users db) (trainer_client db) rows (report_images db)
    (trainers db) (clients db).

Definition setReportImages (rows : list ReportImage.Row) (db : Database) : Database :=
  mkDatabase (users db) (trainer_client db) (reports db) rows
    (trainers db) (clients db).

Definition setTrainerClient (rows : gmap (string * string) TrainerClient.Row)
    (db : Database) : Database :=
  mkDatabase (users db) rows (reports db) (report_images db)
    (trainers db) (clients db).

(* ===================================================================== *)
(** * [pages/api/clients/[clientId]/reports/index.ts] *)
(* ===================================================================== *)

Module ClientReports.
Import ApiHelpers.

(** [value || null] on an optional number: [undefined] and [0] are falsy. *)
Definition orNull (value : option Q) : option Q :=
  match value with
  | Some n => if Qeq_bool n 0 then None else Some n
  | None => None
  end.

(** [value || null] on an optional string: [undefined] and [""] are falsy. *)
Definition orNullString (value : option string) : option string :=
  match value with
  | Some s => if decide (s = "") then None else Some s
  | None => None
  end.

(** The object handed to [insert], completed with the column defaults
    [created_at = now()] and [deleted_at = null]. *)
Definition newReportRow (now : Z) (reportId clientId : string)
    (year weekNumber sequence : Z) (reportData : ReportData) : Report.Row :=
  Report.mk reportId clientId now weekNumber year sequence
    (orNull (d_weight reportData))
    (orNull (d_waist reportData))
    (orNull (d_chest reportData))
    (orNull (d_biceps_left reportData))
    (orNull (d_biceps_right reportData))
    (orNull (d_thigh_left reportData))
    (orNull (d_thigh_right reportData))
    (orNull (d_cardio_days reportData))
    (orNullString (d_note reportData))
    None.

(** [POST /api/clients/{clientId}/reports] *)
Definition POST (now : Z) (uuid : string) (user : option AuthenticatedUser)
    (clientIdParam : string) (body : gmap string jsval)
  : Handler (Response ReportDTO) :=
  authenticatedUser ← lift (requireAuth user);
  clientId ← parse (UuidParamSchema clientIdParam);
  if decide (user_role authenticatedUser <> client
             \/ user_id authenticatedUser <> clientId)
  then throw 403 "Access denied. Only clients can submit their own reports."
  else
    clientRow ← query (Db.selectUser clientId client);
    match clientRow with
    | None => throw 404 "Client not found"
    | Some _ =>
        reportData ← parse (SubmitReportSchema body);
        let '(year, weekNumber) := getCurrentWeekInfo now in
        existingReports ← query (Db.selectWeekReports clientId year weekNumber);
        if (2 <=? length existingReports)%nat
        then throw 409 "Maximum 2 reports per week exceeded"
        else
          let sequence := Z.of_nat (length existingReports) in
          let reportId := uuid in
          inserted ← query (Db.insertReport
                              (newReportRow now reportId clientId year weekNumber
                                 sequence reportData));
          match inserted with
          | None => throw 500 "Failed to create report"
          | Some (newReport, rows') =>
              _ ← store (setReports rows');
              mret (createSuccessResponse (newReport, []) 201)
          end
    end.

End ClientReports.

(* ===================================================================== *)
(** * [pages/api/reports/[reportId].ts] *)
(* ===================================================================== *)

Module Reports.
Import ApiHelpers.

Record Access : Type := mkAccess {
  hasAccess : bool;
  clientId : option string
}.

Definition checkReportAccess (userId : string) (userRole : Role)
    (reportId : string) (db : Database) : Access :=
  match Db.selectReport reportId db with
  | None => mkAccess false None
  | Some report =>
      let clientId := Report.client_id report in
      if decide (userRole = super_admin) then mkAccess true (Some clientId)
      else if decide (userRole = client /\ userId = clientId)
      then mkAccess true (Some clientId)
      else if decide (userRole = trainer) then
        match Db.selectActiveAssignment userId clientId db with
        | Some _ => mkAccess true (Some clientId)
        | None => mkAccess false (Some clientId)
        end
      else mkAccess false None
  end.

(** The images of a report as the handlers fetch them: not deleted,
    ordered by [created_at] ascending. *)
Definition fetchImages (reportId : string) (db : Database) : list ReportImage.Row :=
  Db.orderBy ReportImage.created_at (Db.selectImages reportId db).

(** [GET /api/reports/{reportId}] *)
Definition GET (user : option AuthenticatedUser) (reportIdParam : string)
  : Handler (Response ReportDTO) :=
  authenticatedUser ← lift (requireAuth user);
  reportId ← parse (UuidParamSchema reportIdParam);
  access ← query (checkReportAccess (user_id authenticatedUser)
                    (user_role authenticatedUser) reportId);
  if negb (hasAccess access)
  then throw 403 "Access denied. You can only view your own reports, your assigned clients' reports, or be a super admin."
  else
    report ← query (Db.selectReport reportId);
    match report with
    | None => throw 404 "Report not found"
    | Some report =>
        images ← query (fetchImages reportId);
        mret (createSuccessResponse (report, images) 200)
    end.

(** A member of the object handed to [update]: [undefined] leaves the
    column alone, a value replaces it. *)
Definition patch {A : Type} (new : option A) (old : option A) : option A :=
  match new with
  | Some v => Some v
  | None => old
  end.

(** The object handed to [update], read into the types of the columns. *)
Definition updateColumns (updateData : ReportData) : ReportData :=
  mkReportData
    (Db.numeric <$> d_weight updateData) (Db.numeric <$> d_waist updateData)
    (Db.numeric <$> d_chest updateData)
    (Db.numeric <$> d_biceps_left updateData)
    (Db.numeric <$> d_biceps_right updateData)
    (Db.numeric <$> d_thigh_left updateData)
    (Db.numeric <$> d_thigh_right updateData)
    (d_cardio_days updateData) (d_note updateData).

(** What the update makes of a row. *)
Definition applyEdit (updateData : ReportData) (r : Report.Row) : Report.Row :=
  let written := updateColumns updateData in
  Report.mk (Report.id r) (Report.client_id r) (Report.created_at r)
    (Report.week_number r) (Report.year r) (Report.sequence r)
    (patch (d_weight written) (Report.weight r))
    (patch (d_waist written) (Report.waist r))
    (patch (d_chest written) (Report.chest r))
    (patch (d_biceps_left written) (Report.biceps_left r))
    (patch (d_biceps_right written) (Report.biceps_right r))
    (patch (d_thigh_left written) (Report.thigh_left r))
    (patch (d_thigh_right written) (Report.thigh_right r))
    (patch (d_cardio_days written) (Report.cardio_days r))
    (patch (d_note written) (Report.note r))
    (Report.deleted_at r).

(** [Object.keys(updateData).filter(key => updateData[key] !== undefined)]
    is empty. *)
Definition noUpdateFields (updateData : ReportData) : bool :=
  match updateData with
  | mkReportData None None None None None None None None None => true
  | _ => false
  end.

(** [from("reports").update({...}).eq("id", reportId).select(...).single()]:
    the table reads the values into the types of their columns and
    checks them, then hands back the one row updated. *)
Definition updateReport (reportId : string) (updateData : ReportData)
    (rows : list Report.Row) : option (Report.Row * list Report.Row) :=
  let written := updateColumns updateData in
  if Db.measureChecks (d_weight written) (d_waist written)
       (d_chest written) (d_biceps_left written)
       (d_biceps_right written) (d_thigh_left written)
       (d_thigh_right written) (d_cardio_days written)
     && Db.measuresFit (d_weight written) (d_waist written)
          (d_chest written) (d_biceps_left written)
          (d_biceps_right written) (d_thigh_left written)
          (d_thigh_right written) (d_cardio_days written)
  then
    let rows' := Db.updateReports reportId (applyEdit updateData) rows in
    match Db.single (filter (fun r => Report.id r = Db.uuid reportId) rows') with
    | Some updatedReport => Some (updatedReport, rows')
    | None => None
    end
  else None.

(** [PATCH /api/reports/{reportId}] *)
Definition PATCH (now : Z) (user : option AuthenticatedUser)
    (reportIdParam : string) (body : gmap string jsval)
  : Handler (Response ReportDTO) :=
  authenticatedUser ← lift (requireAuth user);
  reportId ← parse (UuidParamSchema reportIdParam);
  access ← query (checkReportAccess (user_id authenticatedUser)
                    (user_role authenticatedUser) reportId);
  if negb (hasAccess access)
  then throw 403 "Access denied. You can only edit your own reports, your assigned clients' reports, or be a super admin."
  else
    report ← query (Db.selectReport reportId);
    match report with
    | None => throw 404 "Report not found"
    | Some report =>
        if decide (user_role authenticatedUser <> super_admin
                   /\ user_id authenticatedUser <> Report.client_id report)
        then throw 403 "Only the client who created the report can edit it (or super_admin)."
        else if bool_decide (user_role authenticatedUser <> super_admin)
                && negb (canEditReport now (Report.created_at report)
                           (Report.sequence report))
        then throw 403 "Report can only be edited within 1 hour of creation and must be the first report of the week (sequence 0)."
        else
          updateData ← parse (EditReportSchema body);
          if noUpdateFields updateData
          then throw 400 "No valid fields provided for update"
          else
            rows ← query reports;
            match updateReport reportId updateData rows with
            | None => throw 500 "Failed to update report"
            | Some (updatedReport, rows') =>
                _ ← store (setReports rows');
                images ← query (fetchImages reportId);
                mret (createSuccessResponse (updatedReport, images) 200)
            end
    end.

(** [DELETE /api/reports/{reportId}] *)
Definition DELETE (now : Z) (user : option AuthenticatedUser)
    (reportIdParam : string) : Handler (Response unit) :=
  authenticatedUser ← lift (requireAuth user);
  reportId ← parse (UuidParamSchema reportIdParam);
  access ← query (checkReportAccess (user_id authenticatedUser)
                    (user_role authenticatedUser) reportId);
  if negb (hasAccess access)
  then throw 403 "Access denied. You can only delete your own reports or be a super admin."
  else
    report ← query (Db.selectReport reportId);
    match report with
    | None => throw 404 "Report not found"
    | Some report =>
        if decide (user_role authenticatedUser <> super_admin
                   /\ user_id authenticatedUser <> Report.client_id report)
        then throw 403 "Only the client who created the report can delete it (or super_admin)."
        else
          _ ← store (fun db =>
                 setReports
                   (Db.updateReports reportId
                      (fun r =>
                         Report.mk (Report.id r) (Report.client_id r)
                           (Report.created_at r) (Report.week_number r)
                           (Report.year r) (Report.sequence r)
                           (Report.weight r) (Report.waist r) (Report.chest r)
                           (Report.biceps_left r) (Report.biceps_right r)
                           (Report.thigh_left r) (Report.thigh_right r)
                           (Report.cardio_days r) (Report.note r) (Some now))
                      (reports db)) db);
          mret (mkResponse 204 tt)
    end.

End Reports.

(* ===================================================================== *)
(** * [pages/api/reports/[reportId]/images/upload-url.ts] *)
(* ===================================================================== *)

Module UploadUrl.
Import ApiHelpers.

Definition checkImageUploadAccess (userId : string) (userRole : Role)
    (reportId : string) (db : Database) : Reports.Access :=
  match Db.selectReport reportId db with
  | None => Reports.mkAccess false None
  | Some report =>
      let clientId := Report.client_id report in
      if decide (userRole = client /\ userId = clientId)
      then Reports.mkAccess true (Some clientId)
      else if decide (userRole = super_admin)
      then Reports.mkAccess true (Some clientId)
      else Reports.mkAccess false None
  end.

Record UploadTicket : Type := mkUploadTicket {
  url : string;
  storagePath : string;
  imageId : string
}.

(** [`reports/${reportId}/${imageId}.${fileExtension}`] *)
Definition makeStoragePath (reportId imageId : string) (ct : ContentType) : string :=
  let fileExtension :=
    match ct with
    | image_jpeg => "jpg"
    | image_png => "png"
    end in
  "reports/" +:+ reportId +:+ "/" +:+ imageId +:+ "." +:+ fileExtension.

(** The value of a number the schema found to be an integer. *)
Definition toInteger (n : Q) : Z := Qnum n / Z.pos (Qden n).

(** [POST /api/reports/{reportId}/images/upload-url].
    [createSignedUploadUrl] is the object-storage collaborator: it maps
    a path to the signed URL, or to nothing when it reports an error. *)
Definition POST (now : Z) (uuid : string)
    (createSignedUploadUrl : string -> option string)
    (user : option AuthenticatedUser) (reportIdParam : string)
    (body : gmap string jsval) : Handler (Response UploadTicket) :=
  authenticatedUser ← lift (requireAuth user);
  reportId ← parse (UuidParamSchema reportIdParam);
  access ← query (checkImageUploadAccess (user_id authenticatedUser)
                    (user_role authenticatedUser) reportId);
  if negb (Reports.hasAccess access)
  then throw 403 "Access denied. Only the client who owns the report can upload images."
  else
    request ← parse (ImageUploadRequestSchema body);
    existingImages ← query (Db.selectImages reportId);
    if (3 <=? length existingImages)%nat
    then throw 400 "Maximum 3 images per report exceeded"
    else
      let imageId := uuid in
      let storagePath := makeStoragePath reportId imageId (contentType request) in
      match createSignedUploadUrl storagePath with
      | None => throw 500 "Failed to create upload URL"
      | Some signedUrl =>
          inserted ← query (Db.insertImage
                              (ReportImage.mk imageId reportId storagePath
                                 (toInteger (size request)) None None now
                                 false None));
          match inserted with
          | None => throw 500 "Failed to create image record"
          | Some rows' =>
              _ ← store (setReportImages rows');
              mret (createSuccessResponse
                      (mkUploadTicket signedUrl storagePath imageId) 200)
          end
      end.

End UploadUrl.

(* ===================================================================== *)
(** * [pages/api/trainers/[trainerId]/clients/[clientId]/activate.ts]
      and [deactivate.ts] *)
(* ===================================================================== *)

(** [TrainerClientAssignmentDTO], the selected columns of the row
    that was written. *)
Record TrainerClientAssignmentDTO : Type := mkAssignmentDTO {
  dto_trainer_id : string;
  dto_client_id : string;
  dto_is_active : bool;
  dto_started_at : Z
}.

Module Activate.
Import ApiHelpers.

(** [POST /api/trainers/{trainerId}/clients/{clientId}/activate] *)
Definition POST (now : Z) (user : option AuthenticatedUser)
    (trainerIdParam clientIdParam : string)
  : Handler (Response TrainerClientAssignmentDTO) :=
  authenticatedUser ← lift (requireAuth user);
  trainerId ← parse (UuidParamSchema trainerIdParam);
  clientId ← parse (UuidParamSchema clientIdParam);
  if decide (user_role authenticatedUser <> super_admin
             /\ user_id authenticatedUser <> trainerId)
  then throw 403 "Access denied. You can only manage your own client assignments or be a super admin."
  else
    trainerRow ← query (Db.selectUser trainerId trainer);
    match trainerRow with
    | None => throw 404 "Trainer not found"
    | Some _ =>
        clientRow ← query (Db.selectUser clientId client);
        match clientRow with
        | None => throw 404 "Client not found"
        | Some _ =>
            existingAssignment ← query (Db.selectAssignment trainerId clientId);
            match existingAssignment with
            | Some _ =>
                (* Update existing assignment to active *)
                _ ← store (fun db =>
                       setTrainerClient
                         (alter (fun _ => TrainerClient.mk true now)
                            (Db.uuid trainerId, Db.uuid clientId)
                            (trainer_client db)) db);
                mret (createSuccessResponse
                        (mkAssignmentDTO (Db.uuid trainerId) (Db.uuid clientId)
                           true now) 200)
            | None =>
                (* Create new assignment *)
                inserted ← query (Db.insertAssignment trainerId clientId
                                    (TrainerClient.mk true now));
                match inserted with
                | None => throw 500 "Failed to create assignment"
                | Some rows' =>
                    _ ← store (setTrainerClient rows');
                    mret (createSuccessResponse
                            (mkAssignmentDTO (Db.uuid trainerId) (Db.uuid clientId)
                               true now) 200)
                end
            end
        end
    end.

End Activate.

Module Deactivate.
Import ApiHelpers.

(** [POST /api/trainers/{trainerId}/clients/{clientId}/deactivate] *)
Definition POST (user : option AuthenticatedUser)
    (trainerIdParam clientIdParam : string)
  : Handler (Response TrainerClientAssignmentDTO) :=
  authenticatedUser ← lift (requireAuth user);
  trainerId ← parse (UuidParamSchema trainerIdParam);
  clientId ← parse (UuidParamSchema clientIdParam);
  if decide (user_role authenticatedUser <> super_admin
             /\ user_id authenticatedUser <> trainerId)
  then throw 403 "Access denied. You can only manage your own client assignments or be a super admin."
  else
    trainerRow ← query (Db.selectUser trainerId trainer);
    match trainerRow with
    | None => throw 404 "Trainer not found"
    | Some _ =>
        clientRow ← query (Db.selectUser clientId client);
        match clientRow with
        | None => throw 404 "Client not found"
        | Some _ =>
            existingAssignment ← query (Db.selectAssignment trainerId clientId);
            match existingAssignment with
            | None => throw 404 "Assignment not found"
            | Some existing =>
                _ ← store (fun db =>
                       setTrainerClient
                         (alter (fun a => TrainerClient.mk false (TrainerClient.started_at a))
                            (Db.uuid trainerId, Db.uuid clientId)
                            (trainer_client db)) db);
                mret (createSuccessResponse
                        (mkAssignmentDTO (Db.uuid trainerId) (Db.uuid clientId) false
                           (TrainerClient.started_at existing)) 200)
            end
        end
    end.

End Deactivate.

(** [isActive(coachId, clientId)]: the lookup every access check makes. *)
Definition isActive (coachId clientId : string) (db : Database) : bool :=
  match Db.selectActiveAssignment coachId clientId db with
  | Some _ => true
  | None => false
  end.

(* ===================================================================== *)
(** * [pages/api/clients/[clientId]/trends.ts] *)
(* ===================================================================== *)

Module Trends.
Import ApiHelpers.

Definition checkTrendsAccess (userId : string) (userRole : Role)
    (clientId : string) (db : Database) : bool :=
  if decide (userRole = super_admin) then true
  else if decide (userRole = client /\ userId = clientId) then true
  else if decide (userRole = trainer) then
    match Db.selectActiveAssignment userId clientId db with
    | Some _ => true
    | None => false
    end
  else false.

(** [report[metric]] for a selected column; [None] is [null]. *)
Definition column (metric : string) (report : Report.Row) : option Q :=
  if decide (metric = "weight") then Report.weight report
  else if decide (metric = "waist") then Report.waist report
  else if decide (metric = "chest") then Report.chest report
  else if decide (metric = "biceps_left") then Report.biceps_left report
  else if decide (metric = "biceps_right") then Report.biceps_right report
  else if decide (metric = "thigh_left") then Report.thigh_left report
  else if decide (metric = "thigh_right") then Report.thigh_right report
  else if decide (metric = "cardio_days") then Report.cardio_days report
  else None.

(** [from("reports").select(selectFields).eq("client_id", clientId)
    .is("deleted_at", null).order("created_at", { ascending: true })] *)
Definition selectClientReports (clientId : string) (db : Database) : list Report.Row :=
  Db.orderBy Report.created_at
    (filter (fun r => Report.client_id r = Db.uuid clientId
                      /\ Report.deleted_at r = None)
       (reports db)).

(** The [trends] object while it is built: a member is an array or
    [undefined] ([None]). *)
Definition initialize (requestedMetrics : list string)
  : gmap string (option (list Q)) :=
  foldl (fun trends metric => <[metric := Some []]> trends) ∅ requestedMetrics.

Definition populateReport (requestedMetrics : list string)
    (trends : gmap string (option (list Q))) (report : Report.Row)
  : gmap string (option (list Q)) :=
  foldl (fun trends metric =>
           match column metric report with
           | Some value =>
               alter (fun trendsArray => (fun a => a ++ [value]) <$> trendsArray)
                 metric trends
           | None => trends
           end)
    trends requestedMetrics.

Definition populate (requestedMetrics : list string) (reports : list Report.Row)
    (trends : gmap string (option (list Q))) : gmap string (option (list Q)) :=
  foldl (populateReport requestedMetrics) trends reports.

(** Empty arrays become [undefined]... *)
Definition removeEmpty (trends : gmap string (option (list Q)))
  : gmap string (option (list Q)) :=
  (fun trendsArray =>
     match trendsArray with
     | Some [] => None
     | other => other
     end) <$> trends.

(** ...and [undefined] members are filtered out. *)
Definition filterUndefined (trends : gmap string (option (list Q)))
  : gmap string (list Q) :=
  omap (fun trendsArray => trendsArray) trends.

Definition allMetrics : list string :=
  ["weight"; "waist"; "chest"; "biceps_left"; "biceps_right";
   "thigh_left"; "thigh_right"; "cardio_days"].

Definition buildTrends (requestedMetrics : list string)
    (reports : list Report.Row) : gmap string (list Q) :=
  filterUndefined
    (removeEmpty (populate requestedMetrics reports (initialize requestedMetrics))).

(** [GET /api/clients/{clientId}/trends] *)
Definition GET (user : option AuthenticatedUser) (clientIdParam : string)
    (metricsParam : option string) : Handler (Response (gmap string (list Q))) :=
  authenticatedUser ← lift (requireAuth user);
  clientId ← parse (UuidParamSchema clientIdParam);
  hasAccess ← query (checkTrendsAccess (user_id authenticatedUser)
                       (user_role authenticatedUser) clientId);
  if negb hasAccess
  then throw 403 "Access denied. You can only view your own trends, your assigned clients' trends, or be a super admin."
  else
    clientRow ← query (Db.selectUser clientId client);
    match clientRow with
    | None => throw 404 "Client not found"
    | Some _ =>
        metrics ← parse (TrendsQuerySchema metricsParam);
        let requestedMetrics := default allMetrics metrics in
        reports ← query (selectClientReports clientId);
        mret (createSuccessResponse (buildTrends requestedMetrics reports) 200)
    end.

End Trends.

(* ===================================================================== *)
(** * [pages/api/clients/index.ts]: the week of the missing-report filter *)
(* ===================================================================== *)

Module Clients.

(** [currentYear] and [currentWeek] of the [missingReportForWeek] filter:
    [Math.ceil(((now - new Date(currentYear, 0, 1)) / 86400000 + 1) / 7)],
    a quotient that is not floored before the ceiling is taken. *)
Definition currentWeek (now : Z) : Z * Z :=
  let currentYear := Clock.getFullYear now in
  (currentYear,
   Clock.ceilDiv (now - Clock.startOfYear currentYear + 86400000) (7 * 86400000)).

End Clients.

(* ===================================================================== *)
(** * [lib/api-helpers.ts]: the session, roles and pagination *)
(* ===================================================================== *)

Module Session.
Import ApiHelpers.

(** [getAuthenticatedUser(supabase)]: [sessionUser] is the id of the
    user [supabase.auth.getUser()] reports, [None] when it reports an
    error or nobody; the row of [users] is then selected by
    [.eq("id", user.id).is("deleted_at", null).single()], and its [id]
    and [role] are returned. *)
Definition getAuthenticatedUser (sessionUser : option string) (db : Database)
  : option AuthenticatedUser :=
  match sessionUser with
  | None => None
  | Some id =>
      match users db !! Db.uuid id with
      | Some userData =>
          if decide (Users.deleted_at userData = None)
          then Some (mkUser (Db.uuid id) (Users.role userData))
          else None
      | None => None
      end
  end.

(** [requireRole(user, allowedRoles)] *)
Definition requireRole (user : AuthenticatedUser) (allowedRoles : list Role)
  : ApiException + unit :=
  if bool_decide (user_role user ∈ allowedRoles) then inr tt
  else inl (mkApiException 403 "Insufficient permissions").

(** [createApiRoute(handler)]: the handler is run with the user of the
    session; what it throws is the response ([parse] has turned a
    [ZodError] into its 400 already). *)
Definition createApiRoute {A : Type}
    (handler : option AuthenticatedUser -> Handler A)
    (sessionUser : option string) : Handler A :=
  user ← query (getAuthenticatedUser sessionUser);
  handler user.

End Session.

Module Pagination.

(** [z.coerce.number().int().min(lo).max(hi).default(dflt)] on a query
    parameter, which is absent or a string.  [toNumber] is JavaScript's
    [Number(value)] on strings, with [None] for [NaN] and the
    infinities, which [.int()] refuses alike. *)
Definition coerceInt (toNumber : string -> option Q) (lo : Q) (hi : option Q)
    (dflt : Z) (v : option string) : option Z :=
  match v with
  | None => Some dflt
  | Some s =>
      match toNumber s with
      | Some n =>
          if Zod.isInteger n && Qle_bool lo n
             && match hi with
                | Some h => Qle_bool n h
                | None => true
                end
          then Some (UploadUrl.toInteger n) else None
      | None => None
      end
  end.

(** [PaginationQuerySchema.parse(queryParams)] *)
Definition PaginationQuerySchema (toNumber : string -> option Q)
    (page pageSize : option string) : option (Z * Z) :=
  page ← coerceInt toNumber 1 None 1 page;
  pageSize ← coerceInt toNumber 1 (Some 100%Q) 20 pageSize;
  Some (page, pageSize).

(** [ReportsQuerySchema = PaginationQuerySchema.extend({})] *)
Definition ReportsQuerySchema := PaginationQuerySchema.

Record PaginationMeta : Type := mkPaginationMeta {
  page : Z;
  pageSize : Z;
  totalPages : Z;
  totalItems : Z
}.

(** [calculatePagination(page, pageSize, totalItems)].  Page numbers
    and row counts are integers of [Z] here.  JavaScript computes with
    doubles, which agree with [Z] as long as every product and sum is
    an integer of at most 2^53 in absolute value; a count of rows is,
    but the schema puts no upper bound on [page], so that what is
    proved of a page holds of the code for the pages with
    [page * pageSize <= 2^53] only (see [exactPage]). *)
Definition calculatePagination (page pageSize totalItems : Z) : PaginationMeta :=
  let totalPages := Clock.ceilDiv totalItems pageSize in
  mkPaginationMeta page pageSize totalPages totalItems.

(** [getPaginationRange(page, pageSize)]: the pair [(from, to)]. *)
Definition getPaginationRange (page pageSize : Z) : Z * Z :=
  let from := (page - 1) * pageSize in
  let to := from + pageSize - 1 in
  (from, to).

(** The pages whose range the doubles of JavaScript compute without
    rounding: [page - 1], [(page - 1) * pageSize] and
    [from + pageSize] are integers between 0 and 2^53. *)
Definition exactPage (page pageSize : Z) : Prop :=
  1 <= page /\ page * pageSize <= 2 ^ 53.

(** The body of [createPaginatedResponse(data, meta)]. *)
Record Paginated (A : Type) : Type := mkPaginated {
  items : list A;
  meta : PaginationMeta
}.
Arguments mkPaginated {A} _ _.
Arguments items {A} _.
Arguments meta {A} _.

Definition createPaginatedResponse {A : Type} (data : list A)
    (meta : PaginationMeta) : Response (Paginated A) :=
  createSuccessResponse (mkPaginated data meta) 200.

End Pagination.

(* ===================================================================== *)
(** * [pages/api/clients/[clientId]/reports/index.ts]: the listing *)
(* ===================================================================== *)

Module ReportList.
Import ApiHelpers.

Definition checkReportAccess (userId : string) (userRole : Role)
    (clientId : string) (db : Database) : bool :=
  if decide (userRole = super_admin) then true
  else if decide (userRole = client /\ userId = clientId) then true
  else if decide (userRole = trainer) then
    match Db.selectActiveAssignment userId clientId db with
    | Some _ => true
    | None => false
    end
  else false.

(** [ReportListItemDTO]: the row without its [note]. *)
Record ReportListItemDTO : Type := mkReportListItemDTO {
  id : string;
  client_id : string;
  year : Z;
  week_number : Z;
  sequence : Z;
  weight : option Q;
  waist : option Q;
  chest : option Q;
  biceps_left : option Q;
  biceps_right : option Q;
  thigh_left : option Q;
  thigh_right : option Q;
  cardio_days : option Q;
  created_at : Z;
  deleted_at : option Z
}.

Definition toDTO (report : Report.Row) : ReportListItemDTO :=
  mkReportListItemDTO (Report.id report) (Report.client_id report)
    (Report.year report) (Report.week_number report) (Report.sequence report)
    (Report.weight report) (Report.waist report) (Report.chest report)
    (Report.biceps_left report) (Report.biceps_right report)
    (Report.thigh_left report) (Report.thigh_right report)
    (Report.cardio_days report) (Report.created_at report)
    (Report.deleted_at report).

(** [.order(key, { ascending: false })]: the stable sort on the
    opposite key, so that rows of one key keep the order of the table. *)
Definition orderByDescending {A : Type} (key : A -> Z) (l : list A) : list A :=
  Db.orderBy (fun x => - key x) l.

(** [.range(from, to)]: the rows at the offsets [from] to [to], both
    included. *)
Definition range {A : Type} (from to : Z) (rows : list A) : list A :=
  take (Z.to_nat (to - from + 1)) (drop (Z.to_nat from) rows).

(** [from("reports").select(..., { count: "exact" }).eq("client_id", c)
    .is("deleted_at", null).order("created_at", { ascending: false })]
    before the range is applied; its length is the [count]. *)
Definition selectListed (clientId : string) (db : Database) : list Report.Row :=
  orderByDescending Report.created_at
    (filter (fun r => Report.client_id r = Db.uuid clientId
                      /\ Report.deleted_at r = None)
       (reports db)).

(** [GET /api/clients/{clientId}/reports]; [pageParam] and
    [pageSizeParam] are the members [page] and [pageSize] of
    [Object.fromEntries(url.searchParams.entries())]. *)
Definition GET (toNumber : string -> option Q)
    (user : option AuthenticatedUser) (clientIdParam : string)
    (pageParam pageSizeParam : option string)
  : Handler (Response (Pagination.Paginated ReportListItemDTO)) :=
  authenticatedUser ← lift (requireAuth user);
  clientId ← parse (UuidParamSchema clientIdParam);
  hasAccess ← query (checkReportAccess (user_id authenticatedUser)
                       (user_role authenticatedUser) clientId);
  if negb hasAccess
  then throw 403 "Access denied. You can only view your own reports, your assigned clients' reports, or be a super admin."
  else
    clientRow ← query (Db.selectUser clientId client);
    match clientRow with
    | None => throw 404 "Client not found"
    | Some _ =>
        '(page, pageSize) ← parse (Pagination.ReportsQuerySchema toNumber
                                     pageParam pageSizeParam);
        let '(from, to) := Pagination.getPaginationRange page pageSize in
        listed ← query (selectListed clientId);
        let data := range from to listed in
        let count := Z.of_nat (length listed) in
        let reports := map toDTO data in
        let totalItems := count in
        let meta := Pagination.calculatePagination page pageSize totalItems in
        mret (Pagination.createPaginatedResponse reports meta)
    end.

End ReportList.

(* ===================================================================== *)
(** * [pages/api/clients/[clientId].ts] and [pages/api/users/[id].ts]:
      soft deletion of accounts *)
(* ===================================================================== *)

Definition setUsers (rows : gmap string Users.Row) (db : Database) : Database :=
  mkDatabase rows (trainer_client db) (reports db) (report_images db)
    (trainers db) (clients db).

(** [from("users").update({ deleted_at: now }).eq("id", id)] *)
Definition softDeleteUser (now : Z) (id : string) (db : Database) : Database :=
  setUsers (alter (fun u => Users.mk (Users.role u) (Some now)) (Db.uuid id)
              (users db)) db.

Module ClientProfile.
Import ApiHelpers.

Definition checkClientAccess (userId : string) (userRole : Role)
    (clientId : string) (db : Database) : bool :=
  if decide (userRole = super_admin) then true
  else if decide (userRole = client /\ userId = clientId) then true
  else if decide (userRole = trainer) then
    match Db.selectActiveAssignment userId clientId db with
    | Some _ => true
    | None => false
    end
  else false.

(** [DELETE /api/clients/{clientId}] *)
Definition DELETE (now : Z) (user : option AuthenticatedUser)
    (clientIdParam : string) : Handler (Response unit) :=
  authenticatedUser ← lift (requireAuth user);
  clientId ← parse (UuidParamSchema clientIdParam);
  hasAccess ←
    (if decide (user_role authenticatedUser = super_admin) then mret true
     else if decide (user_role authenticatedUser = trainer) then
       data ← query (Db.selectActiveAssignment (user_id authenticatedUser) clientId);
       mret (bool_decide (is_Some data))
     else mret false);
  if negb hasAccess
  then throw 403 "Access denied. Only trainers can delete their assigned clients or super admins."
  else
    existingClient ← query (Db.selectUser clientId client);
    match existingClient with
    | None => throw 404 "Client not found"
    | Some _ =>
        _ ← store (softDeleteUser now clientId);
        mret (mkResponse 204 tt)
    end.

End ClientProfile.

Module UsersAdmin.
Import ApiHelpers.

(** [from("users").select("id").eq("id", id).is("deleted_at", null).single()] *)
Definition selectExisting (id : string) (db : Database) : option Users.Row :=
  match users db !! Db.uuid id with
  | Some u => if decide (Users.deleted_at u = None) then Some u else None
  | None => None
  end.

(** [DELETE /api/users/{id}] *)
Definition DELETE (now : Z) (user : option AuthenticatedUser)
    (idParam : string) : Handler (Response unit) :=
  authenticatedUser ← lift (requireAuth user);
  _ ← lift (Session.requireRole authenticatedUser [super_admin]);
  id ← parse (UuidParamSchema idParam);
  existingUser ← query (selectExisting id);
  match existingUser with
  | None => throw 404 "User not found"
  | Some _ =>
      _ ← store (softDeleteUser now id);
      mret (mkResponse 204 tt)
  end.

End UsersAdmin.

(* ===================================================================== *)
(** * [pages/api/report-images/[imageId].ts] *)
(* ===================================================================== *)

Module ReportImages.
Import ApiHelpers.

Record Access : Type := mkAccess {
  hasAccess : bool;
  image : option ReportImage.Row
}.

(** [from("report_images").select("..., reports!inner (client_id)")
    .eq("id", imageId).eq("is_deleted", false).single()]: the inner
    join keeps an image once for each row of [reports] with the id the
    image refers to, deleted or not. *)
Definition selectImageWithReport (imageId : string) (db : Database)
  : option (ReportImage.Row * Report.Row) :=
  Db.single
    (i ← filter (fun i => ReportImage.id i = Db.uuid imageId
                          /\ ReportImage.is_deleted i = false)
           (report_images db);
     r ← filter (fun r => Report.id r = ReportImage.report_id i) (reports db);
     [(i, r)]).

Definition checkImageDeleteAccess (userId : string) (userRole : Role)
    (imageId : string) (db : Database) : Access :=
  match selectImageWithReport imageId db with
  | None => mkAccess false None
  | Some (image, report) =>
      let clientId := Report.client_id report in
      if decide (userRole = super_admin) then mkAccess true (Some image)
      else if decide (userRole = client /\ userId = clientId)
      then mkAccess true (Some image)
      else mkAccess false None
  end.

(** [from("report_images").update({ is_deleted: true, deleted_at: now })
    .eq("id", imageId)] *)
Definition markDeleted (now : Z) (imageId : string)
    (rows : list ReportImage.Row) : list ReportImage.Row :=
  map (fun i =>
         if decide (ReportImage.id i = Db.uuid imageId)
         then ReportImage.mk (ReportImage.id i) (ReportImage.report_id i)
                (ReportImage.storage_path i) (ReportImage.size_bytes i)
                (ReportImage.width i) (ReportImage.height i)
                (ReportImage.created_at i) true (Some now)
         else i)
    rows.

(** [DELETE /api/report-images/{imageId}].  [remove] is the
    object-storage collaborator; it answers whether it reports a
    [storageError], which the handler only logs. *)
Definition DELETE (now : Z) (remove : list string -> bool)
    (user : option AuthenticatedUser) (imageIdParam : string)
  : Handler (Response unit) :=
  authenticatedUser ← lift (requireAuth user);
  imageId ← parse (UuidParamSchema imageIdParam);
  access ← query (checkImageDeleteAccess (user_id authenticatedUser)
                    (user_role authenticatedUser) imageId);
  if negb (hasAccess access)
  then throw 403 "Access denied. Only the client who owns the report can delete images (or super_admin)."
  else
    match image access with
    | None => throw 404 "Image not found"
    | Some image =>
        _ ← store (fun db =>
               setReportImages (markDeleted now imageId (report_images db)) db);
        let storageError := remove [ReportImage.storage_path image] in
        if storageError then mret (mkResponse 204 tt)
        else mret (mkResponse 204 tt)
    end.

End ReportImages.

(* ===================================================================== *)
(** * [supabase/migrations]: the retention policy of [report_images] *)
(* ===================================================================== *)

Module Retention.

(** [interval '180 days'] *)
Definition retention : Z := 180 * Clock.msPerDay.

(** [cleanup_old_report_images()], with the reading of [now()]. *)
Definition cleanup_old_report_images (now : Z) (rows : list ReportImage.Row)
  : list ReportImage.Row :=
  map (fun i =>
         if decide (ReportImage.created_at i < now - retention
                    /\ ReportImage.is_deleted i = false)
         then ReportImage.mk (ReportImage.id i) (ReportImage.report_id i)
                (ReportImage.storage_path i) (ReportImage.size_bytes i)
                (ReportImage.width i) (ReportImage.height i)
                (ReportImage.created_at i) true (Some now)
         else i)
    rows.

End Retention.

(* ===================================================================== *)
(** * [lib/mappers/reportCardMapper.ts] *)
(* ===================================================================== *)

Module ReportCardMapper.

(** [date.getUTCDay()], Sunday = 0 (1970-01-01 was a Thursday). *)
Definition getUTCDay (t : Z) : Z := (Clock.dayNumber t + 4) mod 7.

(** [getISOWeek(date)].  [Date.UTC(y, m, d)] and [setUTCDate] let the
    day of the month run over the ends of the month, which is what
    [Clock.daysFromCivil] does with its last argument. *)
Definition getISOWeek (date : Z) : Z :=
  let '(y, m, d) := Clock.civilFromDays (Clock.dayNumber date) in
  let tmp := Clock.daysFromCivil y m d * Clock.msPerDay in
  let dayNum := if getUTCDay tmp =? 0 then 7 else getUTCDay tmp in
  let '(ty, tm, td) := Clock.civilFromDays (Clock.dayNumber tmp) in
  let tmp := Clock.daysFromCivil ty tm (td + 4 - dayNum) * Clock.msPerDay in
  let yearStart := Clock.daysFromCivil (Clock.getFullYear tmp) 1 1 * Clock.msPerDay in
  Clock.ceilDiv (tmp - yearStart + 86400000) (7 * 86400000).

Record ReportCardVM : Type := mkReportCardVM {
  id : string;
  createdAt : Z;
  weekNumber : Z;
  sequence : Z;
  cardioDays : Q
}.

(** [mapReportToCardVM(item)], without [hasNote] and [imageThumbUrls],
    which read members that [ReportListItemDTO] does not have. *)
Definition mapReportToCardVM (item : ReportList.ReportListItemDTO) : ReportCardVM :=
  let date := ReportList.created_at item in
  let weekNumber := getISOWeek date in
  mkReportCardVM (ReportList.id item) (ReportList.created_at item) weekNumber
    (ReportList.sequence item)
    (default 0%Q (ReportList.cardio_days item)).

End ReportCardMapper.

(* ===================================================================== *)
(** * Vocabulary of the properties *)
(* ===================================================================== *)

(** What a handler leaves: its response or exception, and the database. *)
Definition Outcome (A : Type) : Type := (ApiHelpers.ApiException + A) * Database.

(** The error kinds and the status codes the handlers give them. *)
Definition Validation : Z := 400.
Definition Unauthenticated : Z := 401.
Definition Forbidden : Z := 403.
Definition NotFound : Z := 404.

Definition failsWith {A : Type} (kind : Z) (o : Outcome A) : Prop :=
  exists e, fst o = inl e /\ ApiHelpers.statusCode e = kind.

(** The status code of the HTTP response, thrown or returned. *)
Definition statusOf {A : Type} (o : Outcome (Response A)) : Z :=
  match fst o with
  | inl e => ApiHelpers.statusCode e
  | inr r => status r
  end.

(** The payload of a response that was returned. *)
Definition returned {A : Type} (o : Outcome (Response A)) : option A :=
  match fst o with
  | inl _ => None
  | inr r => Some (data r)
  end.

(** The primary keys of [reports] and [report_images]. *)
Definition primaryKeys (db : Database) : Prop :=
  NoDup (Report.id <$> reports db) /\ NoDup (ReportImage.id <$> report_images db).

(** No assignment row links a user to themself: [activate] demands a
    [trainer] row and a [client] row of [users] for the two ends. *)
Definition noSelfAssignment (db : Database) : Prop :=
  forall u, trainer_client db !! (u, u) = None.

(** The database after a run of activations of one pair at the given instants. *)
Definition activateAll (user : option ApiHelpers.AuthenticatedUser)
    (trainerId clientId : string) (instants : list Z) (db : Database) : Database :=
  foldl (fun db now => snd (Activate.POST now user trainerId clientId db)) db instants.

(** The quota count of [POST]: the reports of the client that are not
    deleted and carry the year and week the helper computed. *)
Definition weekCount (clientId : string) (year weekNumber : Z) (db : Database) : nat :=
  length (filter (fun r => Report.client_id r = Db.uuid clientId /\ Report.year r = year
                           /\ Report.week_number r = weekNumber
                           /\ Report.deleted_at r = None)
            (reports db)).


(** The images a report holds: those not soft-deleted. *)
Definition imagesHeld (reportId : string) (rows : list ReportImage.Row) : nat :=
  length (filter (fun i => ReportImage.report_id i = Db.uuid reportId
                           /\ ReportImage.is_deleted i = false) rows).

(** The images of a table that are not soft-deleted. *)
Definition liveImages (rows : list ReportImage.Row) : list ReportImage.Row :=
  filter (fun i => ReportImage.is_deleted i = false) rows.

(** Who may manage the assignments of a trainer: an administrator or
    the trainer. *)
Definition mayManage (u : ApiHelpers.AuthenticatedUser) (trainerId : string) : Prop :=
  ApiHelpers.user_role u = ApiHelpers.super_admin \/ ApiHelpers.user_id u = trainerId.

(** The two ends of a pair exist in [users] with their roles. *)
Definition endsExist (trainerId clientId : string) (db : Database) : Prop :=
  is_Some (Db.selectUser trainerId ApiHelpers.trainer db)
  /\ is_Some (Db.selectUser clientId ApiHelpers.client db).

(** The two ends of a pair have their rows in [trainers] and [clients],
    to which the foreign keys of [trainer_client] refer. *)
Definition profilesExist (trainerId clientId : string) (db : Database) : Prop :=
  Db.uuid trainerId ∈ trainers db /\ Db.uuid clientId ∈ clients db.

(** The non-null values of a metric over a list of reports, in the
    order of the list. *)
Definition metricValues (metric : string) (reports : list Report.Row) : list Q :=
  omap (Trends.column metric) reports.

(** What one report adds to the array of a metric. *)
Definition pushValue (value : option Q) (trendsArray : option (list Q))
  : option (list Q) :=
  (fun a => a ++ option_list value) <$> trendsArray.

(** Who may see the data of a client: an administrator, the client, or
    a trainer with an active assignment to the client. *)
Definition mayView (u : ApiHelpers.AuthenticatedUser) (clientId : string)
    (db : Database) : Prop :=
  ApiHelpers.user_role u = ApiHelpers.super_admin
  \/ (ApiHelpers.user_role u = ApiHelpers.client /\ ApiHelpers.user_id u = clientId)
  \/ (ApiHelpers.user_role u = ApiHelpers.trainer
      /\ isActive (ApiHelpers.user_id u) clientId db = true).

(** A request to one of the routes, with the readings of the clock, the
    identifiers drawn and the collaborators it uses. *)
Inductive Request : Type :=
  | SubmitReport (now : Z) (uuid clientId : string) (body : gmap string jsval)
  | ListReports (toNumber : string -> option Q) (clientId : string)
      (page pageSize : option string)
  | GetReport (reportId : string)
  | EditReport (now : Z) (reportId : string) (body : gmap string jsval)
  | DeleteReport (now : Z) (reportId : string)
  | RequestUpload (now : Z) (uuid : string)
      (createSignedUploadUrl : string -> option string) (reportId : string)
      (body : gmap string jsval)
  | DeleteImage (now : Z) (remove : list string -> bool) (imageId : string)
  | ActivateAssignment (now : Z) (trainerId clientId : string)
  | DeactivateAssignment (trainerId clientId : string)
  | GetTrends (clientId : string) (metrics : option string)
  | DeleteClient (now : Z) (clientId : string)
  | DeleteUser (now : Z) (id : string).

(** The status code and the database an outcome leaves. *)
Definition answer {A : Type} (o : Outcome (Response A)) : Z * Database :=
  (statusOf o, snd o).

(** The route of a request, run for the user of a session. *)
Definition serve (request : Request) (sessionUser : option string)
    (db : Database) : Z * Database :=
  match request with
  | SubmitReport now uuid clientId body =>
      answer (Session.createApiRoute
                (fun user => ClientReports.POST now uuid user clientId body)
                sessionUser db)
  | ListReports toNumber clientId page pageSize =>
      answer (Session.createApiRoute
                (fun user => ReportList.GET toNumber user clientId page pageSize)
                sessionUser db)
  | GetReport reportId =>
      answer (Session.createApiRoute
                (fun user => Reports.GET user reportId) sessionUser db)
  | EditReport now reportId body =>
      answer (Session.createApiRoute
                (fun user => Reports.PATCH now user reportId body) sessionUser db)
  | DeleteReport now reportId =>
      answer (Session.createApiRoute
                (fun user => Reports.DELETE now user reportId) sessionUser db)
  | RequestUpload now uuid createSignedUploadUrl reportId body =>
      answer (Session.createApiRoute
                (fun user => UploadUrl.POST now uuid createSignedUploadUrl user
                               reportId body)
                sessionUser db)
  | DeleteImage now remove imageId =>
      answer (Session.createApiRoute
                (fun user => ReportImages.DELETE now remove user imageId)
                sessionUser db)
  | ActivateAssignment now trainerId clientId =>
      answer (Session.createApiRoute
                (fun user => Activate.POST now user trainerId clientId)
                sessionUser db)
  | DeactivateAssignment trainerId clientId =>
      answer (Session.createApiRoute
                (fun user => Deactivate.POST user trainerId clientId)
                sessionUser db)
  | GetTrends clientId metrics =>
      answer (Session.createApiRoute
                (fun user => Trends.GET user clientId metrics) sessionUser db)
  | DeleteClient now clientId =>
      answer (Session.createApiRoute
                (fun user => ClientProfile.DELETE now user clientId)
                sessionUser db)
  | DeleteUser now id =>
      answer (Session.createApiRoute
                (fun user => UsersAdmin.DELETE now user id) sessionUser db)
  end.

(** The database after a run of requests, each with its session. *)
Definition serveAll (requests : list (Request * option string)) (db : Database)
  : Database :=
  foldl (fun db '(request, sessionUser) => snd (serve request sessionUser db))
    db requests.

(** The columns of a report no update writes. *)
Definition sameIdentity (a b : Report.Row) : Prop :=
  Report.id a = Report.id b /\ Report.client_id a = Report.client_id b
  /\ Report.created_at a = Report.created_at b
  /\ Report.week_number a = Report.week_number b
  /\ Report.year a = Report.year b /\ Report.sequence a = Report.sequence b.

(** What a request can do to the database. *)
Inductive Effect (db : Database) : Database -> Prop :=
  | effect_none : Effect db db
  | effect_report_stored (new row : Report.Row) (rows' : list Report.Row) :
      Db.insertReport new db = Some (row, rows') ->
      Effect db (setReports rows' db)
  | effect_report_updated (reportId : string) (f : Report.Row -> Report.Row) :
      (forall r, sameIdentity (f r) r) ->
      (forall r, Report.deleted_at r <> None -> Report.deleted_at (f r) <> None) ->
      Effect db (setReports (Db.updateReports reportId f (reports db)) db)
  | effect_image_stored (new : ReportImage.Row) (rows' : list ReportImage.Row) :
      (imagesHeld (ReportImage.report_id new) (report_images db) < 3)%nat ->
      ReportImage.is_deleted new = false ->
      Db.insertImage new db = Some rows' ->
      Effect db (setReportImages rows' db)
  | effect_image_deleted (now : Z) (imageId : string) :
      Effect db (setReportImages
                   (ReportImages.markDeleted now imageId (report_images db)) db)
  | effect_assignment (trainerId clientId : string) (row : TrainerClient.Row) :
      endsExist trainerId clientId db ->
      Effect db (setTrainerClient
                   (<[(Db.uuid trainerId, Db.uuid clientId) := row]>
                      (trainer_client db)) db)
  | effect_user_deleted (now : Z) (id : string) :
      Effect db (softDeleteUser now id db).

(** The unique key of a report. *)
Definition slot (r : Report.Row) : string * Z * Z * Z :=
  (Report.client_id r, Report.week_number r, Report.year r, Report.sequence r).

(** [check (sequence in (0, 1))] and the unique key, as invariants of
    the table. *)
Definition weekSlots (rows : list Report.Row) : Prop :=
  Forall (fun r => Report.sequence r = 0 \/ Report.sequence r = 1) rows
  /\ NoDup (slot <$> rows).

(** The reports stored for a client under a year and week, deleted or
    not. *)
Definition storedForWeek (clientId : string) (year weekNumber : Z)
    (rows : list Report.Row) : list Report.Row :=
  filter (fun r => Report.client_id r = Db.uuid clientId /\ Report.year r = year
                   /\ Report.week_number r = weekNumber) rows.

(** Every report carries the week and year the trigger derives from
    its [created_at]. *)
Definition weeksFromTrigger (rows : list Report.Row) : Prop :=
  Forall (fun r => Report.week_number r = Clock.extractWeek (Report.created_at r)
                   /\ Report.year r = Clock.extractYear (Report.created_at r))
    rows.

(** No report holds more than three images. *)
Definition imageCeiling (rows : list ReportImage.Row) : Prop :=
  forall reportId, (imagesHeld reportId rows <= 3)%nat.

Definition consistent (db : Database) : Prop :=
  primaryKeys db /\ noSelfAssignment db /\ weekSlots (reports db)
  /\ weeksFromTrigger (reports db) /\ imageCeiling (report_images db).

(** The columns of an image no update writes. *)
Definition sameImage (a b : ReportImage.Row) : Prop :=
  ReportImage.id a = ReportImage.id b
  /\ ReportImage.report_id a = ReportImage.report_id b
  /\ ReportImage.storage_path a = ReportImage.storage_path b
  /\ ReportImage.size_bytes a = ReportImage.size_bytes b
  /\ ReportImage.created_at a = ReportImage.created_at b.

(** Every row of [db] is still in [db'], at its place, with its
    identity, and deleted if it was. *)
Definition persists (db db' : Database) : Prop :=
  (forall i r, reports db !! i = Some r ->
     exists r', reports db' !! i = Some r' /\ sameIdentity r' r
                /\ (Report.deleted_at r <> None -> Report.deleted_at r' <> None))
  /\ (forall i x, report_images db !! i = Some x ->
        exists x', report_images db' !! i = Some x' /\ sameImage x' x
                   /\ (ReportImage.is_deleted x = true ->
                       ReportImage.is_deleted x' = true))
  /\ (forall id u, users db !! id = Some u ->
        exists u', users db' !! id = Some u' /\ Users.role u' = Users.role u
                   /\ (Users.deleted_at u <> None -> Users.deleted_at u' <> None))
  /\ (forall k a, trainer_client db !! k = Some a ->
        is_Some (trainer_client db' !! k)).

(** A report with [deleted_at] set, as [DELETE /api/reports/{reportId}]
    writes it. *)
Definition deletedAt (now : Z) (r : Report.Row) : Report.Row :=
  Report.mk (Report.id r) (Report.client_id r) (Report.created_at r)
    (Report.week_number r) (Report.year r) (Report.sequence r)
    (Report.weight r) (Report.waist r) (Report.chest r)
    (Report.biceps_left r) (Report.biceps_right r)
    (Report.thigh_left r) (Report.thigh_right r)
    (Report.cardio_days r) (Report.note r) (Some now).

(** How many times a name occurs in a list of metric names. *)
Definition occurrences (metric : string) (metrics : list string) : nat :=
  length (filter (fun k => k = metric) metrics).

(** The non-null values of a metric over a list of reports, in the order
    of the list, each repeated [c] times. *)
Definition repeatedValues (c : nat) (metric : string) (reports : list Report.Row)
  : list Q :=
  reports ≫= (fun r => match Trends.column metric r with
                        | Some value => replicate c value
                        | None => []
                        end).

(** A member of the trends object: absent when there is no value. *)
Definition nonEmpty (values : list Q) : option (list Q) :=
  match values with
  | [] => None
  | _ => Some values
  end.

(** The instants from 1970 on that a [Date] can hold.  There
    [Date.UTC(y, m, d)] and [new Date(y, 0, 1)] read the year as it is
    given (a year below 100 is read as a year of the twentieth
    century). *)
Definition dateRange (t : Z) : Prop := 0 <= t <= 8640000000000000.

(** Checking a property of day numbers on a range of days: the civil
    calendar repeats every 146097 days, so one such range decides a
    property that the shift by 400 years leaves as it is. *)
Fixpoint allFrom (check : Z -> bool) (start : Z) (n : nat) : bool :=
  match n with
  | O => true
  | S k => if check start then allFrom check (start + 1) k else false
  end.

(** The day number of the civil date of a day is that day, which falls
    on one of the 366 days that start with January 1 of its year. *)
Definition roundTrips (z : Z) : bool :=
  let '(y, m, d) := Clock.civilFromDays z in
  (Clock.daysFromCivil y m d =? z)
  && (0 <=? z - Clock.daysFromCivil y 1 1) && (z - Clock.daysFromCivil y 1 1 <=? 365).






(* ===================================================================== *)
(** * Proof tactics *)
(* ===================================================================== *)

(** Unfolding the monad of the handlers. *)
Ltac run_handler :=
  cbv beta iota delta [mbind Handler_bind mret Handler_ret lift parse query
                       store throw createSuccessResponse
                       ApiHelpers.requireAuth].




(** The status of a handler that has run to its end. *)
Ltac status_leaf :=
  unfold statusOf, NotFound;
  cbn [fst snd ApiHelpers.statusCode status negb Reports.hasAccess
       ReportImages.hasAccess ReportImages.image];
  try discriminate.

(* ===================================================================== *)
(** * Sample data for the examples *)
(* ===================================================================== *)

Module Sample.
Import ApiHelpers.

Definition adminId : string := "00000000-0000-4000-8000-00000000000a".
Definition coachId : string := "00000000-0000-4000-8000-00000000000b".
Definition clientId : string := "00000000-0000-4000-8000-00000000000c".
Definition reportA : string := "00000000-0000-4000-8000-0000000000a1".
Definition reportB : string := "00000000-0000-4000-8000-0000000000a2".
Definition reportC : string := "00000000-0000-4000-8000-0000000000a3".
Definition imageId (n : nat) : string :=
  "00000000-0000-4000-8000-0000000000f" +:+ String (Ascii.ascii_of_nat (48 + n)) EmptyString.

Definition admin : AuthenticatedUser := mkUser adminId super_admin.
Definition coach : AuthenticatedUser := mkUser coachId trainer.
Definition owner : AuthenticatedUser := mkUser clientId client.

Definition people : gmap string Users.Row :=
  {[ adminId := Users.mk super_admin None;
     coachId := Users.mk trainer None;
     clientId := Users.mk client None ]}.

(** The rows of [trainers] and [clients] that come with them. *)
Definition coaches : gset string := {[ coachId ]}.
Definition customers : gset string := {[ clientId ]}.

(** A report of the sample client that records a weight only. *)
Definition report (id : string) (created_at week_number year sequence : Z)
    (weight : option Q) (deleted_at : option Z) : Report.Row :=
  Report.mk id clientId created_at week_number year sequence weight
    None None None None None None None None deleted_at.

Definition image (n : nat) (report_id : string) (is_deleted : bool) : ReportImage.Row :=
  ReportImage.mk (imageId n) report_id "reports/x.jpg" 1000 None None
    (Z.of_nat n) is_deleted (if is_deleted then Some 0 else None).

(** The people alone, no assignment, report or image. *)
Definition empty : Database := mkDatabase people ∅ [] [] coaches customers.

End Sample.

Module Examples.

(** JavaScript's [Number] on the strings of decimal digits, which is
    all the examples pass; any other string is taken for [NaN]. *)
Fixpoint digits (acc : Z) (s : string) : option Z :=
  match s with
  | EmptyString => Some acc
  | String c rest =>
      let n := Ascii.nat_of_ascii c in
      if ((48 <=? n) && (n <=? 57))%nat
      then digits (10 * acc + Z.of_nat (n - 48)) rest
      else None
  end.

Definition decimal (s : string) : option Q := inject_Z <$> digits 0 s.

(** Three reports of the sample client, created a week apart, the
    second one listed first in the table. *)
Definition t0 : Z := Clock.utc 2024 1 10 8 0 0.

Definition first : Report.Row := Sample.report Sample.reportA t0 2 2024 0 (Some 70%Q) None.
Definition second : Report.Row :=
  Sample.report Sample.reportB (t0 + 7 * Clock.msPerDay) 3 2024 0 None None.
Definition third : Report.Row :=
  Sample.report Sample.reportC (t0 + 14 * Clock.msPerDay) 4 2024 0 (Some 68%Q) None.

Definition threeReports : Database := setReports [second; first; third] Sample.empty.

(** The first report with three images. *)
Definition threeImages : Database :=
  mkDatabase Sample.people ∅ [first]
    [Sample.image 1 Sample.reportA false; Sample.image 2 Sample.reportA false;
     Sample.image 3 Sample.reportA false]
    Sample.coaches Sample.customers.

Definition uploadBody : gmap string jsval :=
  {[ "contentType" := JStr "image/png"; "size" := JNum 2048 ]}.

Definition sign (path : string) : option string :=
  Some ("https://storage.example/" +:+ path).

End Examples.

(* ===================================================================== *)
(** * Properties *)
(* ===================================================================== *)

(** ** Sanity checks of the calendar functions *)

Example civil_1970 : Clock.civilFromDays 0 = (1970, 1, 1).
Proof. reflexivity. Qed.

Example civil_leap_day :
  Clock.civilFromDays (Clock.daysFromCivil 2024 2 29) = (2024, 2, 29).
Proof. reflexivity. Qed.

Example iso_2025_03_10 :
  Clock.isoWeekInfo (Clock.utc 2025 3 10 8 0 0) = (2025, 11).
Proof. reflexivity. Qed.

Example iso_2021_01_03 :
  Clock.isoWeekInfo (Clock.utc 2021 1 3 0 0 0) = (2020, 53).
Proof. reflexivity. Qed.

(* ===================================================================== *)
(** ** Running a handler *)

Lemma UuidParamSchema_ok (id : string) :
  Zod.isUuid id = true -> ApiHelpers.UuidParamSchema id = Some id.
Proof. unfold ApiHelpers.UuidParamSchema. intros ->. reflexivity. Qed.

Lemma failsWith_throw {A : Type} (kind : Z) (msg : string) (db : Database) :
  failsWith kind (@throw A kind msg db).
Proof. eexists. split; reflexivity. Qed.

(* ===================================================================== *)
(** ** The types of the columns *)

Lemma lowerHex_idem (c : Ascii.ascii) : Db.lowerHex (Db.lowerHex c) = Db.lowerHex c.
Proof.
  destruct c as [[] [] [] [] [] [] [] []]; reflexivity.
Qed.

(** A uuid that the database printed reads as itself. *)
Lemma uuid_idem (text : string) : Db.uuid (Db.uuid text) = Db.uuid text.
Proof.
  induction text as [|c rest IH]; [reflexivity|].
  cbn [Db.uuid]. rewrite lowerHex_idem, IH. reflexivity.
Qed.

(** The spelling of a path parameter does not matter to the database. *)
Example uuid_upper_case :
  Zod.isUuid "00000000-0000-4000-8000-0000000000A1" = true
  /\ Db.uuid "00000000-0000-4000-8000-0000000000A1"
     = "00000000-0000-4000-8000-0000000000a1".
Proof. split; reflexivity. Qed.

(** The rounding of [numeric(6,2)]. *)
Lemma hundredths_bounds (n : Z) (d : positive) :
  let h := (2 * (Z.abs n * 100) + Z.pos d) / (2 * Z.pos d) in
  0 <= h /\ 2 * Z.pos d * h <= 2 * (Z.abs n * 100) + Z.pos d < 2 * Z.pos d * h + 2 * Z.pos d.
Proof.
  intros h. 
  pose proof (Z.div_mod (2 * (Z.abs n * 100) + Z.pos d) (2 * Z.pos d) ltac:(lia)) as Hdm.
  pose proof (Z.mod_pos_bound (2 * (Z.abs n * 100) + Z.pos d) (2 * Z.pos d) ltac:(lia)) as Hm.
  fold h in Hdm. split; [|lia].
  apply Z.div_pos; lia.
Qed.


(** A number of hundredths is stored as it is. *)
Lemma numeric_hundredths (v : Q) (k : Z) :
  (v == k # 100)%Q -> Db.numeric v = Qred (k # 100).
Proof.
  intros Hv. unfold Db.numeric. cbv zeta. apply Qred_complete.
  destruct v as [n d]. unfold Qeq in *. cbn [Qnum Qden] in *.
  destruct (hundredths_bounds n d) as [Hh0 Hh]. cbv zeta in Hh, Hh0.
  assert (Habs : Z.abs n * 100 = Z.abs k * Z.pos d).
  { rewrite <- (Z.abs_eq (Z.pos d)) at 1 by lia. rewrite <- Z.abs_mul.
    replace (Z.abs n * 100) with (Z.abs (n * 100)) by (rewrite Z.abs_mul; lia).
    f_equal. exact Hv. }
  assert (Hh' : (2 * (Z.abs n * 100) + Z.pos d) / (2 * Z.pos d) = Z.abs k) by nia.
  assert (Hs : Z.sgn n = Z.sgn k) by (destruct n, k; simpl in *; lia).
  rewrite Hh', Hs, (Z.mul_comm (Z.sgn k)), Z.abs_sgn. reflexivity.
Qed.

Lemma numeric_idem (v : Q) : Db.numeric (Db.numeric v) = Db.numeric v.
Proof.
  unfold Db.numeric at 2 3. cbv zeta.
  apply numeric_hundredths. apply Qred_correct.
Qed.




(* ===================================================================== *)
(** ** Week numbering *)

Lemma getCurrentWeekInfo_getWeekInfo (now : Z) :
  ApiHelpers.getCurrentWeekInfo now = ApiHelpers.getWeekInfo now.
Proof. reflexivity. Qed.

(** The year of the helper is the calendar year of its argument, for
    every instant. *)
Lemma getWeekInfo_calendar_year (date : Z) :
  fst (ApiHelpers.getWeekInfo date) = Clock.getFullYear date.
Proof. reflexivity. Qed.

(** The trigger stores the calendar year as well. *)
Lemma trigger_calendar_year (new : Report.Row) :
  Report.year (Db.set_report_week_and_year new)
  = Clock.getFullYear (Report.created_at new).
Proof. reflexivity. Qed.

(** C1. The pair stored on a new report is not derived by ISO 8601 week
    numbering.  On Monday 2024-12-30, which ISO 8601 places in week 1 of
    2025, [getWeekInfo] and [getCurrentWeekInfo] answer (2024, 53), the
    insert trigger stores (2024, 1), and the report that [POST] returns
    carries year 2024; on Monday 2025-03-10, of ISO week 11, the helper
    answers week 10; and the week of the missing-report query is a
    third derivation, which at noon of 2025-01-07 answers week 2 where
    the helper answers week 1. *)
Theorem week_info_is_not_iso_8601 :
  let now := Clock.utc 2024 12 30 12 0 0 in
  Clock.isoWeekInfo now = (2025, 1)
  /\ ApiHelpers.getWeekInfo now = (2024, 53)
  /\ ApiHelpers.getCurrentWeekInfo now = (2024, 53)
  /\ (exists r db',
        ClientReports.POST now Sample.reportA (Some Sample.owner)
          Sample.clientId ∅ Sample.empty
        = (inr (mkResponse 201 (r, [])), db')
        /\ (Report.year r, Report.week_number r) = (2024, 1))
  /\ Clock.isoWeekInfo (Clock.utc 2025 3 10 8 0 0) = (2025, 11)
  /\ ApiHelpers.getWeekInfo (Clock.utc 2025 3 10 8 0 0) = (2025, 10)
  /\ ApiHelpers.getCurrentWeekInfo (Clock.utc 2025 1 7 12 0 0) = (2025, 1)
  /\ Clients.currentWeek (Clock.utc 2025 1 7 12 0 0) = (2025, 2).
Proof.
  repeat split; try reflexivity.
  eexists _, _. split; vm_compute; reflexivity.
Qed.

(* ===================================================================== *)
(** ** Reports that cannot be fetched *)

Lemma filter_none {A : Type} (P : A -> Prop) `{forall x, Decision (P x)}
    (l : list A) :
  (forall x, x ∈ l -> ~ P x) -> filter P l = [].
Proof.
  induction l as [|a l IH]; intros Hl; [reflexivity|].
  rewrite filter_cons. destruct (decide (P a)) as [Ha|_].
  - exfalso. apply (Hl a); [left|exact Ha].
  - apply IH. intros x Hx. apply Hl. right. exact Hx.
Qed.

(** A report id that names no row, or only soft-deleted rows, selects
    nothing. *)
Lemma selectReport_missing (reportId : string) (db : Database) :
  (forall r, r ∈ reports db -> Report.id r = Db.uuid reportId ->
             Report.deleted_at r <> None) ->
  Db.selectReport reportId db = None.
Proof.
  intros Hgone. unfold Db.selectReport.
  rewrite filter_none; [reflexivity|].
  intros r Hr [Hid Hdel]. exact (Hgone r Hr Hid Hdel).
Qed.

Lemma checkReportAccess_missing (userId : string) (userRole : ApiHelpers.Role)
    (reportId : string) (db : Database) :
  Db.selectReport reportId db = None ->
  Reports.checkReportAccess userId userRole reportId db = Reports.mkAccess false None.
Proof. unfold Reports.checkReportAccess. intros ->. reflexivity. Qed.

Lemma checkImageUploadAccess_missing (userId : string) (userRole : ApiHelpers.Role)
    (reportId : string) (db : Database) :
  Db.selectReport reportId db = None ->
  UploadUrl.checkImageUploadAccess userId userRole reportId db
  = Reports.mkAccess false None.
Proof. unfold UploadUrl.checkImageUploadAccess. intros ->. reflexivity. Qed.

(** C10. For every authenticated principal, whatever its role, a get, an
    edit or a soft-delete of a report id that names no report, or a
    report already soft-deleted, fails Forbidden and leaves the database
    as it was: the access check fetches the report first and grants
    nothing when the fetch returns nothing.  A request for an upload URL
    behaves the same.  The id names a report in whatever case its
    hexadecimal digits are written: it is compared as a uuid. *)
Theorem missing_report_is_forbidden
    (db : Database) (now : Z) (u : ApiHelpers.AuthenticatedUser)
    (reportId uuid : string) (body : gmap string jsval)
    (sign : string -> option string) :
  Zod.isUuid reportId = true ->
  (forall r, r ∈ reports db -> Report.id r = Db.uuid reportId ->
             Report.deleted_at r <> None) ->
  (failsWith Forbidden (Reports.GET (Some u) reportId db)
   /\ snd (Reports.GET (Some u) reportId db) = db)
  /\ (failsWith Forbidden (Reports.PATCH now (Some u) reportId body db)
      /\ snd (Reports.PATCH now (Some u) reportId body db) = db)
  /\ (failsWith Forbidden (Reports.DELETE now (Some u) reportId db)
      /\ snd (Reports.DELETE now (Some u) reportId db) = db)
  /\ (failsWith Forbidden (UploadUrl.POST now uuid sign (Some u) reportId body db)
      /\ snd (UploadUrl.POST now uuid sign (Some u) reportId body db) = db).
Proof.
  intros Huuid Hgone.
  pose proof (selectReport_missing _ _ Hgone) as Hsel.
  unfold Reports.GET, Reports.PATCH, Reports.DELETE, UploadUrl.POST.
  run_handler.
  rewrite (UuidParamSchema_ok _ Huuid). run_handler.
  rewrite (checkReportAccess_missing _ _ _ _ Hsel).
  rewrite (checkImageUploadAccess_missing _ _ _ _ Hsel). simpl.
  repeat split; eexists; split; reflexivity.
Qed.

Lemma missing_report_is_forbidden_witness :
  let gone := "00000000-0000-4000-8000-0000000000A1" in
  let db := setReports [Sample.report Sample.reportA 0 1 1970 0 None (Some 5);
                        Sample.report Sample.reportB 0 1 1970 1 None None]
              Sample.empty in
  Zod.isUuid gone = true
  /\ (forall r, r ∈ reports db -> Report.id r = Db.uuid gone ->
                Report.deleted_at r <> None)
  /\ failsWith Forbidden (Reports.GET (Some Sample.admin) gone db)
  /\ failsWith Forbidden (Reports.DELETE 9 (Some Sample.admin) gone db).
Proof.
  intros gone db.
  assert (Hgone : forall r, r ∈ reports db -> Report.id r = Db.uuid gone ->
                            Report.deleted_at r <> None).
  { intros r Hr Hid. apply elem_of_cons in Hr as [->|Hr]; [discriminate|].
    apply list_elem_of_singleton in Hr. subst r. discriminate. }
  split; [reflexivity|]. split; [exact Hgone|].
  destruct (missing_report_is_forbidden db 9 Sample.admin gone Sample.reportC ∅
              (fun _ => None) eq_refl Hgone) as ((Hget & _) & _ & (Hdel & _) & _).
  split; assumption.
Defined.

(* ===================================================================== *)
(** ** Submitting a report *)




Section Submit.

Variables (db : Database) (now : Z) (uuid clientId : string)
  (body : gmap string jsval) (reportData : ApiHelpers.ReportData)
  (year weekNumber : Z).

Hypothesis Huuid : Zod.isUuid clientId = true.
Hypothesis Hclient : is_Some (Db.selectUser clientId ApiHelpers.client db).
Hypothesis Hbody : ApiHelpers.SubmitReportSchema body = Some reportData.
Hypothesis Hweek : ApiHelpers.getCurrentWeekInfo now = (year, weekNumber).

Local Abbreviation submit :=
  (ClientReports.POST now uuid
     (Some (ApiHelpers.mkUser clientId ApiHelpers.client)) clientId body db).

Local Abbreviation count := (weekCount clientId year weekNumber db).





End Submit.

(** C2. The quota check turns a third report of the week away with
    Conflict ([submit_quota_conflict]), but below the quota the report is
    not always persisted with the count as its sequence number.  The
    count leaves soft-deleted reports out while the unique key
    (client_id, week_number, year, sequence) keeps them: a client who
    submits on 2024-01-10, deletes that report and submits again finds
    no report counted, is given sequence 0 again, and the insert is
    refused.  And the count is taken for the week the helper computes
    while the row is stored under the week the trigger computes: on
    Monday 2025-03-10 the first report is stored under week 11, the
    second submission counts the reports of week 10, finds none, and is
    refused as well. *)
Theorem submit_below_quota_not_persisted :
  let body : gmap string jsval := {[ "weight" := JNum 70 ]} in
  let post now uuid db :=
    ClientReports.POST now uuid (Some Sample.owner) Sample.clientId body db in
  (* submit, delete, submit again *)
  let t0 := Clock.utc 2024 1 10 8 0 0 in
  let t1 := Clock.utc 2024 1 10 8 30 0 in
  let t2 := Clock.utc 2024 1 10 9 0 0 in
  let db1 := snd (post t0 Sample.reportA Sample.empty) in
  let db2 := snd (Reports.DELETE t1 (Some Sample.owner) Sample.reportA db1) in
  (statusOf (post t0 Sample.reportA Sample.empty) = 201
   /\ statusOf (Reports.DELETE t1 (Some Sample.owner) Sample.reportA db1) = 204
   /\ ApiHelpers.getCurrentWeekInfo t2 = (2024, 2)
   /\ weekCount Sample.clientId 2024 2 db2 = 0%nat
   /\ post t2 Sample.reportB db2
      = (inl (ApiHelpers.mkApiException 500 "Failed to create report"), db2))
  (* two submissions on Monday 2025-03-10 *)
  /\ let m0 := Clock.utc 2025 3 10 8 0 0 in
     let m1 := Clock.utc 2025 3 10 9 0 0 in
     let dbm := snd (post m0 Sample.reportA Sample.empty) in
     (Report.sequence ∘ fst) <$> returned (post m0 Sample.reportA Sample.empty)
     = Some 0
     /\ ApiHelpers.getCurrentWeekInfo m1 = (2025, 10)
     /\ Report.week_number <$> reports dbm = [11]
     /\ weekCount Sample.clientId 2025 10 dbm = 0%nat
     /\ post m1 Sample.reportB dbm
        = (inl (ApiHelpers.mkApiException 500 "Failed to create report"), dbm).
Proof. vm_compute. repeat split; reflexivity. Qed.

(* ===================================================================== *)
(** ** Editing a report *)

Lemma filter_map_commute {A : Type} (P : A -> Prop) `{forall x, Decision (P x)}
    (g : A -> A) (l : list A) :
  (forall x, P (g x) <-> P x) -> filter P (map g l) = map g (filter P l).
Proof.
  intros Hg. induction l as [|a l IH]; [reflexivity|].
  simpl. rewrite !filter_cons.
  destruct (decide (P (g a))) as [Hga|Hga], (decide (P a)) as [Ha|Ha];
    simpl; rewrite ?IH; try reflexivity.
  - exfalso. apply Ha, Hg, Hga.
  - exfalso. apply Hga, Hg, Ha.
Qed.

(** Under the primary key, an id selects the one row that carries it. *)
Lemma filter_by_id (rows : list Report.Row) (r : Report.Row) :
  NoDup (Report.id <$> rows) -> r ∈ rows ->
  filter (fun x => Report.id x = Report.id r) rows = [r].
Proof.
  induction rows as [|a rows IH]; intros Hnd Hin.
  - inversion Hin.
  - rewrite fmap_cons in Hnd. apply NoDup_cons in Hnd as [Hfresh Hnd].
    rewrite filter_cons. apply elem_of_cons in Hin as [->|Hin].
    + rewrite decide_True by reflexivity. f_equal.
      apply filter_none. intros x Hx Hid. apply Hfresh.
      rewrite <- Hid. apply list_elem_of_fmap. exists x. split; [reflexivity|exact Hx].
    + rewrite decide_False; [apply IH; assumption|].
      intros Hid. apply Hfresh. rewrite Hid.
      apply list_elem_of_fmap. exists r. split; [reflexivity|exact Hin].
Qed.

Lemma single_Some {A : Type} (l : list A) (x : A) :
  Db.single l = Some x -> l = [x].
Proof. destruct l as [|a [|b l]]; simpl; congruence. Qed.

(** A report that was selected is a row of the table, with the id asked
    for and no deletion stamp. *)
Lemma selectReport_Some (reportId : string) (db : Database) (report : Report.Row) :
  Db.selectReport reportId db = Some report ->
  report ∈ reports db /\ Report.id report = Db.uuid reportId
  /\ Report.deleted_at report = None.
Proof.
  unfold Db.selectReport. intros Hs. apply single_Some in Hs.
  assert (Hin : report ∈ filter (fun r => Report.id r = Db.uuid reportId
                                          /\ Report.deleted_at r = None)
                          (reports db)) by (rewrite Hs; left).
  apply list_elem_of_filter in Hin as [[Hid Hdel] Hin]. auto.
Qed.








Section Edit.

Variables (db : Database) (now : Z) (u : ApiHelpers.AuthenticatedUser)
  (reportId : string) (body : gmap string jsval) (report : Report.Row).

Hypothesis Huuid : Zod.isUuid reportId = true.
Hypothesis Hsel : Db.selectReport reportId db = Some report.

Local Abbreviation edit := (Reports.PATCH now (Some u) reportId body db).




End Edit.



(** A member left out of the body is left out of the parsed data. *)
Lemma numberOptional_absent (lo hi : Q) (r : option Q) :
  Zod.numberOptional lo hi None = Some r -> r = None.
Proof. simpl. congruence. Qed.











(* ===================================================================== *)
(** ** Requesting an upload *)

Lemma ImageUploadRequestSchema_contentType (body : gmap string jsval) :
  body !! "contentType" <> Some (JStr "image/jpeg") ->
  body !! "contentType" <> Some (JStr "image/png") ->
  ApiHelpers.ImageUploadRequestSchema body = None.
Proof.
  intros Hj Hp. unfold ApiHelpers.ImageUploadRequestSchema.
  destruct (body !! "contentType") as [[| | |s|]|]; try reflexivity.
  destruct (decide (s = "image/jpeg")) as [->|_]; [congruence|].
  destruct (decide (s = "image/png")) as [->|_]; [congruence|].
  reflexivity.
Qed.

Lemma ImageUploadRequestSchema_size (body : gmap string jsval) :
  (forall n, body !! "size" = Some (JNum n) -> ~ (n <= ApiHelpers.maxImageSize)%Q) ->
  ApiHelpers.ImageUploadRequestSchema body = None.
Proof.
  intros Hsize. unfold ApiHelpers.ImageUploadRequestSchema.
  destruct (match body !! "contentType" with Some (JStr _) => _ | _ => _ end);
    [simpl|reflexivity].
  unfold Zod.intRequired, Zod.between.
  destruct (body !! "size") as [[| |n| |]|]; try reflexivity.
  destruct (Qle_bool n ApiHelpers.maxImageSize) eqn:Hle.
  - apply Qle_bool_iff in Hle. exfalso. exact (Hsize n eq_refl Hle).
  - rewrite !andb_false_r. reflexivity.
Qed.

(** What the schema accepted is a JPEG or PNG of at most 5 MB. *)
Lemma ImageUploadRequestSchema_accepts (body : gmap string jsval)
    (request : ApiHelpers.ImageUploadRequest) :
  ApiHelpers.ImageUploadRequestSchema body = Some request ->
  (body !! "contentType" = Some (JStr "image/jpeg")
   \/ body !! "contentType" = Some (JStr "image/png"))
  /\ body !! "size" = Some (JNum (ApiHelpers.size request))
  /\ (1 <= ApiHelpers.size request <= 5 * 1024 * 1024)%Q
  /\ Zod.isInteger (ApiHelpers.size request) = true.
Proof.
  intros Hreq. split.
  - unfold ApiHelpers.ImageUploadRequestSchema in Hreq.
    apply bind_Some in Hreq as (ct & Hct & _).
    destruct (body !! "contentType") as [[| | |s|]|]; try discriminate.
    destruct (decide (s = "image/jpeg")) as [->|_]; [left; reflexivity|].
    destruct (decide (s = "image/png")) as [->|_]; [right; reflexivity|].
    discriminate.
  - unfold ApiHelpers.ImageUploadRequestSchema in Hreq.
    apply bind_Some in Hreq as (ct & _ & Hreq).
    apply bind_Some in Hreq as (sz & Hsz & Hreq).
    injection Hreq as <-. simpl.
    unfold Zod.intRequired, Zod.between in Hsz.
    destruct (body !! "size") as [[| |n| |]|]; try discriminate.
    destruct (Zod.isInteger n) eqn:Hint; simpl in Hsz; [|discriminate].
    destruct (Qle_bool 1 n) eqn:Hlo; simpl in Hsz; [|discriminate].
    destruct (Qle_bool n ApiHelpers.maxImageSize) eqn:Hhi; [|discriminate].
    injection Hsz as <-. apply Qle_bool_iff in Hlo, Hhi. auto.
Qed.

(** The count of the ceiling looks at the live images only. *)
Lemma imagesHeld_live (reportId : string) (rows : list ReportImage.Row) :
  imagesHeld reportId (liveImages rows) = imagesHeld reportId rows.
Proof.
  unfold imagesHeld, liveImages. f_equal.
  apply list_filter_filter_l. intros i [_ Hlive]. exact Hlive.
Qed.

Lemma imagesHeld_ignores_deleted (reportId : string)
    (rows deleted : list ReportImage.Row) :
  Forall (fun i => ReportImage.is_deleted i = true) deleted ->
  imagesHeld reportId (rows ++ deleted) = imagesHeld reportId rows.
Proof.
  intros Hdel. unfold imagesHeld. rewrite filter_app, length_app.
  rewrite (filter_none _ deleted); [simpl; lia|].
  intros i Hi [_ Hlive].
  rewrite Forall_forall in Hdel. rewrite (Hdel i Hi) in Hlive. discriminate.
Qed.

(** An upload is granted for a report that can be selected. *)
Lemma uploadAccess_report (userId : string) (userRole : ApiHelpers.Role)
    (reportId : string) (db : Database) :
  Reports.hasAccess
    (UploadUrl.checkImageUploadAccess userId userRole reportId db) = true ->
  exists report, Db.selectReport reportId db = Some report.
Proof.
  unfold UploadUrl.checkImageUploadAccess.
  destruct (Db.selectReport reportId db) as [report|]; [eauto | discriminate].
Qed.

Lemma toInteger_bound (n : Q) :
  (n <= ApiHelpers.maxImageSize)%Q -> UploadUrl.toInteger n <= 10485760.
Proof.
  unfold Qle, UploadUrl.toInteger. simpl. intros Hle.
  apply Z.le_trans with 5242880; [|lia].
  apply Z.div_le_upper_bound; lia.
Qed.

Lemma toInteger_inject (n : Q) :
  Zod.isInteger n = true -> (inject_Z (UploadUrl.toInteger n) == n)%Q.
Proof.
  unfold Zod.isInteger, UploadUrl.toInteger, Qeq. intros Hint.
  apply Z.eqb_eq in Hint. cbn [Qnum Qden inject_Z].
  pose proof (Z.div_mod (Qnum n) (Z.pos (Qden n)) ltac:(discriminate)). lia.
Qed.

Section Upload.

Variables (db : Database) (now : Z) (uuid : string)
  (sign : string -> option string) (u : ApiHelpers.AuthenticatedUser)
  (reportId : string) (body : gmap string jsval).

Hypothesis Huuid : Zod.isUuid reportId = true.
Hypothesis Haccess :
  Reports.hasAccess
    (UploadUrl.checkImageUploadAccess (ApiHelpers.user_id u)
       (ApiHelpers.user_role u) reportId db) = true.

Local Abbreviation upload := (UploadUrl.POST now uuid sign (Some u) reportId body db).

Lemma upload_invalid :
  ApiHelpers.ImageUploadRequestSchema body = None ->
  failsWith Validation upload /\ snd upload = db.
Proof.
  intros Hreq. unfold UploadUrl.POST. run_handler.
  rewrite (UuidParamSchema_ok _ Huuid). run_handler.
  rewrite Haccess. simpl. rewrite Hreq.
  split; [eexists; split; reflexivity | reflexivity].
Qed.

Lemma upload_steps (request : ApiHelpers.ImageUploadRequest) :
  ApiHelpers.ImageUploadRequestSchema body = Some request ->
  upload =
  if (3 <=? imagesHeld reportId (report_images db))%nat
  then (inl (ApiHelpers.mkApiException 400 "Maximum 3 images per report exceeded"), db)
  else
    let path := UploadUrl.makeStoragePath reportId uuid (ApiHelpers.contentType request) in
    match sign path with
    | None => (inl (ApiHelpers.mkApiException 500 "Failed to create upload URL"), db)
    | Some signedUrl =>
        match Db.insertImage
                (ReportImage.mk uuid reportId path
                   (UploadUrl.toInteger (ApiHelpers.size request))
                   None None now false None) db with
        | None => (inl (ApiHelpers.mkApiException 500 "Failed to create image record"), db)
        | Some rows' =>
            (inr (mkResponse 200 (UploadUrl.mkUploadTicket signedUrl path uuid)),
             setReportImages rows' db)
        end
    end.
Proof.
  intros Hreq. unfold UploadUrl.POST. run_handler.
  rewrite (UuidParamSchema_ok _ Huuid). run_handler.
  rewrite Haccess. cbn [negb]. rewrite Hreq. run_handler.
  change (length (Db.selectImages reportId db))
    with (imagesHeld reportId (report_images db)).
  destruct (3 <=? imagesHeld reportId (report_images db))%nat; [reflexivity|].
  cbv zeta. destruct (sign _); [|reflexivity].
  destruct (Db.insertImage _ _); reflexivity.
Qed.

(** The table takes the record of an image of at most 5 MB under a
    fresh id: the report it refers to is the one the access check
    selected. *)
Lemma upload_record_accepted (request : ApiHelpers.ImageUploadRequest)
    (path : string) :
  ApiHelpers.ImageUploadRequestSchema body = Some request ->
  Forall (fun i => ReportImage.id i <> Db.uuid uuid) (report_images db) ->
  let new := ReportImage.mk uuid reportId path
               (UploadUrl.toInteger (ApiHelpers.size request))
               None None now false None in
  Db.insertImage new db = Some (report_images db ++ [Db.imageColumns new]).
Proof.
  intros Hreq Hfresh new. unfold Db.insertImage. cbv zeta.
  rewrite decide_True; [reflexivity|].
  split; [exact Hfresh|]. split.
  - destruct (uploadAccess_report _ _ _ _ Haccess) as [report Hsel].
    apply selectReport_Some in Hsel as (Hin & Hid & _).
    apply Exists_exists. exists report. split; [exact Hin | exact Hid].
  - cbn [Db.imageColumns ReportImage.size_bytes new]. apply toInteger_bound.
    apply (ImageUploadRequestSchema_accepts _ _ Hreq).
Qed.

End Upload.

(** C5. For every upload request that passed the access check: the
    request fails Validation unless the content type is JPEG or PNG and
    the size is at most 5 MB; once the body is accepted it fails with
    the image-limit Validation error exactly when the report holds three
    or more images that are not soft-deleted, however many soft-deleted
    images the table has; otherwise, given a signed URL and a fresh id,
    the answer carries the URL, the id and the path
    [reports/{reportId}/{id}.jpg] or [.png], and [report_images] has
    one row more, the record of the image: of this report, with that
    id, that path and the size of the request, created now and not
    deleted.  No other table changes. *)
Theorem upload_request (db : Database) (now : Z) (uuid : string)
    (sign : string -> option string) (u : ApiHelpers.AuthenticatedUser)
    (reportId : string) (body : gmap string jsval) :
  Zod.isUuid reportId = true ->
  Reports.hasAccess
    (UploadUrl.checkImageUploadAccess (ApiHelpers.user_id u)
       (ApiHelpers.user_role u) reportId db) = true ->
  let upload := UploadUrl.POST now uuid sign (Some u) reportId body db in
  let limit : ApiHelpers.ApiException + Response UploadUrl.UploadTicket :=
    inl (ApiHelpers.mkApiException 400 "Maximum 3 images per report exceeded") in
  ((body !! "contentType" <> Some (JStr "image/jpeg")
    /\ body !! "contentType" <> Some (JStr "image/png"))
   \/ (forall n, body !! "size" = Some (JNum n) ->
                 ~ (n <= 5 * 1024 * 1024)%Q) ->
   failsWith Validation upload /\ snd upload = db)
  /\ (forall request, ApiHelpers.ImageUploadRequestSchema body = Some request ->
      (fst upload = limit <-> (3 <= imagesHeld reportId (report_images db))%nat)
      /\ ((3 <= imagesHeld reportId (report_images db))%nat ->
          failsWith Validation upload /\ snd upload = db)
      /\ (forall deleted,
            Forall (fun i => ReportImage.is_deleted i = true) deleted ->
            fst (UploadUrl.POST now uuid sign (Some u) reportId body
                   (mkDatabase (users db) (trainer_client db) (reports db)
                      (report_images db ++ deleted) (trainers db) (clients db)))
            = limit
            <-> fst upload = limit)
      /\ ((imagesHeld reportId (report_images db) < 3)%nat ->
          let extension :=
            match ApiHelpers.contentType request with
            | ApiHelpers.image_jpeg => "jpg"
            | ApiHelpers.image_png => "png"
            end in
          let path := "reports/" +:+ reportId +:+ "/" +:+ uuid +:+ "." +:+ extension in
          forall signedUrl, sign path = Some signedUrl ->
          Forall (fun i => ReportImage.id i <> Db.uuid uuid) (report_images db) ->
          fst upload = inr (mkResponse 200 (UploadUrl.mkUploadTicket signedUrl path uuid))
          /\ (exists record,
                report_images (snd upload) = report_images db ++ [record]
                /\ ReportImage.id record = Db.uuid uuid
                /\ (exists report, Db.selectReport reportId db = Some report
                                   /\ ReportImage.report_id record = Report.id report)
                /\ ReportImage.storage_path record = path
                /\ (inject_Z (ReportImage.size_bytes record)
                    == ApiHelpers.size request)%Q
                /\ ReportImage.created_at record = now
                /\ ReportImage.is_deleted record = false
                /\ ReportImage.deleted_at record = None)
          /\ reports (snd upload) = reports db
          /\ users (snd upload) = users db
          /\ trainer_client (snd upload) = trainer_client db)).
Proof.
  intros Huuid Haccess upload limit. split.
  - intros Hbad.
    apply (upload_invalid db now uuid sign u reportId body Huuid Haccess).
    destruct Hbad as [[Hj Hp]|Hsize].
    + apply ImageUploadRequestSchema_contentType; assumption.
    + apply ImageUploadRequestSchema_size. exact Hsize.
  - intros request Hreq.
    pose proof (upload_steps db now uuid sign u reportId body Huuid Haccess
                  request Hreq) as Hsteps.
    assert (Hiff : forall db2,
               Reports.hasAccess
                 (UploadUrl.checkImageUploadAccess (ApiHelpers.user_id u)
                    (ApiHelpers.user_role u) reportId db2) = true ->
               fst (UploadUrl.POST now uuid sign (Some u) reportId body db2) = limit
               <-> (3 <= imagesHeld reportId (report_images db2))%nat).
    { intros db2 Hacc2.
      rewrite (upload_steps db2 now uuid sign u reportId body Huuid Hacc2
                 request Hreq).
      destruct (Nat.leb_spec 3 (imagesHeld reportId (report_images db2)))
        as [Hge|Hlt].
      - split; [intros _; exact Hge | reflexivity].
      - split; [|lia]. cbv zeta.
        destruct (sign _); [|discriminate].
        destruct (Db.insertImage _ _); discriminate. }
    split; [exact (Hiff db Haccess)|]. split; [|split].
    + intros Hge. subst upload. rewrite Hsteps.
      destruct (Nat.leb_spec 3 (imagesHeld reportId (report_images db)))
        as [_|Hlt]; [|lia].
      split; [eexists; split; reflexivity | reflexivity].
    + intros deleted Hdel. subst upload.
      rewrite (Hiff (mkDatabase (users db) (trainer_client db) (reports db)
                       (report_images db ++ deleted) (trainers db) (clients db))
                 Haccess).
      rewrite (Hiff db Haccess). cbn [report_images].
      rewrite (imagesHeld_ignores_deleted _ _ _ Hdel). reflexivity.
    + intros Hlt extension path signedUrl Hsign Hfresh. subst upload.
      rewrite Hsteps.
      destruct (Nat.leb_spec 3 (imagesHeld reportId (report_images db)))
        as [Hge|_]; [lia|].
      cbv zeta.
      change (UploadUrl.makeStoragePath reportId uuid (ApiHelpers.contentType request))
        with path.
      rewrite Hsign.
      rewrite (upload_record_accepted db now uuid u reportId body Haccess
                 request path Hreq Hfresh).
      cbn [fst snd setReportImages report_images reports users trainer_client].
      split; [reflexivity|]. split; [|repeat split].
      eexists. split; [reflexivity|].
      cbn [Db.imageColumns ReportImage.id ReportImage.report_id
           ReportImage.storage_path ReportImage.size_bytes
           ReportImage.created_at ReportImage.is_deleted ReportImage.deleted_at].
      split; [reflexivity|]. split.
      { destruct (uploadAccess_report _ _ _ _ Haccess) as [report Hsel].
        exists report. split; [exact Hsel|]. symmetry.
        apply (selectReport_Some _ _ _ Hsel). }
      split; [reflexivity|]. split; [|repeat split].
      apply toInteger_inject. apply (ImageUploadRequestSchema_accepts _ _ Hreq).
Qed.

Lemma upload_request_witness :
  let t0 := Clock.utc 2024 1 10 8 0 0 in
  let first := Sample.report Sample.reportA t0 2 2024 0 (Some 70%Q) None in
  let two := [Sample.image 1 Sample.reportA false; Sample.image 2 Sample.reportA true;
              Sample.image 3 Sample.reportA false; Sample.image 4 Sample.reportA true] in
  let three := two ++ [Sample.image 5 Sample.reportA false] in
  let db2 := mkDatabase Sample.people ∅ [first] two Sample.coaches Sample.customers in
  let db3 := mkDatabase Sample.people ∅ [first] three Sample.coaches Sample.customers in
  let body : gmap string jsval :=
    {[ "contentType" := JStr "image/png"; "size" := JNum 2048 ]} in
  let sign := fun path : string => Some ("https://storage.example/" +:+ path) in
  let upper := "00000000-0000-4000-8000-0000000000A1" in
  (Zod.isUuid upper = true
   /\ Reports.hasAccess
        (UploadUrl.checkImageUploadAccess Sample.clientId ApiHelpers.client
           upper db2) = true)
  /\ (fst (UploadUrl.POST t0 (Sample.imageId 6) sign (Some Sample.owner) upper body db2)
      = inr (mkResponse 200
               (UploadUrl.mkUploadTicket
                  "https://storage.example/reports/00000000-0000-4000-8000-0000000000A1/00000000-0000-4000-8000-0000000000f6.png"
                  "reports/00000000-0000-4000-8000-0000000000A1/00000000-0000-4000-8000-0000000000f6.png"
                  (Sample.imageId 6)))
      /\ exists record,
           report_images
             (snd (UploadUrl.POST t0 (Sample.imageId 6) sign (Some Sample.owner)
                     upper body db2))
           = two ++ [record]
           /\ ReportImage.report_id record = Sample.reportA)
  /\ failsWith Validation
       (UploadUrl.POST t0 (Sample.imageId 6) sign (Some Sample.owner)
          upper body db3).
Proof.
  intros t0 first two three db2 db3 body sign upper.
  split; [split; reflexivity|].
  assert (Hreq : ApiHelpers.ImageUploadRequestSchema body
                 = Some (ApiHelpers.mkImageUploadRequest ApiHelpers.image_png 2048))
    by reflexivity.
  split.
  - destruct (upload_request db2 t0 (Sample.imageId 6) sign Sample.owner
                upper body eq_refl eq_refl) as [_ Hvalid].
    destruct (Hvalid _ Hreq) as (_ & _ & _ & Hstore).
    destruct (Hstore ltac:(vm_compute; lia) _ eq_refl
                ltac:(apply (bool_decide_unpack _); vm_compute; exact I))
      as (Hanswer & (record & Hrows & _ & (report & Hsel & Hreport) & _) & _).
    split; [exact Hanswer|].
    exists record. split; [exact Hrows|].
    rewrite Hreport. vm_compute in Hsel. injection Hsel as <-. reflexivity.
  - destruct (upload_request db3 t0 (Sample.imageId 6) sign Sample.owner
                upper body eq_refl eq_refl) as [_ Hvalid].
    destruct (Hvalid _ Hreq) as (_ & Hfull & _).
    exact (proj1 (Hfull ltac:(vm_compute; lia))).
Defined.

(* ===================================================================== *)
(** ** Assignments *)

Lemma alter_Some_insert {V : Type} (f : V -> V) (k : string * string) (a : V)
    (m : gmap (string * string) V) :
  m !! k = Some a -> alter f k m = <[k := f a]> m.
Proof.
  intros Hk. apply map_eq. intros j. destruct (decide (k = j)) as [<-|Hne].
  - rewrite lookup_alter_eq, lookup_insert_eq, Hk. reflexivity.
  - rewrite lookup_alter_ne, lookup_insert_ne by exact Hne. reflexivity.
Qed.

Lemma selectUser_users (id : string) (role : ApiHelpers.Role) (db1 db2 : Database) :
  users db1 = users db2 -> Db.selectUser id role db1 = Db.selectUser id role db2.
Proof. unfold Db.selectUser. intros ->. reflexivity. Qed.

Section Assignment.

Variables (u : ApiHelpers.AuthenticatedUser) (trainerId clientId : string).

Hypothesis Htrainer : Zod.isUuid trainerId = true.
Hypothesis Hclient : Zod.isUuid clientId = true.
Hypothesis Hmay : mayManage u trainerId.

Local Abbreviation pair := (Db.uuid trainerId, Db.uuid clientId).

Lemma endsExist_users (db1 db2 : Database) :
  users db1 = users db2 -> endsExist trainerId clientId db1 -> endsExist trainerId clientId db2.
Proof.
  unfold endsExist. intros Hu.
  rewrite (selectUser_users _ _ _ _ Hu), (selectUser_users _ _ _ _ Hu). auto.
Qed.

(** An end that is no user with its role, or a deleted one, stops both
    handlers with NotFound, whatever rows [trainer_client] has. *)
Lemma assignment_ends_missing (now : Z) (db : Database) :
  ~ endsExist trainerId clientId db ->
  (failsWith NotFound (Activate.POST now (Some u) trainerId clientId db)
   /\ snd (Activate.POST now (Some u) trainerId clientId db) = db)
  /\ (failsWith NotFound (Deactivate.POST (Some u) trainerId clientId db)
      /\ snd (Deactivate.POST (Some u) trainerId clientId db) = db).
Proof.
  intros Hends. unfold Activate.POST, Deactivate.POST. run_handler.
  rewrite (UuidParamSchema_ok _ Htrainer). run_handler.
  rewrite (UuidParamSchema_ok _ Hclient). run_handler.
  destruct (decide _) as [[Hrole Hid]|_]; [destruct Hmay; contradiction|].
  destruct (Db.selectUser trainerId _ db) eqn:Htr;
    [|repeat split; eexists; split; reflexivity].
  destruct (Db.selectUser clientId _ db) eqn:Hcl;
    [|repeat split; eexists; split; reflexivity].
  exfalso. apply Hends. unfold endsExist. rewrite Htr, Hcl. split; eauto.
Qed.

Lemma activate_result (now : Z) (db : Database) :
  endsExist trainerId clientId db ->
  is_Some (trainer_client db !! pair) \/ profilesExist trainerId clientId db ->
  Activate.POST now (Some u) trainerId clientId db
  = (inr (mkResponse 200
            (mkAssignmentDTO (Db.uuid trainerId) (Db.uuid clientId) true now)),
     setTrainerClient
       (<[pair := TrainerClient.mk true now]> (trainer_client db)) db).
Proof.
  intros [[tr Htr] [cl Hcl]] Hkeys. unfold Activate.POST. run_handler.
  rewrite (UuidParamSchema_ok _ Htrainer). run_handler.
  rewrite (UuidParamSchema_ok _ Hclient). run_handler.
  destruct (decide _) as [[Hrole Hid]|_]; [destruct Hmay; contradiction|].
  rewrite Htr, Hcl. unfold Db.selectAssignment, Db.insertAssignment.
  destruct (trainer_client db !! pair) as [a|] eqn:Hrow.
  - rewrite (alter_Some_insert _ _ _ _ Hrow). reflexivity.
  - destruct Hkeys as [[a Ha]|[Ht Hc]]; [discriminate|].
    rewrite decide_True; [reflexivity|]. split; [exact Hrow|]. split; assumption.
Qed.

(** Without a row for the pair and without the rows the foreign keys
    refer to, the insert is refused. *)
Lemma activate_refused (now : Z) (db : Database) :
  endsExist trainerId clientId db ->
  trainer_client db !! pair = None ->
  ~ profilesExist trainerId clientId db ->
  failsWith 500 (Activate.POST now (Some u) trainerId clientId db)
  /\ snd (Activate.POST now (Some u) trainerId clientId db) = db.
Proof.
  intros [[tr Htr] [cl Hcl]] Hrow Hkeys. unfold Activate.POST. run_handler.
  rewrite (UuidParamSchema_ok _ Htrainer). run_handler.
  rewrite (UuidParamSchema_ok _ Hclient). run_handler.
  destruct (decide _) as [[Hrole Hid]|_]; [destruct Hmay; contradiction|].
  rewrite Htr, Hcl. unfold Db.selectAssignment, Db.insertAssignment.
  rewrite Hrow. rewrite decide_False.
  - split; [eexists; split; reflexivity | reflexivity].
  - intros (_ & Ht & Hc). apply Hkeys. split; assumption.
Qed.

Lemma deactivate_missing (db : Database) :
  trainer_client db !! pair = None ->
  failsWith NotFound (Deactivate.POST (Some u) trainerId clientId db)
  /\ snd (Deactivate.POST (Some u) trainerId clientId db) = db.
Proof.
  intros Hrow. unfold Deactivate.POST. run_handler.
  rewrite (UuidParamSchema_ok _ Htrainer). run_handler.
  rewrite (UuidParamSchema_ok _ Hclient). run_handler.
  destruct (decide _) as [[Hrole Hid]|_]; [destruct Hmay; contradiction|].
  destruct (Db.selectUser trainerId _ db);
    [|split; [eexists; split; reflexivity | reflexivity]].
  destruct (Db.selectUser clientId _ db);
    [|split; [eexists; split; reflexivity | reflexivity]].
  unfold Db.selectAssignment.
  rewrite Hrow. split; [eexists; split; reflexivity | reflexivity].
Qed.

Lemma deactivate_result (db : Database) (a : TrainerClient.Row) :
  endsExist trainerId clientId db ->
  trainer_client db !! pair = Some a ->
  Deactivate.POST (Some u) trainerId clientId db
  = (inr (mkResponse 200
            (mkAssignmentDTO (Db.uuid trainerId) (Db.uuid clientId) false
               (TrainerClient.started_at a))),
     setTrainerClient
       (<[pair := TrainerClient.mk false (TrainerClient.started_at a)]>
          (trainer_client db))
       db).
Proof.
  intros [[tr Htr] [cl Hcl]] Hrow. unfold Deactivate.POST. run_handler.
  rewrite (UuidParamSchema_ok _ Htrainer). run_handler.
  rewrite (UuidParamSchema_ok _ Hclient). run_handler.
  destruct (decide _) as [[Hrole Hid]|_]; [destruct Hmay; contradiction|].
  unfold Db.selectAssignment. rewrite Htr, Hcl, Hrow.
  rewrite (alter_Some_insert _ _ _ _ Hrow). reflexivity.
Qed.

(** What an activation does is read off its status: answered 200 it
    found both ends and left the row of the pair active; answered
    otherwise it changed nothing. *)
Lemma activate_outcome (now : Z) (db : Database) :
  let activate := Activate.POST now (Some u) trainerId clientId db in
  (statusOf activate = 200 /\ endsExist trainerId clientId db
   /\ snd activate
      = setTrainerClient
          (<[pair := TrainerClient.mk true now]> (trainer_client db)) db)
  \/ (statusOf activate <> 200 /\ snd activate = db).
Proof.
  cbv zeta. unfold Activate.POST. run_handler.
  rewrite (UuidParamSchema_ok _ Htrainer). run_handler.
  rewrite (UuidParamSchema_ok _ Hclient). run_handler.
  destruct (decide _) as [[Hrole Hid]|_]; [destruct Hmay; contradiction|].
  unfold endsExist.
  destruct (Db.selectUser trainerId _ db) as [tr|] eqn:Htr;
    [|right; split; [discriminate|reflexivity]].
  destruct (Db.selectUser clientId _ db) as [cl|] eqn:Hcl;
    [|right; split; [discriminate|reflexivity]].
  unfold Db.selectAssignment, Db.insertAssignment.
  destruct (trainer_client db !! pair) as [a|] eqn:Hrow.
  - left. rewrite (alter_Some_insert _ _ _ _ Hrow). split; [reflexivity|].
    split; [split; eauto|reflexivity].
  - destruct (decide _) as [Hacc|Hno].
    + left. split; [reflexivity|]. split; [split; eauto|reflexivity].
    + right. split; [discriminate|reflexivity].
Qed.

Lemma activateAll_snoc (instants : list Z) (now : Z) (db : Database) :
  activateAll (Some u) trainerId clientId (instants ++ [now]) db
  = snd (Activate.POST now (Some u) trainerId clientId
           (activateAll (Some u) trainerId clientId instants db)).
Proof. unfold activateAll. rewrite foldl_app. reflexivity. Qed.

(** A run of activations keeps what the first one needs. *)
Lemma activateAll_keeps (instants : list Z) (db : Database) :
  endsExist trainerId clientId db ->
  is_Some (trainer_client db !! pair) \/ profilesExist trainerId clientId db ->
  let after := activateAll (Some u) trainerId clientId instants db in
  users after = users db
  /\ (is_Some (trainer_client after !! pair) \/ profilesExist trainerId clientId after).
Proof.
  intros Hends Hkeys. induction instants as [|now instants IH] using rev_ind;
    [split; [reflexivity | exact Hkeys]|].
  cbv zeta in *. destruct IH as [IHu IHk].
  rewrite activateAll_snoc, activate_result; [|
    apply (endsExist_users db); [symmetry; exact IHu | exact Hends] | exact IHk].
  cbn [snd setTrainerClient users trainer_client].
  split; [exact IHu|]. left. rewrite lookup_insert_eq. eauto.
Qed.

Lemma activateAll_users (instants : list Z) (db : Database) :
  endsExist trainerId clientId db ->
  is_Some (trainer_client db !! pair) \/ profilesExist trainerId clientId db ->
  users (activateAll (Some u) trainerId clientId instants db) = users db.
Proof. intros Hends Hkeys. apply (activateAll_keeps instants db Hends Hkeys). Qed.

(** After a run of activations the row of the pair is active and
    carries the instant of the last one. *)
Lemma activateAll_row (instants : list Z) (db : Database) :
  endsExist trainerId clientId db ->
  is_Some (trainer_client db !! pair) \/ profilesExist trainerId clientId db ->
  trainer_client (activateAll (Some u) trainerId clientId instants db) !! pair
  = match last instants with
    | Some now => Some (TrainerClient.mk true now)
    | None => trainer_client db !! pair
    end.
Proof.
  intros Hends Hkeys. destruct instants as [|now instants _] using rev_ind;
    [reflexivity|].
  destruct (activateAll_keeps instants db Hends Hkeys) as [Hu Hk].
  rewrite activateAll_snoc, last_snoc, activate_result.
  - simpl. apply lookup_insert_eq.
  - apply (endsExist_users db); [symmetry; exact Hu | exact Hends].
  - exact Hk.
Qed.

End Assignment.

(** C6, as the code has it.  For every pair of a coach and a client and
    a caller who is the coach or an administrator.  When an end of the
    pair is no user with its role, or a deleted one, [activate] and
    [deactivate] both fail NotFound and change nothing, also for a pair
    that has a row.  When both ends are there: [activate] answers 200
    and leaves the pair's row with [is_active = true] and [started_at =
    now], rewriting the row when there is one and inserting it when
    there is none and the ends have their rows in [trainers] and
    [clients], every other row as it was, and activating again at the
    same instant changes nothing more; an insert that the foreign keys
    refuse is answered 500; [deactivate] fails NotFound when the pair
    has no row, and otherwise sets [is_active = false] and keeps
    [started_at]; after any run of activations a deactivation leaves
    [isActive] false, and one more activation makes it true again with
    the new instant as [started_at]. *)
Theorem assignment_lifecycle (db : Database) (now : Z)
    (u : ApiHelpers.AuthenticatedUser) (trainerId clientId : string) :
  Zod.isUuid trainerId = true ->
  Zod.isUuid clientId = true ->
  mayManage u trainerId ->
  let activate now db := Activate.POST now (Some u) trainerId clientId db in
  let deactivate db := Deactivate.POST (Some u) trainerId clientId db in
  let pair := (Db.uuid trainerId, Db.uuid clientId) in
  let insertable db :=
    is_Some (trainer_client db !! pair) \/ profilesExist trainerId clientId db in
  (* an end is missing *)
  (~ endsExist trainerId clientId db ->
   (failsWith NotFound (activate now db) /\ snd (activate now db) = db)
   /\ (failsWith NotFound (deactivate db) /\ snd (deactivate db) = db))
  /\ (endsExist trainerId clientId db ->
      (* activate *)
      (insertable db ->
       statusOf (activate now db) = 200
       /\ trainer_client (snd (activate now db))
          = <[pair := TrainerClient.mk true now]> (trainer_client db)
       /\ isActive trainerId clientId (snd (activate now db)) = true
       /\ (users (snd (activate now db)) = users db
           /\ reports (snd (activate now db)) = reports db
           /\ report_images (snd (activate now db)) = report_images db)
       /\ activate now (snd (activate now db))
          = (fst (activate now db), snd (activate now db)))
      /\ (~ insertable db ->
          failsWith 500 (activate now db) /\ snd (activate now db) = db)
      (* deactivate *)
      /\ (trainer_client db !! pair = None ->
          failsWith NotFound (deactivate db) /\ snd (deactivate db) = db)
      /\ (forall a, trainer_client db !! pair = Some a ->
            statusOf (deactivate db) = 200
            /\ trainer_client (snd (deactivate db))
               = <[pair := TrainerClient.mk false (TrainerClient.started_at a)]>
                   (trainer_client db)
            /\ isActive trainerId clientId (snd (deactivate db)) = false)
      (* any run of activations, a deactivation, an activation *)
      /\ (insertable db ->
          forall first rest,
            let before := activateAll (Some u) trainerId clientId (first :: rest) db in
            isActive trainerId clientId before = true
            /\ statusOf (deactivate before) = 200
            /\ isActive trainerId clientId (snd (deactivate before)) = false
            /\ forall again,
                 let after := snd (activate again (snd (deactivate before))) in
                 isActive trainerId clientId after = true
                 /\ trainer_client after !! pair
                    = Some (TrainerClient.mk true again))).
Proof.
  intros Htr Hcl Hmay activate deactivate pair insertable.
  pose proof (activate_result u trainerId clientId Htr Hcl Hmay) as Hact.
  pose proof (deactivate_result u trainerId clientId Htr Hcl Hmay) as Hde.
  subst insertable deactivate activate pair. cbv beta.
  assert (Hoff : forall d a, endsExist trainerId clientId d ->
            trainer_client d !! (Db.uuid trainerId, Db.uuid clientId) = Some a ->
            isActive trainerId clientId
              (snd (Deactivate.POST (Some u) trainerId clientId d)) = false).
  { intros d a Hd Ha. rewrite (Hde d a Hd Ha).
    unfold isActive, Db.selectActiveAssignment.
    cbn [snd setTrainerClient trainer_client].
    rewrite lookup_insert_eq. reflexivity. }
  split; [apply assignment_ends_missing; assumption|].
  intros Hends. split; [|split; [|split; [|split]]].
  - intros Hkeys. rewrite (Hact now db Hends Hkeys).
    cbn [statusOf fst snd status setTrainerClient trainer_client users reports
         report_images].
    split; [reflexivity|]. split; [reflexivity|]. split.
    { unfold isActive, Db.selectActiveAssignment.
      cbn [setTrainerClient trainer_client]. rewrite lookup_insert_eq. reflexivity. }
    split; [repeat split|].
    rewrite Hact; [| exact Hends
                   | left; cbn [setTrainerClient trainer_client];
                     rewrite lookup_insert_eq; eauto].
    cbn [setTrainerClient trainer_client users reports report_images trainers clients].
    rewrite insert_insert_eq. reflexivity.
  - intros Hkeys.
    destruct (trainer_client db !! (Db.uuid trainerId, Db.uuid clientId)) as [a|] eqn:Hrow.
    { exfalso. apply Hkeys. left. eauto. }
    apply (activate_refused u trainerId clientId Htr Hcl Hmay now db Hends Hrow).
    intros Hp. apply Hkeys. right. exact Hp.
  - intros Hrow. apply deactivate_missing; assumption.
  - intros a Hrow. split; [|split].
    + rewrite (Hde db a Hends Hrow). reflexivity.
    + rewrite (Hde db a Hends Hrow). reflexivity.
    + exact (Hoff db a Hends Hrow).
  - intros Hkeys first rest.
    set (before := activateAll (Some u) trainerId clientId (first :: rest) db).
    assert (Hlast : exists t, trainer_client before
                                !! (Db.uuid trainerId, Db.uuid clientId)
                              = Some (TrainerClient.mk true t)).
    { subst before.
      rewrite (activateAll_row u trainerId clientId Htr Hcl Hmay _ db Hends Hkeys).
      destruct (last (first :: rest)) as [t|] eqn:Hl; [eauto|].
      apply last_None in Hl. discriminate. }
    destruct Hlast as [t Hrow].
    assert (Hbefore : endsExist trainerId clientId before).
    { apply (endsExist_users trainerId clientId db); [|exact Hends]. symmetry.
      apply activateAll_users; assumption. }
    clearbody before.
    split; [|split; [|split]].
    + unfold isActive, Db.selectActiveAssignment.
      rewrite Hrow. reflexivity.
    + rewrite (Hde before _ Hbefore Hrow). reflexivity.
    + exact (Hoff before _ Hbefore Hrow).
    + intros again.
      rewrite (Hde before _ Hbefore Hrow). cbn [snd].
      rewrite Hact; [| exact Hbefore
                     | left; cbn [setTrainerClient trainer_client];
                       rewrite lookup_insert_eq; eauto].
      unfold isActive, Db.selectActiveAssignment.
      cbn [snd setTrainerClient trainer_client].
      rewrite lookup_insert_eq. split; reflexivity.
Qed.

Lemma assignment_lifecycle_witness :
  let db := Sample.empty in
  let many := activateAll (Some Sample.coach) Sample.coachId Sample.clientId
                [10; 20; 30] db in
  (Zod.isUuid Sample.coachId = true /\ Zod.isUuid Sample.clientId = true
   /\ mayManage Sample.coach Sample.coachId
   /\ endsExist Sample.coachId Sample.clientId db
   /\ profilesExist Sample.coachId Sample.clientId db)
  /\ failsWith NotFound
       (Deactivate.POST (Some Sample.coach) Sample.coachId Sample.clientId db)
  /\ isActive Sample.coachId Sample.clientId many = true
  /\ isActive Sample.coachId Sample.clientId
       (snd (Deactivate.POST (Some Sample.coach) Sample.coachId Sample.clientId many))
     = false.
Proof.
  intros db many.
  assert (Hmay : mayManage Sample.coach Sample.coachId) by (right; reflexivity).
  assert (Hends : endsExist Sample.coachId Sample.clientId db).
  { split; eexists; vm_compute; reflexivity. }
  assert (Hkeys : profilesExist Sample.coachId Sample.clientId db).
  { split; apply (bool_decide_unpack _); vm_compute; exact I. }
  split; [split; [reflexivity | split; [reflexivity |
            split; [exact Hmay | split; [exact Hends | exact Hkeys]]]]|].
  destruct (assignment_lifecycle db 0 Sample.coach Sample.coachId Sample.clientId
              eq_refl eq_refl Hmay) as (_ & Hlive).
  destruct (Hlive Hends) as (_ & _ & Hmissing & _ & Hrun).
  split; [exact (proj1 (Hmissing eq_refl))|].
  destruct (Hrun (or_intror Hkeys) 10 [20; 30]) as (Hon & _ & Hoff & _).
  split; [exact Hon | exact Hoff].
Defined.

(** C6, as the spec has it, fails: [deactivate] does not set
    [is_active = false] for every pair that has a row.  The coach of
    the sample activates the client, an administrator deletes the
    client's account, which leaves the assignment in place, and the
    coach's deactivation is then answered 404 "Client not found" while
    the row stays active.  And [activate] does not insert a row for
    every pair that has none: for a user made a trainer who has no
    row in [trainers] the insert is refused and the answer is 500. *)
Lemma deactivate_deleted_client_counterexample :
  let on := Activate.POST 10 (Some Sample.coach) Sample.coachId Sample.clientId
              Sample.empty in
  let deleted := ClientProfile.DELETE 20 (Some Sample.admin) Sample.clientId (snd on) in
  let off := Deactivate.POST (Some Sample.coach) Sample.coachId Sample.clientId
               (snd deleted) in
  let otherId := "00000000-0000-4000-8000-00000000000d" in
  let unlisted := setUsers (<[otherId := Users.mk ApiHelpers.trainer None]>
                              Sample.people) Sample.empty in
  (statusOf on = 200 /\ statusOf deleted = 204
   /\ trainer_client (snd deleted) !! (Sample.coachId, Sample.clientId)
      = Some (TrainerClient.mk true 10)
   /\ fst off = inl (ApiHelpers.mkApiException 404 "Client not found")
   /\ isActive Sample.coachId Sample.clientId (snd off) = true
   /\ ~ (statusOf off = 200
         /\ isActive Sample.coachId Sample.clientId (snd off) = false))
  /\ (endsExist otherId Sample.clientId unlisted
      /\ trainer_client unlisted !! (otherId, Sample.clientId) = None
      /\ Activate.POST 10 (Some Sample.admin) otherId Sample.clientId unlisted
         = (inl (ApiHelpers.mkApiException 500 "Failed to create assignment"),
            unlisted)).
Proof.
  intros on deleted off otherId unlisted.
  split; [|split; [split; eexists; vm_compute; reflexivity | split; reflexivity]].
  split; [reflexivity|]. split; [reflexivity|]. split; [reflexivity|].
  split; [reflexivity|]. split; [reflexivity|].
  intros [Hstatus _]. vm_compute in Hstatus. discriminate.
Qed.

(* ===================================================================== *)
(** ** Coaches and report content *)

(** The two handlers that write [trainer_client] never link a user to
    themself: the two ends must be a trainer and a client of [users]. *)
Lemma activate_keeps_noSelfAssignment (db : Database) (now : Z)
    (user : option ApiHelpers.AuthenticatedUser) (trainerId clientId : string) :
  noSelfAssignment db ->
  noSelfAssignment (snd (Activate.POST now user trainerId clientId db)).
Proof.
  intros Hno. unfold Activate.POST. run_handler.
  destruct user as [u|]; [|exact Hno]. run_handler.
  unfold ApiHelpers.UuidParamSchema.
  destruct (Zod.isUuid trainerId); [|exact Hno]. run_handler.
  destruct (Zod.isUuid clientId); [|exact Hno]. run_handler.
  destruct (decide _); [exact Hno|].
  destruct (Db.selectUser trainerId _ db) as [tr|] eqn:Htr; [|exact Hno].
  destruct (Db.selectUser clientId _ db) as [cl|] eqn:Hcl; [|exact Hno].
  assert (Hne : Db.uuid trainerId <> Db.uuid clientId).
  { intros Heq. unfold Db.selectUser in Htr, Hcl. rewrite Heq in Htr.
    destruct (users db !! Db.uuid clientId) as [row|]; [|discriminate].
    destruct (decide (Users.role row = ApiHelpers.trainer /\ _)) as [[Hr1 _]|];
      [|discriminate].
    destruct (decide (Users.role row = ApiHelpers.client /\ _)) as [[Hr2 _]|];
      [|discriminate].
    congruence. }
  assert (Hother : forall w : string, (Db.uuid trainerId, Db.uuid clientId) <> (w, w))
    by (intros w [= H1 H2]; apply Hne; congruence).
  unfold Db.selectAssignment, Db.insertAssignment.
  destruct (trainer_client db !! (Db.uuid trainerId, Db.uuid clientId)).
  - intros w; cbn [snd setTrainerClient trainer_client].
    rewrite lookup_alter_ne by apply Hother. apply Hno.
  - destruct (decide _); [|exact Hno].
    intros w; cbn [snd setTrainerClient trainer_client].
    rewrite lookup_insert_ne by apply Hother. apply Hno.
Qed.

Lemma deactivate_keeps_noSelfAssignment (db : Database)
    (user : option ApiHelpers.AuthenticatedUser) (trainerId clientId : string) :
  noSelfAssignment db ->
  noSelfAssignment (snd (Deactivate.POST user trainerId clientId db)).
Proof.
  intros Hno. unfold Deactivate.POST. run_handler.
  destruct user as [u|]; [|exact Hno]. run_handler.
  unfold ApiHelpers.UuidParamSchema.
  destruct (Zod.isUuid trainerId); [|exact Hno]. run_handler.
  destruct (Zod.isUuid clientId); [|exact Hno]. run_handler.
  destruct (decide _); [exact Hno|].
  destruct (Db.selectUser trainerId _ db); [|exact Hno].
  destruct (Db.selectUser clientId _ db); [|exact Hno].
  unfold Db.selectAssignment.
  destruct (trainer_client db !! (Db.uuid trainerId, Db.uuid clientId)); [|exact Hno].
  intros w. cbn [snd setTrainerClient trainer_client].
  destruct (decide ((Db.uuid trainerId, Db.uuid clientId) = (w, w))) as [Heq|Hne].
  - rewrite Heq, lookup_alter_eq, Hno. reflexivity.
  - rewrite lookup_alter_ne by exact Hne. apply Hno.
Qed.

(** The access check lets a trainer through only for a report of an
    actively assigned client, who is someone else. *)
Lemma checkReportAccess_trainer (db : Database) (userId reportId : string) :
  noSelfAssignment db ->
  Reports.hasAccess
    (Reports.checkReportAccess userId ApiHelpers.trainer reportId db) = true ->
  exists report, Db.selectReport reportId db = Some report
                 /\ isActive userId (Report.client_id report) db = true
                 /\ userId <> Report.client_id report.
Proof.
  intros Hno. unfold Reports.checkReportAccess, isActive.
  destruct (Db.selectReport reportId db) as [report|]; [|discriminate].
  destruct (decide _); [discriminate|].
  destruct (decide _) as [[? _]|_]; [discriminate|].
  destruct (decide _); [|discriminate].
  destruct (Db.selectActiveAssignment userId _ db) as [a|] eqn:Ha;
    [|discriminate].
  intros _. exists report. split; [reflexivity|].
  split; [rewrite Ha; reflexivity|].
  intros Heq. rewrite <- Heq in Ha. unfold Db.selectActiveAssignment in Ha.
  rewrite Hno in Ha. discriminate.
Qed.

(** C7. For every principal whose role is trainer, every write to report
    content fails Forbidden and changes nothing: submitting a report for
    any client, editing any report and soft-deleting any report, with or
    without an active assignment to the report's owner. *)
Theorem coach_cannot_write_reports (db : Database) (now : Z) (uuid : string)
    (u : ApiHelpers.AuthenticatedUser) (clientId reportId : string)
    (body : gmap string jsval) :
  ApiHelpers.user_role u = ApiHelpers.trainer ->
  noSelfAssignment db ->
  Zod.isUuid clientId = true ->
  Zod.isUuid reportId = true ->
  (failsWith Forbidden (ClientReports.POST now uuid (Some u) clientId body db)
   /\ snd (ClientReports.POST now uuid (Some u) clientId body db) = db)
  /\ (failsWith Forbidden (Reports.PATCH now (Some u) reportId body db)
      /\ snd (Reports.PATCH now (Some u) reportId body db) = db)
  /\ (failsWith Forbidden (Reports.DELETE now (Some u) reportId db)
      /\ snd (Reports.DELETE now (Some u) reportId db) = db).
Proof.
  intros Hrole Hno Hclient Hreport.
  assert (Hdenied : forall A (msg : string),
            failsWith Forbidden (@throw A 403 msg db) /\ snd (@throw A 403 msg db) = db).
  { intros A msg. split; [apply failsWith_throw | reflexivity]. }
  split; [|split].
  - unfold ClientReports.POST. run_handler.
    rewrite (UuidParamSchema_ok _ Hclient). run_handler.
    rewrite decide_True; [apply Hdenied|]. left. rewrite Hrole. discriminate.
  - unfold Reports.PATCH. run_handler.
    rewrite (UuidParamSchema_ok _ Hreport). run_handler. rewrite Hrole.
    destruct (Reports.hasAccess _) eqn:Hacc; cbn [negb]; [|apply Hdenied].
    destruct (checkReportAccess_trainer _ _ _ Hno Hacc) as (report & -> & _ & Hne).
    rewrite decide_True; [apply Hdenied|]. split; [discriminate | exact Hne].
  - unfold Reports.DELETE. run_handler.
    rewrite (UuidParamSchema_ok _ Hreport). run_handler. rewrite Hrole.
    destruct (Reports.hasAccess _) eqn:Hacc; cbn [negb]; [|apply Hdenied].
    destruct (checkReportAccess_trainer _ _ _ Hno Hacc) as (report & -> & _ & Hne).
    rewrite decide_True; [apply Hdenied|]. split; [discriminate | exact Hne].
Qed.

Lemma coach_cannot_write_reports_witness :
  let t0 := Clock.utc 2024 1 10 8 0 0 in
  let first := Sample.report Sample.reportA t0 2 2024 0 (Some 70%Q) None in
  let db := mkDatabase Sample.people
              {[ (Sample.coachId, Sample.clientId) := TrainerClient.mk true 0 ]}
              [first] [] Sample.coaches Sample.customers in
  let body : gmap string jsval := {[ "weight" := JNum 71 ]} in
  (ApiHelpers.user_role Sample.coach = ApiHelpers.trainer
   /\ noSelfAssignment db
   /\ Zod.isUuid Sample.clientId = true /\ Zod.isUuid Sample.reportA = true
   /\ isActive Sample.coachId Sample.clientId db = true)
  /\ failsWith Forbidden
       (ClientReports.POST (t0 + 1) Sample.reportB (Some Sample.coach)
          Sample.clientId body db)
  /\ failsWith Forbidden
       (Reports.PATCH (t0 + 1) (Some Sample.coach) Sample.reportA body db)
  /\ failsWith Forbidden
       (Reports.DELETE (t0 + 1) (Some Sample.coach) Sample.reportA db).
Proof.
  intros t0 first db body.
  assert (Hno : noSelfAssignment db).
  { intros w. apply lookup_singleton_ne. intros [= H1 H2].
    rewrite <- H2 in H1. discriminate. }
  split; [repeat split; exact Hno|].
  destruct (coach_cannot_write_reports db (t0 + 1) Sample.reportB Sample.coach
              Sample.clientId Sample.reportA body eq_refl Hno eq_refl eq_refl)
    as ((Hsubmit & _) & (Hedit & _) & (Hdelete & _)).
  auto.
Defined.

(* ===================================================================== *)
(** ** Trends *)

Lemma initialize_lookup (requestedMetrics : list string) (metric : string)
    (acc : gmap string (option (list Q))) :
  foldl (fun trends m => <[m := Some []]> trends) acc requestedMetrics !! metric
  = if decide (metric ∈ requestedMetrics) then Some (Some []) else acc !! metric.
Proof.
  revert acc. induction requestedMetrics as [|k ms IH]; intros acc; cbn [foldl].
  - rewrite decide_False; [reflexivity|]. apply not_elem_of_nil.
  - rewrite IH. destruct (decide (metric ∈ ms)) as [Hin|Hnin].
    + rewrite decide_True; [reflexivity|]. right. exact Hin.
    + destruct (decide (k = metric)) as [->|Hne].
      * rewrite lookup_insert_eq. rewrite decide_True; [reflexivity|]. left.
      * rewrite lookup_insert_ne by exact Hne.
        rewrite decide_False; [reflexivity|].
        intros Hin. apply elem_of_cons in Hin as [->|Hin]; contradiction.
Qed.

Lemma pushValue_None (trendsArray : option (list Q)) :
  pushValue None trendsArray = trendsArray.
Proof.
  destruct trendsArray as [a|]; [|reflexivity].
  unfold pushValue. simpl. rewrite app_nil_r. reflexivity.
Qed.

(** One report, one metric of the list. *)
Lemma populate_step_lookup (report : Report.Row) (k metric : string)
    (trends : gmap string (option (list Q))) :
  match Trends.column k report with
  | Some value =>
      alter (fun trendsArray => (fun a => a ++ [value]) <$> trendsArray) k trends
  | None => trends
  end !! metric
  = if decide (k = metric)
    then pushValue (Trends.column metric report) <$> trends !! metric
    else trends !! metric.
Proof.
  destruct (decide (k = metric)) as [->|Hne].
  - destruct (Trends.column metric report) as [value|].
    + rewrite lookup_alter_eq. reflexivity.
    + destruct (trends !! metric) as [arr|]; [|reflexivity].
      simpl. rewrite pushValue_None. reflexivity.
  - destruct (Trends.column k report); [|reflexivity].
    apply lookup_alter_ne. exact Hne.
Qed.

(** One report, a list of metrics without repetition. *)
Lemma populateReport_lookup (requestedMetrics : list string)
    (report : Report.Row) (metric : string)
    (trends : gmap string (option (list Q))) :
  NoDup requestedMetrics ->
  Trends.populateReport requestedMetrics trends report !! metric
  = if decide (metric ∈ requestedMetrics)
    then pushValue (Trends.column metric report) <$> trends !! metric
    else trends !! metric.
Proof.
  unfold Trends.populateReport. revert trends.
  induction requestedMetrics as [|k ms IH]; intros trends Hnd; cbn [foldl].
  - rewrite decide_False; [reflexivity|]. apply not_elem_of_nil.
  - apply NoDup_cons in Hnd as [Hk Hnd]. rewrite (IH _ Hnd).
    rewrite populate_step_lookup.
    destruct (decide (k = metric)) as [->|Hne].
    + rewrite (decide_False _ _ Hk). rewrite decide_True; [reflexivity|]. left.
    + destruct (decide (metric ∈ ms)) as [Hin|Hnin].
      * rewrite decide_True; [reflexivity|]. right. exact Hin.
      * rewrite decide_False; [reflexivity|].
        intros Hin. apply elem_of_cons in Hin as [->|Hin]; contradiction.
Qed.

(** All the reports. *)
Lemma populate_lookup (requestedMetrics : list string)
    (reports : list Report.Row) (metric : string)
    (trends : gmap string (option (list Q))) :
  NoDup requestedMetrics ->
  Trends.populate requestedMetrics reports trends !! metric
  = if decide (metric ∈ requestedMetrics)
    then (fun trendsArray => (fun a => a ++ metricValues metric reports) <$> trendsArray)
           <$> trends !! metric
    else trends !! metric.
Proof.
  intros Hnd. unfold Trends.populate. revert trends.
  induction reports as [|report reports IH]; intros trends; simpl.
  - destruct (decide _); [|reflexivity].
    destruct (trends !! metric) as [[a|]|]; simpl; [|reflexivity..].
    unfold metricValues. simpl. rewrite app_nil_r. reflexivity.
  - rewrite IH, (populateReport_lookup _ _ _ _ Hnd).
    destruct (decide _); [|reflexivity].
    destruct (trends !! metric) as [[a|]|]; simpl; [|reflexivity..].
    unfold metricValues. simpl.
    destruct (Trends.column metric report); simpl;
      rewrite <- app_assoc; reflexivity.
Qed.

(** For a list of metrics without repetition, the result maps each
    requested metric to its non-null values in the order of the reports,
    and has no entry for a metric that has none or was not requested. *)
Lemma buildTrends_lookup (requestedMetrics : list string)
    (reports : list Report.Row) (metric : string) :
  NoDup requestedMetrics ->
  Trends.buildTrends requestedMetrics reports !! metric
  = if decide (metric ∈ requestedMetrics)
    then match metricValues metric reports with
         | [] => None
         | values => Some values
         end
    else None.
Proof.
  intros Hnd. unfold Trends.buildTrends, Trends.filterUndefined, Trends.removeEmpty.
  rewrite lookup_omap, lookup_fmap, (populate_lookup _ _ _ _ Hnd).
  unfold Trends.initialize. rewrite initialize_lookup, lookup_empty.
  destruct (decide _); [|reflexivity]. simpl.
  destruct (metricValues metric reports); reflexivity.
Qed.

(** C8. The trend arrays are not always the non-null values of the
    metric in order of creation.  With reports whose weights are 70,
    null and 68, the query [metrics=weight] answers [70, 68], but the
    query [metrics=weight,weight], which the schema accepts, answers
    [70, 70, 68, 68]: every report pushes its value once for each
    occurrence of the name in the list. *)
Theorem trends_repeated_metric_repeats_values :
  let t0 := Clock.utc 2024 1 10 8 0 0 in
  let day := Clock.msPerDay in
  let db := setReports
              [Sample.report Sample.reportB (t0 + 7 * day) 3 2024 0 None None;
               Sample.report Sample.reportA t0 2 2024 0 (Some 70%Q) None;
               Sample.report Sample.reportC (t0 + 14 * day) 4 2024 0 (Some 68%Q) None]
              Sample.empty in
  Report.weight <$> Trends.selectClientReports Sample.clientId db
  = [Some 70%Q; None; Some 68%Q]
  /\ ApiHelpers.TrendsQuerySchema (Some "weight,weight")
     = Some (Some ["weight"; "weight"])
  /\ returned (Trends.GET (Some Sample.owner) Sample.clientId (Some "weight") db)
     = Some {[ "weight" := [70%Q; 68%Q] ]}
  /\ returned (Trends.GET (Some Sample.owner) Sample.clientId
                 (Some "weight,weight") db)
     = Some {[ "weight" := [70%Q; 70%Q; 68%Q; 68%Q] ]}.
Proof. vm_compute. repeat split; reflexivity. Qed.

(** [order] sorts, and keeps the rows it is given. *)
Lemma insertBy_perm {A : Type} (key : A -> Z) (x : A) (l : list A) :
  Db.insertBy key x l ≡ₚ x :: l.
Proof.
  induction l as [|y l IH]; simpl; [reflexivity|].
  destruct (key x <=? key y); [reflexivity|].
  rewrite IH. apply Permutation_swap.
Qed.

Lemma orderBy_perm {A : Type} (key : A -> Z) (l : list A) :
  Db.orderBy key l ≡ₚ l.
Proof.
  unfold Db.orderBy. induction l as [|y l IH]; simpl; [reflexivity|].
  rewrite insertBy_perm, IH. reflexivity.
Qed.

Lemma insertBy_sorted {A : Type} (key : A -> Z) (x : A) (l : list A) :
  Sorted (fun a b => key a <= key b) l ->
  Sorted (fun a b => key a <= key b) (Db.insertBy key x l).
Proof.
  induction l as [|y l IH]; intros Hs; simpl.
  - repeat constructor.
  - destruct (Z.leb_spec (key x) (key y)) as [Hle|Hgt].
    + constructor; [exact Hs|]. constructor. exact Hle.
    + apply Sorted_inv in Hs as [Hs Hhd]. constructor; [apply IH, Hs|].
      destruct l as [|z l]; simpl.
      * constructor. lia.
      * destruct (key x <=? key z); constructor; [lia|].
        apply HdRel_inv in Hhd. exact Hhd.
Qed.

Lemma orderBy_sorted {A : Type} (key : A -> Z) (l : list A) :
  Sorted (fun a b => key a <= key b) (Db.orderBy key l).
Proof.
  unfold Db.orderBy. induction l as [|y l IH]; simpl; [constructor|].
  apply insertBy_sorted, IH.
Qed.

(** The reports the trends are built from: those of the client that are
    not deleted, by ascending [created_at]. *)
Lemma selectClientReports_spec (clientId : string) (db : Database) :
  Sorted (fun a b => Report.created_at a <= Report.created_at b)
    (Trends.selectClientReports clientId db)
  /\ forall r, r ∈ Trends.selectClientReports clientId db
               <-> r ∈ reports db /\ Report.client_id r = Db.uuid clientId
                   /\ Report.deleted_at r = None.
Proof.
  unfold Trends.selectClientReports. split; [apply orderBy_sorted|].
  intros r. rewrite orderBy_perm, list_elem_of_filter. tauto.
Qed.

(** The answer to an authorized trends query. *)
Lemma trends_GET_result (db : Database) (u : ApiHelpers.AuthenticatedUser)
    (clientId : string) (metricsParam : option string)
    (metrics : option (list string)) :
  Zod.isUuid clientId = true ->
  Trends.checkTrendsAccess (ApiHelpers.user_id u) (ApiHelpers.user_role u)
    clientId db = true ->
  is_Some (Db.selectUser clientId ApiHelpers.client db) ->
  ApiHelpers.TrendsQuerySchema metricsParam = Some metrics ->
  Trends.GET (Some u) clientId metricsParam db
  = (inr (mkResponse 200
            (Trends.buildTrends (default Trends.allMetrics metrics)
               (Trends.selectClientReports clientId db))), db).
Proof.
  intros Huuid Hacc [row Hrow] Hm. unfold Trends.GET. run_handler.
  rewrite (UuidParamSchema_ok _ Huuid). run_handler.
  rewrite Hacc. cbn [negb]. rewrite Hrow, Hm. reflexivity.
Qed.

(** When no metric is named twice, and by default, the answer maps each
    requested metric to the non-null values of the client's reports that
    are not deleted, oldest first, and leaves out the metrics without a
    value. *)
Lemma trends_without_repetition (db : Database) (u : ApiHelpers.AuthenticatedUser)
    (clientId : string) (metricsParam : option string)
    (metrics : option (list string)) :
  Zod.isUuid clientId = true ->
  Trends.checkTrendsAccess (ApiHelpers.user_id u) (ApiHelpers.user_role u)
    clientId db = true ->
  is_Some (Db.selectUser clientId ApiHelpers.client db) ->
  ApiHelpers.TrendsQuerySchema metricsParam = Some metrics ->
  NoDup (default Trends.allMetrics metrics) ->
  exists trends,
    returned (Trends.GET (Some u) clientId metricsParam db) = Some trends
    /\ forall metric,
         trends !! metric
         = if decide (metric ∈ default Trends.allMetrics metrics)
           then match metricValues metric (Trends.selectClientReports clientId db) with
                | [] => None
                | values => Some values
                end
           else None.
Proof.
  intros Huuid Hacc Hclient Hm Hnd. eexists. split.
  - rewrite (trends_GET_result _ _ _ _ _ Huuid Hacc Hclient Hm). reflexivity.
  - intros metric. apply buildTrends_lookup. exact Hnd.
Qed.

Lemma allMetrics_NoDup : NoDup Trends.allMetrics.
Proof. apply (bool_decide_unpack _). vm_compute. exact I. Qed.

(* ===================================================================== *)
(** ** Zero and the empty string at submission *)

(** What a submission that succeeded stored. *)
Lemma submit_success_inv (db db' : Database) (now : Z) (uuid : string)
    (user : option ApiHelpers.AuthenticatedUser) (clientId : string)
    (body : gmap string jsval) (resp : Response ReportDTO) :
  ClientReports.POST now uuid user clientId body db = (inr resp, db') ->
  exists d year weekNumber sequence,
    ApiHelpers.SubmitReportSchema body = Some d
    /\ resp = mkResponse 201
                (Db.set_report_week_and_year
                   (Db.reportColumns
                      (ClientReports.newReportRow now uuid clientId year weekNumber
                         sequence d)), [])
    /\ reports db' = reports db ++ [fst (data resp)].
Proof.
  unfold ClientReports.POST. run_handler.
  destruct user as [u|]; [|discriminate]. run_handler.
  unfold ApiHelpers.UuidParamSchema.
  destruct (Zod.isUuid clientId); [|discriminate]. run_handler.
  destruct (decide _); [discriminate|].
  destruct (Db.selectUser clientId _ db); [|discriminate].
  destruct (ApiHelpers.SubmitReportSchema body) as [d|]; [|discriminate].
  run_handler.
  destruct (ApiHelpers.getCurrentWeekInfo now) as [year weekNumber].
  run_handler.
  destruct (2 <=? _)%nat; [discriminate|].
  unfold Db.insertReport. destruct (decide _); [|discriminate].
  intros [= <- <-]. exists d, year, weekNumber. eexists.
  split; [reflexivity|]. split; reflexivity.
Qed.











(** A submission of zeros, as an example: weight 0, cardio_days 0 and an
    empty note are stored as nulls. *)
Example submit_zero_example :
  let body : gmap string jsval :=
    {[ "weight" := JNum 0; "waist" := JNum 80; "cardio_days" := JNum 0;
       "note" := JStr "" ]} in
  (fun r : ReportDTO =>
     (Report.weight (fst r), Report.waist (fst r), Report.cardio_days (fst r),
      Report.note (fst r)))
    <$> returned (ClientReports.POST (Clock.utc 2024 1 10 8 0 0) Sample.reportA
                    (Some Sample.owner) Sample.clientId body Sample.empty)
  = Some (None, Some 80%Q, None, None).
Proof. vm_compute. reflexivity. Qed.

(* ===================================================================== *)
(** ** The invariants the theorems assume are kept by the handlers *)

Lemma updateReports_ids (reportId : string) (f : Report.Row -> Report.Row)
    (rows : list Report.Row) :
  (forall r, Report.id (f r) = Report.id r) ->
  Report.id <$> Db.updateReports reportId f rows = Report.id <$> rows.
Proof.
  intros Hf. unfold Db.updateReports.
  induction rows as [|r rows IH]; [reflexivity|].
  cbn [map]. rewrite !fmap_cons. f_equal; [|exact IH].
  destruct (decide _); [apply Hf | reflexivity].
Qed.

Lemma insertReport_ids (new row : Report.Row) (db : Database)
    (rows' : list Report.Row) :
  NoDup (Report.id <$> reports db) ->
  Db.insertReport new db = Some (row, rows') ->
  NoDup (Report.id <$> rows').
Proof.
  intros Hnd. unfold Db.insertReport.
  destruct (decide _) as [(Hfresh & _)|]; [|discriminate].
  intros [= <- <-]. rewrite fmap_app. apply NoDup_app. split; [exact Hnd|].
  split; [|apply NoDup_singleton].
  intros x Hx Hin. apply list_elem_of_singleton in Hin. subst x.
  apply list_elem_of_fmap in Hx as (r & Hid & Hr).
  rewrite Forall_forall in Hfresh. exact (Hfresh r Hr (eq_sym Hid)).
Qed.

Lemma insertImage_ids (new : ReportImage.Row) (db : Database)
    (rows' : list ReportImage.Row) :
  NoDup (ReportImage.id <$> report_images db) ->
  Db.insertImage new db = Some rows' ->
  NoDup (ReportImage.id <$> rows').
Proof.
  intros Hnd. unfold Db.insertImage.
  destruct (decide _) as [(Hfresh & _)|]; [|discriminate].
  intros [= <-]. rewrite fmap_app. apply NoDup_app. split; [exact Hnd|].
  split; [|apply NoDup_singleton].
  intros x Hx Hin. apply list_elem_of_singleton in Hin. subst x.
  apply list_elem_of_fmap in Hx as (r & Hid & Hr).
  rewrite Forall_forall in Hfresh. exact (Hfresh r Hr (eq_sym Hid)).
Qed.

Lemma submit_keeps_primaryKeys (db : Database) (now : Z) (uuid : string)
    (user : option ApiHelpers.AuthenticatedUser) (clientId : string)
    (body : gmap string jsval) :
  primaryKeys db ->
  primaryKeys (snd (ClientReports.POST now uuid user clientId body db)).
Proof.
  intros Hpk.
  destruct (ClientReports.POST now uuid user clientId body db) as [[e|resp] db']
    eqn:Hrun.
  - revert Hrun. unfold ClientReports.POST. run_handler.
    destruct user as [u|]; [|intros [= _ <-]; exact Hpk]. run_handler.
    destruct (ApiHelpers.UuidParamSchema clientId) as [id|];
      [|intros [= _ <-]; exact Hpk].
    run_handler.
    destruct (decide _); [intros [= _ <-]; exact Hpk|].
    destruct (Db.selectUser id _ db); [|intros [= _ <-]; exact Hpk].
    destruct (ApiHelpers.SubmitReportSchema body) as [d|];
      [|intros [= _ <-]; exact Hpk].
    run_handler. destruct (ApiHelpers.getCurrentWeekInfo now) as [year weekNumber].
    run_handler. destruct (2 <=? _)%nat; [intros [= _ <-]; exact Hpk|].
    destruct (Db.insertReport _ _) as [[newReport rows']|];
      [discriminate | intros [= _ <-]; exact Hpk].
  - destruct (submit_success_inv _ _ _ _ _ _ _ _ Hrun)
      as (d & year & weekNumber & sequence & _ & -> & Hrows).
    revert Hrun. unfold ClientReports.POST. run_handler.
    destruct user as [u|]; [|discriminate]. run_handler.
    destruct (ApiHelpers.UuidParamSchema clientId) as [id|]; [|discriminate].
    run_handler.
    destruct (decide _); [discriminate|].
    destruct (Db.selectUser id _ db); [|discriminate].
    destruct (ApiHelpers.SubmitReportSchema body) as [d'|]; [|discriminate].
    run_handler. destruct (ApiHelpers.getCurrentWeekInfo now) as [y w].
    run_handler. destruct (2 <=? _)%nat; [discriminate|].
    destruct (Db.insertReport _ _) as [[newReport rows']|] eqn:Hins;
      [|discriminate].
    intros [= _ <-]. destruct Hpk as [Hr Hi]. split; [|exact Hi].
    exact (insertReport_ids _ _ _ _ Hr Hins).
Qed.


Lemma delete_keeps_primaryKeys (db : Database) (now : Z)
    (user : option ApiHelpers.AuthenticatedUser) (reportId : string) :
  primaryKeys db ->
  primaryKeys (snd (Reports.DELETE now user reportId db)).
Proof.
  intros Hpk. unfold Reports.DELETE. run_handler.
  destruct user as [u|]; [|exact Hpk]. run_handler.
  destruct (ApiHelpers.UuidParamSchema reportId) as [id|]; [|exact Hpk].
  run_handler.
  destruct (negb _); [exact Hpk|].
  destruct (Db.selectReport id db) as [report|]; [|exact Hpk].
  destruct (decide _); [exact Hpk|].
  destruct Hpk as [Hr Hi]. split; [|exact Hi].
  cbn [snd setReports reports]. rewrite updateReports_ids; [exact Hr|].
  reflexivity.
Qed.

Lemma upload_keeps_primaryKeys (db : Database) (now : Z) (uuid : string)
    (sign : string -> option string)
    (user : option ApiHelpers.AuthenticatedUser) (reportId : string)
    (body : gmap string jsval) :
  primaryKeys db ->
  primaryKeys (snd (UploadUrl.POST now uuid sign user reportId body db)).
Proof.
  intros Hpk. unfold UploadUrl.POST. run_handler.
  destruct user as [u|]; [|exact Hpk]. run_handler.
  destruct (ApiHelpers.UuidParamSchema reportId) as [id|]; [|exact Hpk].
  run_handler.
  destruct (negb _); [exact Hpk|].
  destruct (ApiHelpers.ImageUploadRequestSchema body) as [request|]; [|exact Hpk].
  run_handler. destruct (3 <=? _)%nat; [exact Hpk|].
  cbv zeta. destruct (sign _); [|exact Hpk].
  destruct (Db.insertImage _ _) as [rows'|] eqn:Hins; [|exact Hpk].
  destruct Hpk as [Hr Hi]. split; [exact Hr|].
  exact (insertImage_ids _ _ _ Hi Hins).
Qed.

(* ===================================================================== *)
(** ** The calendar, and the week numbers computed from it *)

Lemma allFrom_spec (check : Z -> bool) (n : nat) (start : Z) :
  allFrom check start n = true ->
  forall z, start <= z < start + Z.of_nat n -> check z = true.
Proof.
  revert start. induction n as [|n IH]; intros start Hall z Hz; [lia|].
  cbn [allFrom] in Hall. destruct (check start) eqn:Hc; [|discriminate].
  destruct (decide (z = start)) as [->|Hne]; [exact Hc|].
  apply (IH (start + 1) Hall). lia.
Qed.

Lemma civilFromDays_shift (z e : Z) :
  Clock.civilFromDays (z + 146097 * e)
  = let '(y, m, d) := Clock.civilFromDays z in (y + 400 * e, m, d).
Proof.
  unfold Clock.civilFromDays. cbv zeta.
  replace (z + 146097 * e + 719468) with (z + 719468 + e * 146097) by lia.
  rewrite Z.div_add by lia.
  set (era := (z + 719468) / 146097).
  replace (z + 719468 + e * 146097 - (era + e) * 146097)
    with (z + 719468 - era * 146097) by lia.
  set (doe := z + 719468 - era * 146097).
  set (yoe := (doe - doe / 1460 + doe / 36524 - doe / 146096) / 365).
  set (doy := doe - (365 * yoe + yoe / 4 - yoe / 100)).
  set (mp := (5 * doy + 2) / 153).
  destruct (_ <=? 2); f_equal; f_equal; lia.
Qed.

Lemma daysFromCivil_shift (y m d e : Z) :
  Clock.daysFromCivil (y + 400 * e) m d = Clock.daysFromCivil y m d + 146097 * e.
Proof.
  unfold Clock.daysFromCivil. cbv zeta.
  set (mp := if m <=? 2 then m + 9 else m - 3).
  assert (Hy : (if m <=? 2 then y + 400 * e - 1 else y + 400 * e)
               = (if m <=? 2 then y - 1 else y) + e * 400)
    by (destruct (m <=? 2); lia).
  rewrite Hy. set (y' := if m <=? 2 then y - 1 else y).
  rewrite Z.div_add by lia.
  replace (y' + e * 400 - (y' / 400 + e) * 400) with (y' - y' / 400 * 400) by lia.
  lia.
Qed.

Lemma daysFromCivil_day (y m d k : Z) :
  Clock.daysFromCivil y m (d + k) = Clock.daysFromCivil y m d + k.
Proof. unfold Clock.daysFromCivil. cbv zeta. lia. Qed.


Lemma roundTrips_spec (z : Z) :
  roundTrips z = true <->
  let '(y, m, d) := Clock.civilFromDays z in
  Clock.daysFromCivil y m d = z /\ 0 <= z - Clock.daysFromCivil y 1 1 <= 365.
Proof.
  unfold roundTrips. destruct (Clock.civilFromDays z) as [[y m] d].
  rewrite !andb_true_iff, Z.eqb_eq, !Z.leb_le. tauto.
Qed.

Lemma roundTrips_era : allFrom roundTrips (-719468) (Z.to_nat 146097) = true.
Proof. vm_compute. reflexivity. Qed.

Lemma civil_round_trip (z : Z) :
  let '(y, m, d) := Clock.civilFromDays z in
  Clock.daysFromCivil y m d = z /\ 0 <= z - Clock.daysFromCivil y 1 1 <= 365.
Proof.
  set (e := (z + 719468) / 146097).
  set (z0 := z - 146097 * e).
  assert (Hz0 : -719468 <= z0 < -719468 + Z.of_nat (Z.to_nat 146097)).
  { rewrite Z2Nat.id by lia. subst z0 e.
    pose proof (Z.mod_pos_bound (z + 719468) 146097 ltac:(lia)) as Hm.
    rewrite Z.mod_eq in Hm by lia. lia. }
  pose proof (allFrom_spec _ _ _ roundTrips_era z0 Hz0) as Hbase.
  apply roundTrips_spec in Hbase.
  replace z with (z0 + 146097 * e) by (subst z0; lia).
  rewrite civilFromDays_shift.
  destruct (Clock.civilFromDays z0) as [[y m] d].
  rewrite !daysFromCivil_shift. lia.
Qed.

Lemma dayNumber_days (x : Z) : Clock.dayNumber (x * Clock.msPerDay) = x.
Proof. unfold Clock.dayNumber. apply Z.div_mul. discriminate. Qed.

Lemma ceilDiv_floor (n : Z) : Clock.ceilDiv (n + 1) 7 = n / 7 + 1.
Proof.
  unfold Clock.ceilDiv.
  pose proof (Z.div_mod n 7 ltac:(lia)).
  pose proof (Z.mod_pos_bound n 7 ltac:(lia)).
  pose proof (Z.div_mod (- (n + 1)) 7 ltac:(lia)).
  pose proof (Z.mod_pos_bound (- (n + 1)) 7 ltac:(lia)).
  lia.
Qed.

Lemma ceilDiv_days (n : Z) :
  Clock.ceilDiv (n * Clock.msPerDay + 86400000) (7 * 86400000) = n / 7 + 1.
Proof.
  rewrite <- ceilDiv_floor. unfold Clock.ceilDiv, Clock.msPerDay. f_equal.
  replace (- (n * (24 * 60 * 60 * 1000) + 86400000)) with (- (n + 1) * 86400000) by lia.
  apply Z.div_mul_cancel_r; lia.
Qed.

Lemma getUTCDay_isoWeekday (days : Z) :
  (if ReportCardMapper.getUTCDay (days * Clock.msPerDay) =? 0 then 7
   else ReportCardMapper.getUTCDay (days * Clock.msPerDay))
  = Clock.isoWeekday days.
Proof.
  unfold ReportCardMapper.getUTCDay, Clock.isoWeekday. rewrite dayNumber_days.
  pose proof (Z.div_mod (days + 4) 7 ltac:(lia)).
  pose proof (Z.mod_pos_bound (days + 4) 7 ltac:(lia)).
  pose proof (Z.div_mod (days + 3) 7 ltac:(lia)).
  pose proof (Z.mod_pos_bound (days + 3) 7 ltac:(lia)).
  destruct (Z.eqb_spec ((days + 4) mod 7) 0); lia.
Qed.

Lemma getISOWeek_extractWeek (date : Z) :
  ReportCardMapper.getISOWeek date = Clock.extractWeek date.
Proof.
  unfold ReportCardMapper.getISOWeek, Clock.extractWeek, Clock.isoWeekInfo.
  cbv zeta. set (days := Clock.dayNumber date).
  pose proof (civil_round_trip days) as Hrt.
  destruct (Clock.civilFromDays days) as [[y m] d] eqn:Hcivil.
  destruct Hrt as [Hrt _]. rewrite Hrt, dayNumber_days, Hcivil.
  rewrite getUTCDay_isoWeekday.
  replace (d + 4 - Clock.isoWeekday days) with (d + (4 - Clock.isoWeekday days)) by lia.
  rewrite daysFromCivil_day, Hrt.
  replace (days + (4 - Clock.isoWeekday days)) with (days - Clock.isoWeekday days + 4) by lia.
  set (thursday := days - Clock.isoWeekday days + 4).
  unfold Clock.getFullYear. rewrite dayNumber_days.
  destruct (Clock.civilFromDays thursday) as [[isoYear tm] td].
  cbn [snd]. rewrite <- Z.mul_sub_distr_r. apply ceilDiv_days.
Qed.

Lemma dayOfYear_bounds (t : Z) :
  let days := Clock.dayNumber t in
  (t - Clock.startOfYear (Clock.getFullYear t)) / (24 * 60 * 60 * 1000)
  = days - Clock.daysFromCivil (Clock.getFullYear t) 1 1
  /\ 0 <= days - Clock.daysFromCivil (Clock.getFullYear t) 1 1 <= 365.
Proof.
  cbv zeta. unfold Clock.getFullYear, Clock.startOfYear.
  pose proof (civil_round_trip (Clock.dayNumber t)) as Hrt.
  destruct (Clock.civilFromDays (Clock.dayNumber t)) as [[y m] d].
  destruct Hrt as [_ Hdoy]. split; [|exact Hdoy].
  unfold Clock.dayNumber, Clock.msPerDay.
  replace (t - Clock.daysFromCivil y 1 1 * (24 * 60 * 60 * 1000))
    with (t + (- Clock.daysFromCivil y 1 1) * (24 * 60 * 60 * 1000)) by lia.
  rewrite Z.div_add by lia. lia.
Qed.

Lemma extractWeek_bounds (t : Z) : 1 <= Clock.extractWeek t <= 53.
Proof.
  unfold Clock.extractWeek, Clock.isoWeekInfo. cbv zeta.
  set (thursday := Clock.dayNumber t - Clock.isoWeekday (Clock.dayNumber t) + 4).
  pose proof (civil_round_trip thursday) as Hrt.
  destruct (Clock.civilFromDays thursday) as [[isoYear tm] td].
  destruct Hrt as [_ Hdoy]. cbn [snd].
  pose proof (Z.div_mod (thursday - Clock.daysFromCivil isoYear 1 1) 7 ltac:(lia)).
  pose proof (Z.mod_pos_bound (thursday - Clock.daysFromCivil isoYear 1 1) 7 ltac:(lia)).
  lia.
Qed.

Lemma getWeekInfo_bounds (t : Z) :
  1 <= snd (ApiHelpers.getWeekInfo t) <= 53.
Proof.
  unfold ApiHelpers.getWeekInfo. cbv zeta. cbn [snd].
  destruct (dayOfYear_bounds t) as [-> Hdoy].
  rewrite ceilDiv_floor.
  set (n := Clock.dayNumber t - Clock.daysFromCivil (Clock.getFullYear t) 1 1) in *.
  pose proof (Z.div_mod n 7 ltac:(lia)).
  pose proof (Z.mod_pos_bound n 7 ltac:(lia)).
  lia.
Qed.

(** X1. The week number the dashboard computes for a report card
    ([getISOWeek], with the clock in UTC) is, for every instant from
    1970 on, the ISO 8601 week number; it lies between 1 and 53, and
    for a row as the insert trigger stores it, the card built from
    its list item shows the stored [week_number]. *)
Theorem dashboard_week_is_iso_week (date : Z) :
  dateRange date ->
  ReportCardMapper.getISOWeek date = snd (Clock.isoWeekInfo date)
  /\ 1 <= ReportCardMapper.getISOWeek date <= 53
  /\ forall new, Report.created_at new = date ->
       ReportCardMapper.weekNumber
         (ReportCardMapper.mapReportToCardVM
            (ReportList.toDTO (Db.set_report_week_and_year new)))
       = Report.week_number (Db.set_report_week_and_year new).
Proof.
  intros _.
  split; [apply getISOWeek_extractWeek|].
  split; [rewrite getISOWeek_extractWeek; apply extractWeek_bounds|].
  intros new _.
  change (ReportCardMapper.getISOWeek (Report.created_at new)
          = Clock.extractWeek (Report.created_at new)).
  apply getISOWeek_extractWeek.
Qed.

Lemma dashboard_week_is_iso_week_witness :
  dateRange (Clock.utc 2024 12 30 12 0 0)
  /\ ReportCardMapper.getISOWeek (Clock.utc 2024 12 30 12 0 0) = 1.
Proof.
  assert (Hrange : dateRange (Clock.utc 2024 12 30 12 0 0))
    by (split; vm_compute; discriminate).
  split; [exact Hrange|].
  exact (proj1 (dashboard_week_is_iso_week _ Hrange)).
Defined.

(** X2. For every instant from 1970 on, [getWeekInfo] (and
    [getCurrentWeekInfo], the same computation) numbers the days of
    the calendar year from 1 to at most 366 and returns the calendar
    year with the number of the block of seven days the day falls in,
    counted from January 1: a week number between 1 and 53. *)
Theorem week_info_range (date : Z) :
  dateRange date ->
  let dayOfYear := Clock.dayNumber date
                   - Clock.daysFromCivil (Clock.getFullYear date) 1 1 + 1 in
  1 <= dayOfYear <= 366
  /\ ApiHelpers.getWeekInfo date = (Clock.getFullYear date, (dayOfYear - 1) / 7 + 1)
  /\ 1 <= snd (ApiHelpers.getWeekInfo date) <= 53
  /\ ApiHelpers.getCurrentWeekInfo date = ApiHelpers.getWeekInfo date.
Proof.
  intros _. cbv zeta. destruct (dayOfYear_bounds date) as [Hq Hdoy]. cbv zeta in Hq.
  split; [lia|]. split; [|split; [apply getWeekInfo_bounds|reflexivity]].
  unfold ApiHelpers.getWeekInfo. cbv zeta. rewrite Hq, ceilDiv_floor.
  do 3 f_equal. lia.
Qed.

Lemma week_info_range_witness :
  dateRange (Clock.utc 2024 12 30 12 0 0)
  /\ ApiHelpers.getWeekInfo (Clock.utc 2024 12 30 12 0 0) = (2024, 53).
Proof.
  assert (Hrange : dateRange (Clock.utc 2024 12 30 12 0 0))
    by (split; vm_compute; discriminate).
  split; [exact Hrange|].
  exact (proj1 (proj2 (week_info_range _ Hrange))).
Defined.

(** X3. For every instant from 1970 on, the week the missing-report
    filter of the client listing computes is the week of
    [getCurrentWeekInfo], except on the days of the year that are
    multiples of seven: from the first millisecond after midnight of
    such a day the filter is one week ahead. *)
Theorem missing_report_week_differs (now : Z) :
  dateRange now ->
  let dayOfYear := Clock.dayNumber now
                   - Clock.daysFromCivil (Clock.getFullYear now) 1 1 + 1 in
  let '(year, weekNumber) := ApiHelpers.getCurrentWeekInfo now in
  Clients.currentWeek now
  = (year,
     if decide (dayOfYear mod 7 = 0 /\ now mod Clock.msPerDay <> 0)
     then weekNumber + 1 else weekNumber).
Proof.
  intros _.
  cbv zeta. unfold ApiHelpers.getCurrentWeekInfo, Clients.currentWeek. cbv zeta.
  destruct (dayOfYear_bounds now) as [Hq Hdoy]. cbv zeta in Hq. rewrite Hq.
  f_equal. rewrite ceilDiv_floor.
  set (n := Clock.dayNumber now - Clock.daysFromCivil (Clock.getFullYear now) 1 1) in *.
  unfold Clock.startOfYear, Clock.ceilDiv.
  assert (Hnow : now = Clock.dayNumber now * Clock.msPerDay + now mod Clock.msPerDay).
  { unfold Clock.dayNumber. rewrite Z.mul_comm. apply Z.div_mod. discriminate. }
  pose proof (Z.mod_pos_bound now Clock.msPerDay ltac:(reflexivity)) as Hr.
  set (r := now mod Clock.msPerDay) in *.
  set (x := - (now - Clock.daysFromCivil (Clock.getFullYear now) 1 1 * Clock.msPerDay
              + 86400000)).
  assert (Hx : x = - ((n + 1) * 86400000 + r)).
  { subst x n. unfold Clock.msPerDay in *. lia. }
  unfold Clock.msPerDay in Hr.
  pose proof (Z.div_mod x (7 * 86400000) ltac:(lia)) as Hd.
  pose proof (Z.mod_pos_bound x (7 * 86400000) ltac:(lia)) as Hm.
  pose proof (Z.div_mod n 7 ltac:(lia)) as Hd7.
  pose proof (Z.mod_pos_bound n 7 ltac:(lia)) as Hm7.
  pose proof (Z.div_mod (n + 1) 7 ltac:(lia)) as Hd8.
  pose proof (Z.mod_pos_bound (n + 1) 7 ltac:(lia)) as Hm8.
  destruct (decide _) as [[H0 Hne]|Hno].
  - lia.
  - assert (Hcase : (n + 1) mod 7 <> 0 \/ r = 0).
    { destruct (decide ((n + 1) mod 7 = 0)); [|left; assumption].
      destruct (decide (r = 0)); [right; assumption|]. exfalso. apply Hno. auto. }
    lia.
Qed.

Lemma missing_report_week_differs_witness :
  dateRange (Clock.utc 2025 1 7 12 0 0)
  /\ ApiHelpers.getCurrentWeekInfo (Clock.utc 2025 1 7 12 0 0) = (2025, 1)
  /\ Clients.currentWeek (Clock.utc 2025 1 7 12 0 0) = (2025, 2).
Proof.
  assert (Hrange : dateRange (Clock.utc 2025 1 7 12 0 0))
    by (split; vm_compute; discriminate).
  split; [exact Hrange|]. split; [reflexivity|].
  exact (missing_report_week_differs _ Hrange).
Defined.

(* ===================================================================== *)
(** ** What a request can do to the database *)

Lemma createApiRoute_run {A : Type}
    (handler : option ApiHelpers.AuthenticatedUser -> Handler A)
    (sessionUser : option string) (db : Database) :
  Session.createApiRoute handler sessionUser db
  = handler (Session.getAuthenticatedUser sessionUser db) db.
Proof. reflexivity. Qed.

Lemma submit_effect (db : Database) (now : Z) (uuid : string)
    (user : option ApiHelpers.AuthenticatedUser) (clientId : string)
    (body : gmap string jsval) :
  Effect db (snd (ClientReports.POST now uuid user clientId body db)).
Proof.
  unfold ClientReports.POST. run_handler.
  destruct user as [u|]; [|constructor]. run_handler.
  destruct (ApiHelpers.UuidParamSchema clientId) as [id|]; [|constructor].
  run_handler.
  destruct (decide _); [constructor|].
  destruct (Db.selectUser id _ db); [|constructor].
  destruct (ApiHelpers.SubmitReportSchema body) as [d|]; [|constructor].
  run_handler. destruct (ApiHelpers.getCurrentWeekInfo now) as [year weekNumber].
  run_handler. destruct (2 <=? _)%nat; [constructor|].
  destruct (Db.insertReport _ _) as [[newReport rows']|] eqn:Hins; [|constructor].
  cbn [snd]. eapply effect_report_stored. exact Hins.
Qed.

Lemma list_effect (db : Database) (toNumber : string -> option Q)
    (user : option ApiHelpers.AuthenticatedUser) (clientId : string)
    (page pageSize : option string) :
  snd (ReportList.GET toNumber user clientId page pageSize db) = db.
Proof.
  unfold ReportList.GET. run_handler.
  destruct user as [u|]; [|reflexivity]. run_handler.
  destruct (ApiHelpers.UuidParamSchema clientId) as [id|]; [|reflexivity].
  run_handler.
  destruct (negb _); [reflexivity|].
  destruct (Db.selectUser id _ db); [|reflexivity].
  destruct (Pagination.ReportsQuerySchema _ _ _) as [[p ps]|]; [|reflexivity].
  reflexivity.
Qed.

Lemma get_effect (db : Database) (user : option ApiHelpers.AuthenticatedUser)
    (reportId : string) :
  snd (Reports.GET user reportId db) = db.
Proof.
  unfold Reports.GET. run_handler.
  destruct user as [u|]; [|reflexivity]. run_handler.
  destruct (ApiHelpers.UuidParamSchema reportId) as [id|]; [|reflexivity].
  run_handler.
  destruct (negb _); [reflexivity|].
  destruct (Db.selectReport id db); reflexivity.
Qed.

Lemma trends_effect (db : Database) (user : option ApiHelpers.AuthenticatedUser)
    (clientId : string) (metrics : option string) :
  snd (Trends.GET user clientId metrics db) = db.
Proof.
  unfold Trends.GET. run_handler.
  destruct user as [u|]; [|reflexivity]. run_handler.
  destruct (ApiHelpers.UuidParamSchema clientId) as [id|]; [|reflexivity].
  run_handler.
  destruct (negb _); [reflexivity|].
  destruct (Db.selectUser id _ db); [|reflexivity].
  destruct (ApiHelpers.TrendsQuerySchema metrics); reflexivity.
Qed.

Lemma applyEdit_identity (d : ApiHelpers.ReportData) (r : Report.Row) :
  sameIdentity (Reports.applyEdit d r) r.
Proof. repeat split. Qed.

Lemma edit_effect (db : Database) (now : Z)
    (user : option ApiHelpers.AuthenticatedUser) (reportId : string)
    (body : gmap string jsval) :
  Effect db (snd (Reports.PATCH now user reportId body db)).
Proof.
  unfold Reports.PATCH. run_handler.
  destruct user as [u|]; [|constructor]. run_handler.
  destruct (ApiHelpers.UuidParamSchema reportId) as [id|]; [|constructor].
  run_handler.
  destruct (negb _); [constructor|].
  destruct (Db.selectReport id db) as [report|]; [|constructor].
  destruct (decide _); [constructor|].
  destruct (_ && _); [constructor|].
  destruct (ApiHelpers.EditReportSchema body) as [d|]; [|constructor].
  run_handler. destruct (Reports.noUpdateFields d); [constructor|].
  unfold Reports.updateReport. cbv zeta.
  destruct (_ && _); [|constructor].
  destruct (Db.single _); [|constructor].
  cbn [snd]. apply effect_report_updated.
  - apply applyEdit_identity.
  - intros row Hrow. exact Hrow.
Qed.

Lemma delete_effect (db : Database) (now : Z)
    (user : option ApiHelpers.AuthenticatedUser) (reportId : string) :
  Effect db (snd (Reports.DELETE now user reportId db)).
Proof.
  unfold Reports.DELETE. run_handler.
  destruct user as [u|]; [|constructor]. run_handler.
  destruct (ApiHelpers.UuidParamSchema reportId) as [id|]; [|constructor].
  run_handler.
  destruct (negb _); [constructor|].
  destruct (Db.selectReport id db) as [report|]; [|constructor].
  destruct (decide _); [constructor|].
  cbn [snd]. apply effect_report_updated.
  - intros row. repeat split.
  - intros row _. discriminate.
Qed.

Lemma upload_effect (db : Database) (now : Z) (uuid : string)
    (sign : string -> option string)
    (user : option ApiHelpers.AuthenticatedUser) (reportId : string)
    (body : gmap string jsval) :
  Effect db (snd (UploadUrl.POST now uuid sign user reportId body db)).
Proof.
  unfold UploadUrl.POST. run_handler.
  destruct user as [u|]; [|constructor]. run_handler.
  destruct (ApiHelpers.UuidParamSchema reportId) as [id|]; [|constructor].
  run_handler.
  destruct (negb _); [constructor|].
  destruct (ApiHelpers.ImageUploadRequestSchema body) as [request|]; [|constructor].
  run_handler. destruct (3 <=? _)%nat eqn:Hheld; [constructor|].
  cbv zeta. destruct (sign _); [|constructor].
  destruct (Db.insertImage _ _) as [rows'|] eqn:Hins; [|constructor].
  cbn [snd]. eapply effect_image_stored; [| |exact Hins].
  - apply Nat.leb_gt in Hheld. exact Hheld.
  - reflexivity.
Qed.

Lemma image_delete_effect (db : Database) (now : Z) (remove : list string -> bool)
    (user : option ApiHelpers.AuthenticatedUser) (imageId : string) :
  Effect db (snd (ReportImages.DELETE now remove user imageId db)).
Proof.
  unfold ReportImages.DELETE. run_handler.
  destruct user as [u|]; [|constructor]. run_handler.
  destruct (ApiHelpers.UuidParamSchema imageId) as [id|]; [|constructor].
  run_handler.
  destruct (negb _); [constructor|].
  destruct (ReportImages.image _) as [image|]; [|constructor].
  cbv zeta. destruct (remove _); cbn [snd]; apply effect_image_deleted.
Qed.

Lemma activate_effect (db : Database) (now : Z)
    (user : option ApiHelpers.AuthenticatedUser) (trainerId clientId : string) :
  Effect db (snd (Activate.POST now user trainerId clientId db)).
Proof.
  unfold Activate.POST. run_handler.
  destruct user as [u|]; [|constructor]. run_handler.
  destruct (ApiHelpers.UuidParamSchema trainerId) as [t|]; [|constructor].
  run_handler.
  destruct (ApiHelpers.UuidParamSchema clientId) as [c|]; [|constructor].
  run_handler.
  destruct (decide _); [constructor|].
  destruct (Db.selectUser t _ db) eqn:Ht; [|constructor].
  destruct (Db.selectUser c _ db) eqn:Hc; [|constructor].
  assert (Hends : endsExist t c db) by (split; [rewrite Ht | rewrite Hc]; eauto).
  unfold Db.selectAssignment, Db.insertAssignment.
  destruct (trainer_client db !! (Db.uuid t, Db.uuid c)) as [a|] eqn:Hrow; cbn [snd].
  - rewrite (alter_Some_insert _ _ _ _ Hrow). apply effect_assignment, Hends.
  - destruct (decide _); [|constructor]. cbn [snd]. apply effect_assignment, Hends.
Qed.

Lemma deactivate_effect (db : Database)
    (user : option ApiHelpers.AuthenticatedUser) (trainerId clientId : string) :
  Effect db (snd (Deactivate.POST user trainerId clientId db)).
Proof.
  unfold Deactivate.POST. run_handler.
  destruct user as [u|]; [|constructor]. run_handler.
  destruct (ApiHelpers.UuidParamSchema trainerId) as [t|]; [|constructor].
  run_handler.
  destruct (ApiHelpers.UuidParamSchema clientId) as [c|]; [|constructor].
  run_handler.
  destruct (decide _); [constructor|].
  destruct (Db.selectUser t _ db) eqn:Ht; [|constructor].
  destruct (Db.selectUser c _ db) eqn:Hc; [|constructor].
  assert (Hends : endsExist t c db) by (split; [rewrite Ht | rewrite Hc]; eauto).
  unfold Db.selectAssignment.
  destruct (trainer_client db !! (Db.uuid t, Db.uuid c)) as [a|] eqn:Hrow;
    cbn [snd]; [|constructor].
  rewrite (alter_Some_insert _ _ _ _ Hrow). apply effect_assignment, Hends.
Qed.

Lemma client_delete_effect (db : Database) (now : Z)
    (user : option ApiHelpers.AuthenticatedUser) (clientId : string) :
  Effect db (snd (ClientProfile.DELETE now user clientId db)).
Proof.
  unfold ClientProfile.DELETE. run_handler.
  destruct user as [u|]; [|constructor]. run_handler.
  destruct (ApiHelpers.UuidParamSchema clientId) as [id|]; [|constructor].
  run_handler.
  destruct (decide (ApiHelpers.user_role u = ApiHelpers.super_admin)).
  - cbn [negb]. destruct (Db.selectUser id _ db); [|constructor].
    cbn [snd]. apply effect_user_deleted.
  - destruct (decide (ApiHelpers.user_role u = ApiHelpers.trainer)).
    + run_handler. destruct (negb _); [constructor|].
      destruct (Db.selectUser id _ db); [|constructor].
      cbn [snd]. apply effect_user_deleted.
    + constructor.
Qed.

Lemma user_delete_effect (db : Database) (now : Z)
    (user : option ApiHelpers.AuthenticatedUser) (id : string) :
  Effect db (snd (UsersAdmin.DELETE now user id db)).
Proof.
  unfold UsersAdmin.DELETE. run_handler.
  destruct user as [u|]; [|constructor]. run_handler.
  unfold Session.requireRole. destruct (bool_decide _); [|constructor].
  destruct (ApiHelpers.UuidParamSchema id) as [i|]; [|constructor].
  run_handler.
  destruct (UsersAdmin.selectExisting i db); [|constructor].
  cbn [snd]. apply effect_user_deleted.
Qed.

Lemma serve_effect (request : Request) (sessionUser : option string) (db : Database) :
  Effect db (snd (serve request sessionUser db)).
Proof.
  destruct request; unfold serve, answer; cbn [snd]; rewrite createApiRoute_run.
  - apply submit_effect.
  - rewrite list_effect. constructor.
  - rewrite get_effect. constructor.
  - apply edit_effect.
  - apply delete_effect.
  - apply upload_effect.
  - apply image_delete_effect.
  - apply activate_effect.
  - apply deactivate_effect.
  - rewrite trends_effect. constructor.
  - apply client_delete_effect.
  - apply user_delete_effect.
Qed.

Lemma updateReports_fmap {B : Type} (g : Report.Row -> B) (reportId : string)
    (f : Report.Row -> Report.Row) (rows : list Report.Row) :
  (forall r, g (f r) = g r) ->
  g <$> Db.updateReports reportId f rows = g <$> rows.
Proof.
  intros Hf. unfold Db.updateReports.
  induction rows as [|r rows IH]; [reflexivity|].
  cbn [map]. rewrite !fmap_cons. f_equal; [|exact IH].
  destruct (decide _); [apply Hf | reflexivity].
Qed.

Lemma updateReports_Forall (P : Report.Row -> Prop) (reportId : string)
    (f : Report.Row -> Report.Row) (rows : list Report.Row) :
  (forall r, P r -> P (f r)) ->
  Forall P rows -> Forall P (Db.updateReports reportId f rows).
Proof.
  intros Hf. unfold Db.updateReports. induction 1 as [|r rows Hr _ IH];
    cbn [map]; constructor; [|exact IH].
  destruct (decide _); [apply Hf, Hr | exact Hr].
Qed.

Lemma markDeleted_ids (now : Z) (imageId : string) (rows : list ReportImage.Row) :
  ReportImage.id <$> ReportImages.markDeleted now imageId rows
  = ReportImage.id <$> rows.
Proof.
  unfold ReportImages.markDeleted.
  induction rows as [|i rows IH]; [reflexivity|].
  cbn [map]. rewrite !fmap_cons. f_equal; [|exact IH].
  destruct (decide _); reflexivity.
Qed.

Lemma markDeleted_held (now : Z) (imageId reportId : string)
    (rows : list ReportImage.Row) :
  (imagesHeld reportId (ReportImages.markDeleted now imageId rows)
   <= imagesHeld reportId rows)%nat.
Proof.
  unfold imagesHeld, ReportImages.markDeleted.
  induction rows as [|i rows IH]; [reflexivity|].
  cbn [map]. rewrite !filter_cons.
  destruct (decide (ReportImage.id i = Db.uuid imageId)).
  - rewrite decide_False by (cbn; intros [_ ?]; discriminate).
    destruct (decide _); cbn [length]; lia.
  - destruct (decide _); cbn [length]; lia.
Qed.

Lemma insertReport_inv (new row : Report.Row) (db : Database)
    (rows' : list Report.Row) :
  Db.insertReport new db = Some (row, rows') ->
  row = Db.set_report_week_and_year (Db.reportColumns new)
  /\ rows' = reports db ++ [row]
  /\ Db.reportAccepted db row.
Proof.
  unfold Db.insertReport. destruct (decide _) as [Hacc|]; [|discriminate].
  intros [= <- <-]. auto.
Qed.

Lemma effect_keeps_consistent (db db' : Database) :
  Effect db db' -> consistent db -> consistent db'.
Proof.
  intros Heff ((Hrid & Hiid) & Hself & (Hseq & Hslots) & Htrig & Hceil).
  destruct Heff as [|new row rows' Hins|reportId f Hid Hdel|new rows' Hheld Hlive Hins
                    |now imageId|trainerId clientId row Hends|now id].
  - repeat split; assumption.
  - destruct (insertReport_inv _ _ _ _ Hins)
      as (-> & -> & Hfresh & _ & Hs & _ & _ & Hkey).
    repeat split; try assumption; cbn [reports setReports].
    + exact (insertReport_ids _ _ _ _ Hrid Hins).
    + apply Forall_app. split; [exact Hseq|]. constructor; [exact Hs|constructor].
    + rewrite fmap_app. apply NoDup_app. split; [exact Hslots|].
      split; [|apply NoDup_singleton].
      intros k Hk Hin. apply list_elem_of_singleton in Hin. subst k.
      apply list_elem_of_fmap in Hk as (r & Hr & Hrin).
      rewrite Forall_forall in Hkey. apply (Hkey r Hrin).
      unfold slot in Hr. injection Hr as H1 H2 H3 H4.
      repeat split; symmetry; assumption.
    + apply Forall_app. split; [exact Htrig|].
      constructor; [|constructor]. split; reflexivity.
  - repeat split; try assumption; cbn [reports setReports].
    + rewrite updateReports_fmap; [exact Hrid|]. intros r. apply (Hid r).
    + apply updateReports_Forall; [|exact Hseq].
      intros r Hr. destruct (Hid r) as (_ & _ & _ & _ & _ & ->). exact Hr.
    + rewrite updateReports_fmap; [exact Hslots|].
      intros r. destruct (Hid r) as (_ & Hc & _ & Hw & Hy & Hs).
      unfold slot. congruence.
    + apply updateReports_Forall; [|exact Htrig].
      intros r Hr. destruct (Hid r) as (_ & _ & Hc & Hw & Hy & _).
      rewrite Hc, Hw, Hy. exact Hr.
  - pose proof (insertImage_ids _ _ _ Hiid Hins) as Hids.
    unfold Db.insertImage in Hins. destruct (decide _); [|discriminate].
    injection Hins as <-.
    repeat split; try assumption; cbn [report_images setReportImages].
    intros reportId. unfold imagesHeld in *. rewrite filter_app, length_app.
    rewrite filter_cons, filter_nil.
    destruct (decide _) as [[Heq _]|]; cbn [length].
    + cbn [Db.imageColumns ReportImage.report_id] in Heq. rewrite <- Heq. lia.
    + specialize (Hceil reportId). unfold imagesHeld in Hceil. lia.
  - repeat split; try assumption; cbn [report_images setReportImages].
    + rewrite markDeleted_ids. exact Hiid.
    + intros reportId. etransitivity; [apply markDeleted_held|apply Hceil].
  - repeat split; try assumption.
    intros u. cbn [trainer_client setTrainerClient].
    destruct (decide ((Db.uuid trainerId, Db.uuid clientId) = (u, u)))
      as [[= H1 H2]|Hne].
    + exfalso. destruct Hends as [[t Ht] [c Hc]]. unfold Db.selectUser in Ht, Hc.
      rewrite H1 in Ht. rewrite H2 in Hc.
      destruct (users db !! u) as [row'|]; [|discriminate].
      destruct (decide _) as [[Hr1 _]|]; [|discriminate].
      destruct (decide _) as [[Hr2 _]|]; [|discriminate].
      congruence.
    + rewrite lookup_insert_ne by exact Hne. apply Hself.
  - repeat split; assumption.
Qed.

Lemma serveAll_snoc (requests : list (Request * option string))
    (request : Request) (sessionUser : option string) (db : Database) :
  serveAll (requests ++ [(request, sessionUser)]) db
  = snd (serve request sessionUser (serveAll requests db)).
Proof. unfold serveAll. rewrite foldl_app. reflexivity. Qed.

Lemma serveAll_consistent (requests : list (Request * option string))
    (db : Database) :
  consistent db -> consistent (serveAll requests db).
Proof.
  intros Hc. induction requests as [|[request sessionUser] requests IH] using rev_ind.
  - exact Hc.
  - rewrite serveAll_snoc. eapply effect_keeps_consistent; [apply serve_effect|exact IH].
Qed.

Lemma storedForWeek_bound (clientId : string) (year weekNumber : Z)
    (rows : list Report.Row) :
  weekSlots rows -> (length (storedForWeek clientId year weekNumber rows) <= 2)%nat.
Proof.
  intros [Hseq Hslots].
  assert (Hnd : NoDup (Report.sequence <$> storedForWeek clientId year weekNumber rows)).
  { unfold storedForWeek. clear Hseq.
    induction rows as [|r rows IH]; [constructor|].
    rewrite fmap_cons in Hslots. apply NoDup_cons in Hslots as [Hr Hslots].
    rewrite filter_cons. destruct (decide _) as [(Hc & Hy & Hw)|]; [|exact (IH Hslots)].
    rewrite fmap_cons. apply NoDup_cons. split; [|exact (IH Hslots)].
    intros Hin. apply list_elem_of_fmap in Hin as (r' & Hs & Hr').
    apply list_elem_of_filter in Hr' as ((Hc' & Hy' & Hw') & Hr').
    apply Hr. apply list_elem_of_fmap. exists r'. split; [|exact Hr'].
    unfold slot. congruence. }
  assert (Hsub : Report.sequence <$> storedForWeek clientId year weekNumber rows ⊆ [0; 1]).
  { intros s Hs. apply list_elem_of_fmap in Hs as (r & -> & Hr).
    apply list_elem_of_filter in Hr as [_ Hr].
    rewrite Forall_forall in Hseq. destruct (Hseq r Hr) as [-> | ->]; set_solver. }
  pose proof (submseteq_length _ _ (NoDup_submseteq _ _ Hnd Hsub)) as Hlen.
  rewrite length_fmap in Hlen. exact Hlen.
Qed.

Lemma persists_refl (db : Database) : persists db db.
Proof.
  repeat split.
  - intros i r Hr. exists r. repeat split; auto.
  - intros i x Hx. exists x. repeat split; auto.
  - intros id u Hu. exists u. repeat split; auto.
  - intros k a Ha. eauto.
Qed.

Lemma persists_trans (db1 db2 db3 : Database) :
  persists db1 db2 -> persists db2 db3 -> persists db1 db3.
Proof.
  intros (Hr1 & Hi1 & Hu1 & Ha1) (Hr2 & Hi2 & Hu2 & Ha2). repeat split.
  - intros i r Hr. destruct (Hr1 i r Hr) as (r' & Hr' & Hid & Hdel).
    destruct (Hr2 i r' Hr') as (r'' & Hr'' & Hid' & Hdel').
    exists r''. split; [exact Hr''|]. split; [|auto].
    unfold sameIdentity in *. intuition congruence.
  - intros i x Hx. destruct (Hi1 i x Hx) as (x' & Hx' & Hid & Hdel).
    destruct (Hi2 i x' Hx') as (x'' & Hx'' & Hid' & Hdel').
    exists x''. split; [exact Hx''|]. split; [|auto].
    unfold sameImage in *. intuition congruence.
  - intros id u Hu. destruct (Hu1 id u Hu) as (u' & Hu' & Hrole & Hdel).
    destruct (Hu2 id u' Hu') as (u'' & Hu'' & Hrole' & Hdel').
    exists u''. split; [exact Hu''|]. split; [congruence|auto].
  - intros k a Ha. destruct (Ha1 k a Ha) as [a' Ha']. exact (Ha2 k a' Ha').
Qed.

Lemma effect_persists (db db' : Database) : Effect db db' -> persists db db'.
Proof.
  intros Heff.
  destruct Heff as [|new row rows' Hins|reportId f Hid Hdel|new rows' Hheld Hlive Hins
                    |now imageId|trainerId clientId row Hends|now id].
  - apply persists_refl.
  - destruct (insertReport_inv _ _ _ _ Hins) as (_ & -> & _).
    destruct (persists_refl db) as (_ & Hi & Hu & Ha).
    split; [|split; [exact Hi|split; [exact Hu|exact Ha]]].
    intros idx r Hr. exists r. cbn [reports setReports].
    split; [apply lookup_app_l_Some, Hr|]. repeat split; auto.
  - destruct (persists_refl db) as (_ & Hi & Hu & Ha).
    split; [|split; [exact Hi|split; [exact Hu|exact Ha]]].
    intros idx r Hr. cbn [reports setReports]. unfold Db.updateReports.
    change (map ?g ?l) with (g <$> l). rewrite list_lookup_fmap, Hr. cbn.
    destruct (decide _).
    + exists (f r). split; [reflexivity|]. split; [apply Hid|apply Hdel].
    + exists r. repeat split; auto.
  - unfold Db.insertImage in Hins. destruct (decide _); [|discriminate].
    injection Hins as <-.
    destruct (persists_refl db) as (Hr & _ & Hu & Ha).
    split; [exact Hr|split; [|split; [exact Hu|exact Ha]]].
    intros idx x Hx. exists x. cbn [report_images setReportImages].
    split; [apply lookup_app_l_Some, Hx|]. repeat split; auto.
  - destruct (persists_refl db) as (Hr & _ & Hu & Ha).
    split; [exact Hr|split; [|split; [exact Hu|exact Ha]]].
    intros idx x Hx. cbn [report_images setReportImages].
    unfold ReportImages.markDeleted.
    change (map ?g ?l) with (g <$> l). rewrite list_lookup_fmap, Hx. cbn.
    destruct (decide _).
    + eexists. split; [reflexivity|]. repeat split.
    + exists x. repeat split; auto.
  - destruct (persists_refl db) as (Hr & Hi & Hu & _).
    split; [exact Hr|split; [exact Hi|split; [exact Hu|]]].
    intros k a Ha. cbn [trainer_client setTrainerClient].
    destruct (decide ((Db.uuid trainerId, Db.uuid clientId) = k)) as [<-|Hne].
    + rewrite lookup_insert_eq. eauto.
    + rewrite lookup_insert_ne by exact Hne. eauto.
  - destruct (persists_refl db) as (Hr & Hi & _ & Ha).
    split; [exact Hr|split; [exact Hi|split; [|exact Ha]]].
    intros k u Hu. unfold softDeleteUser. cbn [users setUsers].
    destruct (decide (Db.uuid id = k)) as [<-|Hne].
    + rewrite lookup_alter_eq, Hu. cbn. eexists. split; [reflexivity|].
      split; [reflexivity|]. intros _. discriminate.
    + rewrite lookup_alter_ne by exact Hne. exists u. repeat split; auto.
Qed.

(** X4. No sequence of requests to the routes removes a row or
    revives a deleted one: every report, image, user and assignment of
    the database is still there afterwards, a report with its id,
    client, creation time, week, year and sequence, an image with its
    id, report, path, size and creation time, a user with its role;
    and a report, image or user that was soft-deleted is still
    soft-deleted. *)
Theorem rows_persist (requests : list (Request * option string)) (db : Database) :
  persists db (serveAll requests db).
Proof.
  induction requests as [|[request sessionUser] requests IH] using rev_ind.
  - apply persists_refl.
  - rewrite serveAll_snoc. eapply persists_trans; [exact IH|].
    apply effect_persists, serve_effect.
Qed.

(** X5. The routes keep the constraints of the tables: from a database
    with unique report and image ids, no assignment of a user to
    themself, reports that carry the week and year of the trigger in
    distinct (client, week, year, sequence) slots with sequence 0 or 1,
    and at most three live images per report, every sequence of
    requests leads to such a database; in it a client has at most two
    reports stored for a week and year, deleted ones included, and no
    report holds more than three images. *)
Theorem requests_keep_consistent (requests : list (Request * option string))
    (db : Database) :
  consistent db ->
  let db' := serveAll requests db in
  consistent db'
  /\ (forall clientId year weekNumber,
        (length (storedForWeek clientId year weekNumber (reports db')) <= 2)%nat)
  /\ (forall reportId, (imagesHeld reportId (report_images db') <= 3)%nat).
Proof.
  intros Hc db'. pose proof (serveAll_consistent requests db Hc) as Hc'.
  split; [exact Hc'|]. destruct Hc' as (_ & _ & Hslots & _ & Hceil).
  split; [|exact Hceil].
  intros clientId year weekNumber. apply storedForWeek_bound, Hslots.
Qed.

Lemma consistent_without_rows (people : gmap string Users.Row)
    (coaches customers : gset string) :
  consistent (mkDatabase people ∅ [] [] coaches customers).
Proof.
  split; [split; constructor|].
  split; [intros u; apply lookup_empty|].
  split; [split; constructor|].
  split; [constructor|].
  intros reportId. cbn. lia.
Qed.

Lemma serve_unauthenticated (request : Request) (sessionUser : option string)
    (db : Database) :
  Session.getAuthenticatedUser sessionUser db = None ->
  serve request sessionUser db = (Unauthenticated, db).
Proof.
  intros Hnone.
  destruct request; unfold serve; rewrite createApiRoute_run, Hnone; reflexivity.
Qed.

(* ===================================================================== *)
(** ** Sessions and the access checks *)

Lemma getAuthenticatedUser_None (sessionUser : option string) (db : Database) :
  (forall id u, sessionUser = Some id -> users db !! Db.uuid id = Some u ->
                Users.deleted_at u <> None) ->
  Session.getAuthenticatedUser sessionUser db = None.
Proof.
  intros Hgone. unfold Session.getAuthenticatedUser.
  destruct sessionUser as [id|]; [|reflexivity].
  destruct (users db !! Db.uuid id) as [u|] eqn:Hu; [|reflexivity].
  destruct (decide _) as [Hlive|]; [|reflexivity].
  exfalso. exact (Hgone id u eq_refl Hu Hlive).
Qed.

(** X6. A session whose user has no row in [users], or a soft-deleted
    one, is unauthenticated on every route: whatever the request, the
    answer is 401 and the database is left as it was.  (The row of the
    user is the one under the id as the database prints it.) *)
Theorem deleted_account_is_unauthenticated (request : Request)
    (sessionUser : option string) (db : Database) :
  (forall id u, sessionUser = Some id -> users db !! Db.uuid id = Some u ->
                Users.deleted_at u <> None) ->
  serve request sessionUser db = (Unauthenticated, db).
Proof.
  intros Hgone. apply serve_unauthenticated, getAuthenticatedUser_None, Hgone.
Qed.

Lemma deleted_account_is_unauthenticated_witness :
  let db := setUsers (<[Sample.clientId := Users.mk ApiHelpers.client (Some 5)]>
                        Sample.people) Sample.empty in
  (forall id u, Some Sample.clientId = Some id -> users db !! Db.uuid id = Some u ->
                Users.deleted_at u <> None)
  /\ serve (GetTrends Sample.clientId None) (Some Sample.clientId) db
     = (Unauthenticated, db).
Proof.
  intros db.
  assert (Hgone : forall id u, Some Sample.clientId = Some id ->
                    users db !! Db.uuid id = Some u -> Users.deleted_at u <> None).
  { intros id u [= <-] Hu. vm_compute in Hu. injection Hu as <-. discriminate. }
  split; [exact Hgone|].
  exact (deleted_account_is_unauthenticated _ _ db Hgone).
Defined.

(** X7. The routes that name a report or an image by id (get, edit and
    delete a report, delete an image) never answer 404, whatever the
    caller, the id, the body and the database: their not-found branch
    comes after an access check that has already refused a row it
    cannot select. *)
Theorem report_routes_never_answer_not_found (db : Database) (now : Z)
    (remove : list string -> bool)
    (user : option ApiHelpers.AuthenticatedUser) (id : string)
    (body : gmap string jsval) :
  statusOf (Reports.GET user id db) <> NotFound
  /\ statusOf (Reports.PATCH now user id body db) <> NotFound
  /\ statusOf (Reports.DELETE now user id db) <> NotFound
  /\ statusOf (ReportImages.DELETE now remove user id db) <> NotFound.
Proof.
  split; [|split; [|split]].
  - unfold Reports.GET. run_handler.
    destruct user as [u|]; [|status_leaf]. run_handler.
    destruct (ApiHelpers.UuidParamSchema id) as [reportId|]; [|status_leaf].
    run_handler. unfold Reports.checkReportAccess.
    destruct (Db.selectReport reportId db) as [report|] eqn:Hsel; [|status_leaf].
    destruct (negb _); [status_leaf|]. rewrite Hsel. status_leaf.
  - unfold Reports.PATCH. run_handler.
    destruct user as [u|]; [|status_leaf]. run_handler.
    destruct (ApiHelpers.UuidParamSchema id) as [reportId|]; [|status_leaf].
    run_handler. unfold Reports.checkReportAccess.
    destruct (Db.selectReport reportId db) as [report|] eqn:Hsel; [|status_leaf].
    destruct (negb _); [status_leaf|]. rewrite Hsel.
    destruct (decide _); [status_leaf|].
    destruct (_ && _); [status_leaf|].
    destruct (ApiHelpers.EditReportSchema body) as [d|]; [|status_leaf].
    run_handler. destruct (Reports.noUpdateFields d); [status_leaf|].
    destruct (Reports.updateReport _ _ _) as [[updated rows']|]; status_leaf.
  - unfold Reports.DELETE. run_handler.
    destruct user as [u|]; [|status_leaf]. run_handler.
    destruct (ApiHelpers.UuidParamSchema id) as [reportId|]; [|status_leaf].
    run_handler. unfold Reports.checkReportAccess.
    destruct (Db.selectReport reportId db) as [report|] eqn:Hsel; [|status_leaf].
    destruct (negb _); [status_leaf|]. rewrite Hsel.
    destruct (decide _); status_leaf.
  - unfold ReportImages.DELETE. run_handler.
    destruct user as [u|]; [|status_leaf]. run_handler.
    destruct (ApiHelpers.UuidParamSchema id) as [imageId|]; [|status_leaf].
    run_handler. unfold ReportImages.checkImageDeleteAccess.
    destruct (ReportImages.selectImageWithReport imageId db) as [[image report]|];
      [|status_leaf].
    cbv zeta.
    destruct (decide _); [status_leaf; destruct (remove _); status_leaf|].
    destruct (decide _); [status_leaf; destruct (remove _); status_leaf|].
    status_leaf.
Qed.

Lemma clientAccess_mayView (u : ApiHelpers.AuthenticatedUser) (clientId : string)
    (db : Database) :
  ReportList.checkReportAccess (ApiHelpers.user_id u) (ApiHelpers.user_role u)
    clientId db = true
  <-> mayView u clientId db.
Proof.
  unfold ReportList.checkReportAccess, mayView, isActive.
  destruct u as [uid role]. cbn [ApiHelpers.user_id ApiHelpers.user_role].
  destruct (decide (role = ApiHelpers.super_admin)) as [->|Hadmin]; [tauto|].
  destruct (decide (role = ApiHelpers.client /\ uid = clientId)) as [Hown|Hown];
    [tauto|].
  destruct (decide (role = ApiHelpers.trainer)) as [->|Htrainer].
  - destruct (Db.selectActiveAssignment uid clientId db); split; auto;
      intros [H|[[H _]|[_ H]]]; congruence.
  - split; [discriminate|]. intros [H|[H|[H _]]]; tauto.
Qed.

(** X8. The access checks are one matrix.  The three client-scoped
    checks (report listing, trends, client profile) are the same
    function: an administrator, the client, or a trainer with an
    active assignment to the client.  The check of a single report is
    that function on the report's client; the checks for uploading to
    a report and for deleting an image grant the same but to no
    trainer. *)
Theorem access_checks_agree (u : ApiHelpers.AuthenticatedUser)
    (clientId : string) (db : Database) :
  let userId := ApiHelpers.user_id u in
  let userRole := ApiHelpers.user_role u in
  (ReportList.checkReportAccess userId userRole clientId db = true
   <-> mayView u clientId db)
  /\ Trends.checkTrendsAccess userId userRole clientId db
     = ReportList.checkReportAccess userId userRole clientId db
  /\ ClientProfile.checkClientAccess userId userRole clientId db
     = ReportList.checkReportAccess userId userRole clientId db
  /\ (forall reportId report,
        Db.selectReport reportId db = Some report ->
        Report.client_id report = clientId ->
        Reports.hasAccess (Reports.checkReportAccess userId userRole reportId db)
        = ReportList.checkReportAccess userId userRole clientId db
        /\ (Reports.hasAccess
              (UploadUrl.checkImageUploadAccess userId userRole reportId db) = true
            <-> userRole <> ApiHelpers.trainer /\ mayView u clientId db))
  /\ (forall imageId image report,
        ReportImages.selectImageWithReport imageId db = Some (image, report) ->
        Report.client_id report = clientId ->
        ReportImages.hasAccess
          (ReportImages.checkImageDeleteAccess userId userRole imageId db) = true
        <-> userRole <> ApiHelpers.trainer /\ mayView u clientId db).
Proof.
  cbv zeta. split; [apply clientAccess_mayView|].
  split; [reflexivity|]. split; [reflexivity|].
  assert (Hwrite :
            (ApiHelpers.user_role u = ApiHelpers.client
             /\ ApiHelpers.user_id u = clientId)
            \/ ApiHelpers.user_role u = ApiHelpers.super_admin
            <-> ApiHelpers.user_role u <> ApiHelpers.trainer /\ mayView u clientId db).
  { unfold mayView. split.
    - intros [[Hr Hi]|Hr]; (split; [congruence|tauto]).
    - intros [Hnt [H|[H|[H _]]]]; tauto. }
  split.
  - intros reportId report Hsel Hclient. split.
    + unfold Reports.checkReportAccess, ReportList.checkReportAccess.
      rewrite Hsel, Hclient. cbv zeta.
      destruct (decide _); [reflexivity|].
      destruct (decide _); [reflexivity|].
      destruct (decide _); [|reflexivity].
      destruct (Db.selectActiveAssignment _ _ db); reflexivity.
    + rewrite <- Hwrite.
      unfold UploadUrl.checkImageUploadAccess. rewrite Hsel, Hclient. cbv zeta.
      destruct (decide (_ /\ _)) as [Hown|Hown];
        [cbn [Reports.hasAccess]; tauto|].
      destruct (decide _) as [Hadmin|Hadmin]; cbn [Reports.hasAccess];
        [tauto|].
      split; [discriminate|tauto].
  - intros imageId image report Hsel Hclient.
    rewrite <- Hwrite.
    unfold ReportImages.checkImageDeleteAccess. rewrite Hsel, Hclient. cbv zeta.
    destruct (decide (_ = ApiHelpers.super_admin)) as [Hadmin|Hadmin];
      [cbn [ReportImages.hasAccess]; tauto|].
    destruct (decide _) as [Hown|Hown]; cbn [ReportImages.hasAccess];
      [tauto|].
    split; [discriminate|tauto].
Qed.

(* ===================================================================== *)
(** ** Soft deletion of accounts *)

Lemma user_delete_steps (db : Database) (now : Z)
    (u : ApiHelpers.AuthenticatedUser) (id : string) :
  UsersAdmin.DELETE now (Some u) id db
  = if decide (ApiHelpers.user_role u = ApiHelpers.super_admin)
    then if Zod.isUuid id
         then match UsersAdmin.selectExisting id db with
              | None => (inl (ApiHelpers.mkApiException 404 "User not found"), db)
              | Some _ => (inr (mkResponse 204 tt), softDeleteUser now id db)
              end
         else (inl (ApiHelpers.mkApiException 400 "Validation error"), db)
    else (inl (ApiHelpers.mkApiException 403 "Insufficient permissions"), db).
Proof.
  unfold UsersAdmin.DELETE. run_handler. unfold Session.requireRole.
  destruct (decide (ApiHelpers.user_role u = ApiHelpers.super_admin)) as [Hr|Hr].
  - rewrite bool_decide_eq_true_2 by (rewrite Hr; set_solver).
    unfold ApiHelpers.UuidParamSchema. destruct (Zod.isUuid id); [|reflexivity].
    run_handler. destruct (UsersAdmin.selectExisting id db); reflexivity.
  - rewrite bool_decide_eq_false_2; [reflexivity|].
    intros Hin. apply list_elem_of_singleton in Hin. contradiction.
Qed.

Lemma getAuthenticatedUser_Some (sessionUser : option string) (db : Database)
    (u : ApiHelpers.AuthenticatedUser) :
  Session.getAuthenticatedUser sessionUser db = Some u ->
  exists id, sessionUser = Some id /\ ApiHelpers.user_id u = Db.uuid id
  /\ users db !! ApiHelpers.user_id u = Some (Users.mk (ApiHelpers.user_role u) None).
Proof.
  unfold Session.getAuthenticatedUser.
  destruct sessionUser as [id|]; [|discriminate].
  destruct (users db !! Db.uuid id) as [[role deleted]|] eqn:Hrow; [|discriminate].
  destruct (decide _) as [Hlive|]; [|discriminate].
  cbn in Hlive. subst deleted. intros [= <-]. cbn. eauto.
Qed.

Lemma getAuthenticatedUser_row (id : string) (row : Users.Row) (db : Database) :
  users db !! Db.uuid id = Some row ->
  Session.getAuthenticatedUser (Some id) db
  = if decide (Users.deleted_at row = None)
    then Some (ApiHelpers.mkUser (Db.uuid id) (Users.role row)) else None.
Proof. unfold Session.getAuthenticatedUser. intros ->. reflexivity. Qed.

Lemma softDeleteUser_lookup (now : Z) (id k : string) (db : Database) :
  users (softDeleteUser now id db) !! k
  = if decide (Db.uuid id = k)
    then (fun u => Users.mk (Users.role u) (Some now)) <$> users db !! k
    else users db !! k.
Proof.
  unfold softDeleteUser. cbn [users setUsers].
  destruct (decide (Db.uuid id = k)) as [<-|Hne].
  - apply lookup_alter_eq.
  - apply lookup_alter_ne, Hne.
Qed.

Lemma deleted_user_is_out (now : Z) (id : string) (u : Users.Row) (db : Database) :
  users db !! Db.uuid id = Some u ->
  Session.getAuthenticatedUser (Some id) (softDeleteUser now id db) = None.
Proof.
  intros Hu. unfold Session.getAuthenticatedUser.
  rewrite softDeleteUser_lookup, decide_True by reflexivity.
  rewrite Hu. reflexivity.
Qed.

Lemma serve_delete_user_inv (db : Database) (now : Z)
    (sessionUser : option string) (id : string) :
  fst (serve (DeleteUser now id) sessionUser db) = 204 ->
  exists admin row,
    sessionUser = Some admin
    /\ users db !! Db.uuid admin = Some (Users.mk ApiHelpers.super_admin None)
    /\ Zod.isUuid id = true
    /\ users db !! Db.uuid id = Some row /\ Users.deleted_at row = None
    /\ serve (DeleteUser now id) sessionUser db = (204, softDeleteUser now id db).
Proof.
  unfold serve, answer. rewrite createApiRoute_run. cbn [fst snd].
  destruct (Session.getAuthenticatedUser sessionUser db) as [a|] eqn:Hauth;
    [|discriminate].
  destruct (getAuthenticatedUser_Some _ _ _ Hauth) as (admin & -> & Hid & Hadmin).
  rewrite user_delete_steps.
  destruct (decide _) as [Hrole|]; [|discriminate].
  destruct (Zod.isUuid id) eqn:Huuid; [|discriminate].
  unfold UsersAdmin.selectExisting.
  destruct (users db !! Db.uuid id) as [row|] eqn:Hrow; [|discriminate].
  destruct (decide _) as [Hlive|]; [|discriminate].
  intros _. exists admin, row. rewrite <- Hrole, <- Hid. auto 10.
Qed.

(** X9. When [DELETE /api/users/{id}] answers 204, the caller is an
    administrator whose row is not deleted and the target a user not
    yet deleted; the target's row gets [deleted_at = now] and keeps its
    role, no other row of [users] changes, every later request in a
    session of the target is answered 401, and the same deletion
    again is answered 404 (401 when the administrator deleted
    themself).  A row of [users] is found under the id as the database
    prints it. *)
Theorem user_deletion_locks_out (db : Database) (now : Z)
    (sessionUser : option string) (id : string) :
  fst (serve (DeleteUser now id) sessionUser db) = 204 ->
  let db' := snd (serve (DeleteUser now id) sessionUser db) in
  (exists admin, sessionUser = Some admin
                 /\ users db !! Db.uuid admin
                    = Some (Users.mk ApiHelpers.super_admin None))
  /\ (exists u, users db !! Db.uuid id = Some u /\ Users.deleted_at u = None)
  /\ db' = softDeleteUser now id db
  /\ users db' !! Db.uuid id
     = (fun u => Users.mk (Users.role u) (Some now)) <$> users db !! Db.uuid id
  /\ (forall other, other <> Db.uuid id -> users db' !! other = users db !! other)
  /\ (forall request, serve request (Some id) db' = (Unauthenticated, db'))
  /\ (forall now',
        fst (serve (DeleteUser now' id) sessionUser db')
        = if decide (Db.uuid <$> sessionUser = Some (Db.uuid id))
          then Unauthenticated else NotFound).
Proof.
  intros Hok.
  destruct (serve_delete_user_inv _ _ _ _ Hok)
    as (admin & row & -> & Hadmin & Huuid & Hrow & Hlive & Hrun).
  rewrite Hrun. cbn [snd]. clear Hok Hrun.
  split; [eauto|]. split; [eauto|]. split; [reflexivity|].
  split; [rewrite softDeleteUser_lookup, decide_True by reflexivity; reflexivity|].
  split; [intros other Hne; rewrite softDeleteUser_lookup, decide_False by congruence;
          reflexivity|].
  assert (Hout : forall request,
            serve request (Some id) (softDeleteUser now id db)
            = (Unauthenticated, softDeleteUser now id db)).
  { intros request. apply serve_unauthenticated. exact (deleted_user_is_out _ _ _ _ Hrow). }
  split; [exact Hout|].
  intros now'. cbn [fmap option_fmap option_map].
  destruct (decide _) as [[= Hsame]|Hother].
  - unfold serve, answer. rewrite createApiRoute_run. cbn [fst].
    unfold Session.getAuthenticatedUser.
    rewrite Hsame, softDeleteUser_lookup, decide_True, Hrow by reflexivity.
    reflexivity.
  - unfold serve, answer. rewrite createApiRoute_run. cbn [fst].
    assert (Hne : Db.uuid id <> Db.uuid admin) by congruence.
    erewrite getAuthenticatedUser_row
      by (rewrite softDeleteUser_lookup, decide_False by exact Hne; exact Hadmin).
    cbn [Users.deleted_at Users.role]. rewrite decide_True by reflexivity.
    rewrite user_delete_steps.
    cbn [ApiHelpers.user_role]. rewrite decide_True by reflexivity. rewrite Huuid.
    unfold UsersAdmin.selectExisting.
    rewrite softDeleteUser_lookup, decide_True, Hrow by reflexivity.
    reflexivity.
Qed.

Lemma user_deletion_locks_out_witness :
  fst (serve (DeleteUser 5 Sample.clientId) (Some Sample.adminId) Sample.empty) = 204
  /\ serve (GetTrends Sample.clientId None) (Some Sample.clientId)
       (snd (serve (DeleteUser 5 Sample.clientId) (Some Sample.adminId) Sample.empty))
     = (Unauthenticated,
        snd (serve (DeleteUser 5 Sample.clientId) (Some Sample.adminId) Sample.empty)).
Proof.
  assert (Hok : fst (serve (DeleteUser 5 Sample.clientId) (Some Sample.adminId)
                       Sample.empty) = 204) by (vm_compute; reflexivity).
  split; [exact Hok|].
  exact (proj1 (proj2 (proj2 (proj2 (proj2 (proj2
           (user_deletion_locks_out _ _ _ _ Hok))))))
           (GetTrends Sample.clientId None)).
Defined.

Lemma client_delete_steps (db : Database) (now : Z)
    (u : ApiHelpers.AuthenticatedUser) (clientId : string) :
  ClientProfile.DELETE now (Some u) clientId db
  = if Zod.isUuid clientId
    then
      if bool_decide (ApiHelpers.user_role u = ApiHelpers.super_admin)
         || bool_decide (ApiHelpers.user_role u = ApiHelpers.trainer)
            && isActive (ApiHelpers.user_id u) clientId db
      then match Db.selectUser clientId ApiHelpers.client db with
           | None => (inl (ApiHelpers.mkApiException 404 "Client not found"), db)
           | Some _ => (inr (mkResponse 204 tt), softDeleteUser now clientId db)
           end
      else (inl (ApiHelpers.mkApiException 403
                   "Access denied. Only trainers can delete their assigned clients or super admins."),
            db)
    else (inl (ApiHelpers.mkApiException 400 "Validation error"), db).
Proof.
  unfold ClientProfile.DELETE. run_handler.
  unfold ApiHelpers.UuidParamSchema. destruct (Zod.isUuid clientId); [|reflexivity].
  run_handler. unfold isActive.
  destruct (decide (ApiHelpers.user_role u = ApiHelpers.super_admin)) as [Hr|Hr].
  - rewrite (bool_decide_eq_true_2 _ Hr). cbn [orb negb].
    destruct (Db.selectUser clientId _ db); reflexivity.
  - rewrite (bool_decide_eq_false_2 _ Hr). cbn [orb].
    destruct (decide (ApiHelpers.user_role u = ApiHelpers.trainer)) as [Ht|Ht].
    + rewrite (bool_decide_eq_true_2 _ Ht). cbn [andb]. run_handler.
      destruct (Db.selectActiveAssignment _ _ db) as [a|].
      * rewrite (bool_decide_eq_true_2 (is_Some (Some a))) by eauto. cbn [negb].
        destruct (Db.selectUser clientId _ db); reflexivity.
      * rewrite (bool_decide_eq_false_2 (is_Some None)) by (intros [? ?]; discriminate).
        reflexivity.
    + rewrite (bool_decide_eq_false_2 _ Ht). reflexivity.
Qed.

Lemma serve_delete_client_inv (db : Database) (now : Z)
    (sessionUser : option string) (clientId : string) :
  fst (serve (DeleteClient now clientId) sessionUser db) = 204 ->
  exists caller row,
    Session.getAuthenticatedUser sessionUser db = Some caller
    /\ Zod.isUuid clientId = true
    /\ (ApiHelpers.user_role caller = ApiHelpers.super_admin
        \/ (ApiHelpers.user_role caller = ApiHelpers.trainer
            /\ isActive (ApiHelpers.user_id caller) clientId db = true))
    /\ users db !! Db.uuid clientId = Some row
    /\ Users.role row = ApiHelpers.client /\ Users.deleted_at row = None
    /\ serve (DeleteClient now clientId) sessionUser db
       = (204, softDeleteUser now clientId db).
Proof.
  unfold serve, answer. rewrite createApiRoute_run. cbn [fst snd].
  destruct (Session.getAuthenticatedUser sessionUser db) as [a|] eqn:Hauth;
    [|discriminate].
  rewrite client_delete_steps.
  destruct (Zod.isUuid clientId) eqn:Huuid; [|discriminate].
  destruct (_ || _) eqn:Haccess; [|discriminate].
  unfold Db.selectUser.
  destruct (users db !! Db.uuid clientId) as [row|] eqn:Hrow; [|discriminate].
  destruct (decide _) as [[Hrole Hlive]|]; [|discriminate].
  intros _. exists a, row. split; [reflexivity|]. split; [reflexivity|].
  split; [|auto].
  apply orb_true_iff in Haccess as [Hadmin|Htrainer].
  - left. exact (bool_decide_eq_true_1 _ Hadmin).
  - right. apply andb_true_iff in Htrainer as [Ht Hact].
    split; [exact (bool_decide_eq_true_1 _ Ht)|exact Hact].
Qed.

Lemma get_ignores_users (user : option ApiHelpers.AuthenticatedUser)
    (reportId : string) (rows : gmap string Users.Row) (db : Database) :
  fst (Reports.GET user reportId (setUsers rows db))
  = fst (Reports.GET user reportId db).
Proof.
  unfold Reports.GET. run_handler.
  destruct user as [u|]; [|reflexivity]. run_handler.
  destruct (ApiHelpers.UuidParamSchema reportId) as [id|]; [|reflexivity].
  run_handler.
  change (Reports.checkReportAccess (ApiHelpers.user_id u) (ApiHelpers.user_role u)
            id (setUsers rows db))
    with (Reports.checkReportAccess (ApiHelpers.user_id u) (ApiHelpers.user_role u)
            id db).
  destruct (negb _); [reflexivity|].
  change (Db.selectReport id (setUsers rows db)) with (Db.selectReport id db).
  destruct (Db.selectReport id db); reflexivity.
Qed.

(** X10. When [DELETE /api/clients/{clientId}] answers 204, the caller
    is an administrator or a trainer with an active assignment to the
    client, and never the client: only the client's [deleted_at] is
    written.  Afterwards the client is unauthenticated on every
    route, and for the caller a second deletion, the trends and the
    report listing of the client answer 404, while each report of the
    client is answered as before. *)
Theorem client_deletion_does_not_cascade (db : Database) (now : Z)
    (sessionUser : option string) (clientId : string) :
  fst (serve (DeleteClient now clientId) sessionUser db) = 204 ->
  let db' := snd (serve (DeleteClient now clientId) sessionUser db) in
  (exists caller,
     Session.getAuthenticatedUser sessionUser db = Some caller
     /\ ApiHelpers.user_id caller <> clientId
     /\ (ApiHelpers.user_role caller = ApiHelpers.super_admin
         \/ (ApiHelpers.user_role caller = ApiHelpers.trainer
             /\ isActive (ApiHelpers.user_id caller) clientId db = true)))
  /\ db' = softDeleteUser now clientId db
  /\ (forall request, serve request (Some clientId) db' = (Unauthenticated, db'))
  /\ (forall now',
        fst (serve (DeleteClient now' clientId) sessionUser db') = NotFound)
  /\ (forall metrics,
        fst (serve (GetTrends clientId metrics) sessionUser db') = NotFound)
  /\ (forall toNumber page pageSize,
        fst (serve (ListReports toNumber clientId page pageSize) sessionUser db')
        = NotFound)
  /\ (forall reportId,
        fst (serve (GetReport reportId) sessionUser db')
        = fst (serve (GetReport reportId) sessionUser db)).
Proof.
  intros Hok.
  destruct (serve_delete_client_inv _ _ _ _ Hok)
    as (caller & row & Hauth & Huuid & Haccess & Hrow & Hrole & Hlive & Hrun).
  rewrite Hrun. cbn [snd]. clear Hok Hrun.
  destruct (getAuthenticatedUser_Some _ _ _ Hauth) as (sid & -> & Hsid & Hcaller).
  assert (Hne' : Db.uuid clientId <> ApiHelpers.user_id caller).
  { intros Heq. rewrite <- Heq, Hrow in Hcaller. injection Hcaller as Hcaller.
    rewrite Hcaller in Hrole. cbn in Hrole.
    destruct Haccess as [Ha|[Ha _]]; congruence. }
  assert (Hne : ApiHelpers.user_id caller <> clientId).
  { intros Heq. apply Hne'. rewrite <- Heq, Hsid. apply uuid_idem. }
  assert (Hauth' : Session.getAuthenticatedUser (Some sid)
                     (softDeleteUser now clientId db) = Some caller).
  { rewrite Hsid in Hcaller, Hne'. erewrite getAuthenticatedUser_row
      by (rewrite softDeleteUser_lookup, decide_False by exact Hne'; exact Hcaller).
    cbn. destruct caller; cbn in Hsid; subst; reflexivity. }
  assert (Hgone : Db.selectUser clientId ApiHelpers.client
                    (softDeleteUser now clientId db) = None).
  { unfold Db.selectUser.
    rewrite softDeleteUser_lookup, decide_True, Hrow by reflexivity. cbn.
    apply decide_False. intros [_ ?]. discriminate. }
  assert (Hview : ReportList.checkReportAccess (ApiHelpers.user_id caller)
                    (ApiHelpers.user_role caller) clientId
                    (softDeleteUser now clientId db) = true).
  { unfold ReportList.checkReportAccess.
    destruct Haccess as [Ha|[Ht Hact]].
    - rewrite decide_True by exact Ha. reflexivity.
    - destruct (decide _); [reflexivity|]. destruct (decide _); [reflexivity|].
      rewrite decide_True by exact Ht. unfold isActive in Hact.
      change (Db.selectActiveAssignment (ApiHelpers.user_id caller) clientId
                (softDeleteUser now clientId db))
        with (Db.selectActiveAssignment (ApiHelpers.user_id caller) clientId db).
      destruct (Db.selectActiveAssignment _ _ db); [reflexivity|discriminate]. }
  split; [eauto|]. split; [reflexivity|].
  split.
  { intros request. apply serve_unauthenticated. exact (deleted_user_is_out _ _ _ _ Hrow). }
  split.
  { intros now'. unfold serve, answer. rewrite createApiRoute_run, Hauth'.
    cbn [fst]. rewrite client_delete_steps, Huuid.
    change (isActive (ApiHelpers.user_id caller) clientId
              (softDeleteUser now clientId db))
      with (isActive (ApiHelpers.user_id caller) clientId db).
    replace (_ || _) with true; [rewrite Hgone; reflexivity|].
    symmetry. destruct Haccess as [Ha|[Ht Hact]].
    - rewrite (bool_decide_eq_true_2 _ Ha). reflexivity.
    - rewrite (bool_decide_eq_true_2 _ Ht), Hact. apply orb_true_r. }
  split.
  { intros metrics. unfold serve, answer. rewrite createApiRoute_run, Hauth'.
    cbn [fst]. unfold Trends.GET. run_handler.
    rewrite (UuidParamSchema_ok _ Huuid). run_handler.
    change (Trends.checkTrendsAccess ?a ?b ?c ?d)
      with (ReportList.checkReportAccess a b c d).
    rewrite Hview. cbn [negb]. rewrite Hgone. reflexivity. }
  split.
  { intros toNumber page pageSize. unfold serve, answer.
    rewrite createApiRoute_run, Hauth'.
    cbn [fst]. unfold ReportList.GET. run_handler.
    rewrite (UuidParamSchema_ok _ Huuid). run_handler.
    rewrite Hview. cbn [negb]. rewrite Hgone. reflexivity. }
  intros reportId. unfold serve, answer. rewrite !createApiRoute_run, Hauth', Hauth.
  cbn [fst]. unfold statusOf. unfold softDeleteUser. rewrite get_ignores_users.
  reflexivity.
Qed.

Lemma client_deletion_does_not_cascade_witness :
  let db := setTrainerClient
              {[ (Sample.coachId, Sample.clientId) := TrainerClient.mk true 0 ]}
              (setReports [Sample.report Sample.reportA 0 1 1970 0 None None]
                 Sample.empty) in
  fst (serve (DeleteClient 5 Sample.clientId) (Some Sample.coachId) db) = 204
  /\ fst (serve (GetTrends Sample.clientId None) (Some Sample.coachId)
            (snd (serve (DeleteClient 5 Sample.clientId) (Some Sample.coachId) db)))
     = NotFound
  /\ fst (serve (GetReport Sample.reportA) (Some Sample.coachId)
            (snd (serve (DeleteClient 5 Sample.clientId) (Some Sample.coachId) db)))
     = 200.
Proof.
  intros db.
  assert (Hok : fst (serve (DeleteClient 5 Sample.clientId) (Some Sample.coachId) db)
                = 204) by (vm_compute; reflexivity).
  split; [exact Hok|].
  destruct (client_deletion_does_not_cascade _ _ _ _ Hok)
    as (_ & _ & _ & _ & Htrends & _ & Hget).
  split; [exact (Htrends None)|].
  rewrite (Hget Sample.reportA). vm_compute. reflexivity.
Defined.

Lemma requests_keep_consistent_witness :
  let requests :=
    [(SubmitReport (Clock.utc 2024 1 10 8 0 0) Sample.reportA Sample.clientId
        {[ "weight" := JNum 70 ]}, Some Sample.clientId);
     (DeleteReport (Clock.utc 2024 1 10 8 30 0) Sample.reportA, Some Sample.clientId);
     (SubmitReport (Clock.utc 2024 1 10 9 0 0) Sample.reportB Sample.clientId
        {[ "weight" := JNum 70 ]}, Some Sample.clientId)] in
  consistent Sample.empty
  /\ (length (storedForWeek Sample.clientId 2024 2
                (reports (serveAll requests Sample.empty))) <= 2)%nat.
Proof.
  intros requests.
  split; [exact (consistent_without_rows Sample.people Sample.coaches
                   Sample.customers)|].
  exact (proj1 (proj2 (requests_keep_consistent requests Sample.empty
                         (consistent_without_rows Sample.people Sample.coaches
                            Sample.customers)))
           Sample.clientId 2024 2).
Defined.

(* ===================================================================== *)
(** ** Pagination and the listing of reports *)

Lemma coerceInt_accepts (toNumber : string -> option Q) (lo : Z) (hi : option Z)
    (dflt : Z) (v : option string) (r : Z) :
  Pagination.coerceInt toNumber (inject_Z lo) (inject_Z <$> hi) dflt v = Some r ->
  match v with
  | None => r = dflt
  | Some s => exists n, toNumber s = Some n /\ (inject_Z r == n)%Q /\ lo <= r
                        /\ forall h, hi = Some h -> r <= h
  end.
Proof.
  unfold Pagination.coerceInt. destruct v as [s|]; [|congruence].
  destruct (toNumber s) as [n|]; [|discriminate].
  destruct (Zod.isInteger n) eqn:Hint; [|discriminate]. cbn [andb].
  destruct (Qle_bool (inject_Z lo) n) eqn:Hlo; [|discriminate]. cbn [andb].
  pose proof (toInteger_inject n Hint) as Heq.
  apply Qle_bool_iff in Hlo. rewrite <- Heq in Hlo. rewrite <- Zle_Qle in Hlo.
  destruct hi as [h|]; cbn [fmap option_fmap option_map].
  - destruct (Qle_bool n (inject_Z h)) eqn:Hhi; [|discriminate].
    intros [= <-]. exists n. repeat split; auto.
    intros h' [= <-]. apply Qle_bool_iff in Hhi. rewrite <- Heq in Hhi.
    rewrite <- Zle_Qle in Hhi. exact Hhi.
  - intros [= <-]. exists n. repeat split; auto. discriminate.
Qed.

Lemma PaginationQuerySchema_positive (toNumber : string -> option Q)
    (pageParam pageSizeParam : option string) (page pageSize : Z) :
  Pagination.PaginationQuerySchema toNumber pageParam pageSizeParam
  = Some (page, pageSize) ->
  1 <= page /\ 1 <= pageSize.
Proof.
  unfold Pagination.PaginationQuerySchema. intros Hparse.
  apply bind_Some in Hparse as (p & Hp & Hparse).
  apply bind_Some in Hparse as (ps & Hps & Hparse).
  injection Hparse as <- <-.
  apply (coerceInt_accepts toNumber 1 None) in Hp.
  apply (coerceInt_accepts toNumber 1 (Some 100)) in Hps.
  split.
  - destruct pageParam; [destruct Hp as (_ & _ & _ & Hlo & _); exact Hlo|lia].
  - destruct pageSizeParam; [destruct Hps as (_ & _ & _ & Hlo & _); exact Hlo|lia].
Qed.

(** X11. Whatever [Number] makes of the strings, a pagination query
    that is accepted has a page of at least 1 and a page size between
    1 and 100, each the integer its parameter converts to; an absent
    [page] is page 1 and an absent [pageSize] is 20. *)
Theorem pagination_query_bounds (toNumber : string -> option Q)
    (pageParam pageSizeParam : option string) (page pageSize : Z) :
  Pagination.PaginationQuerySchema toNumber pageParam pageSizeParam
  = Some (page, pageSize) ->
  1 <= page /\ 1 <= pageSize <= 100
  /\ (pageParam = None -> page = 1)
  /\ (pageSizeParam = None -> pageSize = 20)
  /\ (forall s, pageParam = Some s ->
        exists n, toNumber s = Some n /\ (inject_Z page == n)%Q)
  /\ (forall s, pageSizeParam = Some s ->
        exists n, toNumber s = Some n /\ (inject_Z pageSize == n)%Q).
Proof.
  unfold Pagination.PaginationQuerySchema. intros Hparse.
  apply bind_Some in Hparse as (p & Hp & Hparse).
  apply bind_Some in Hparse as (ps & Hps & Hparse).
  injection Hparse as <- <-.
  apply (coerceInt_accepts toNumber 1 None) in Hp.
  apply (coerceInt_accepts toNumber 1 (Some 100)) in Hps.
  destruct pageParam as [s|], pageSizeParam as [s'|].
  - destruct Hp as (n & Hn & Heq & Hlo & _), Hps as (n' & Hn' & Heq' & Hlo' & Hhi').
    specialize (Hhi' 100 eq_refl).
    repeat split; try lia; try discriminate.
    + intros ? [= <-]. eauto.
    + intros ? [= <-]. eauto.
  - destruct Hp as (n & Hn & Heq & Hlo & _). subst ps.
    repeat split; try lia; try discriminate.
    intros ? [= <-]. eauto.
  - destruct Hps as (n' & Hn' & Heq' & Hlo' & Hhi'). subst p.
    specialize (Hhi' 100 eq_refl).
    repeat split; try lia; try discriminate.
    intros ? [= <-]. eauto.
  - subst p ps. repeat split; try lia; discriminate.
Qed.

Lemma ceilDiv_bounds (a b : Z) :
  0 < b -> (Clock.ceilDiv a b - 1) * b < a <= Clock.ceilDiv a b * b.
Proof.
  intros Hb. unfold Clock.ceilDiv.
  pose proof (Z.div_mod (- a) b ltac:(lia)).
  pose proof (Z.mod_pos_bound (- a) b Hb). nia.
Qed.

(** X12. For a page size of at least 1 and a number of rows whose pages
    all end at or below 2^53, where the doubles of JavaScript are
    exact: [getPaginationRange] gives every page that ends at or below
    2^53 exactly [pageSize] offsets, and every offset below
    [totalItems] falls in the range of exactly one such page, which
    lies between 1 and the [totalPages] of [calculatePagination];
    [totalPages] is the least number of pages that hold [totalItems]
    rows.  (Beyond 2^53 the code rounds: page 2^53 of size 3 has 5
    offsets.) *)
Theorem pagination_pages_tile (pageSize totalItems offset : Z) :
  1 <= pageSize -> 0 <= offset < totalItems ->
  let totalPages :=
    Pagination.totalPages (Pagination.calculatePagination 1 pageSize totalItems) in
  totalPages * pageSize <= 2 ^ 53 ->
  let within page :=
    fst (Pagination.getPaginationRange page pageSize) <= offset
    <= snd (Pagination.getPaginationRange page pageSize) in
  (totalPages - 1) * pageSize < totalItems <= totalPages * pageSize
  /\ (forall page, Pagination.exactPage page pageSize ->
        snd (Pagination.getPaginationRange page pageSize)
        - fst (Pagination.getPaginationRange page pageSize) + 1 = pageSize)
  /\ exists page, 1 <= page <= totalPages /\ Pagination.exactPage page pageSize
                  /\ within page
                  /\ forall page', Pagination.exactPage page' pageSize ->
                                   within page' -> page' = page.
Proof.
  intros Hps Hoff. cbv zeta. cbn [Pagination.totalPages Pagination.calculatePagination].
  unfold Pagination.getPaginationRange, Pagination.exactPage. cbn [fst snd].
  intros Hexact.
  pose proof (ceilDiv_bounds totalItems pageSize ltac:(lia)) as Hceil.
  split; [exact Hceil|]. split; [intros page _; lia|].
  exists (offset / pageSize + 1).
  pose proof (Z.div_mod offset pageSize ltac:(lia)) as Hd.
  pose proof (Z.mod_pos_bound offset pageSize ltac:(lia)) as Hm.
  pose proof (Z.div_pos offset pageSize ltac:(lia) ltac:(lia)) as Hq.
  assert (Hpage : offset / pageSize + 1 <= Clock.ceilDiv totalItems pageSize) by nia.
  split; [lia|]. split; [split; [lia|nia]|]. split; [nia|].
  intros page' _ Hin. nia.
Qed.

Lemma Sorted_take {A : Type} (R : relation A) (n : nat) (l : list A) :
  Sorted R l -> Sorted R (take n l).
Proof.
  revert n. induction l as [|x l IH]; intros n Hs; [destruct n; constructor|].
  destruct n as [|n]; [constructor|]. cbn [take].
  apply Sorted_inv in Hs as [Hs Hhd]. constructor; [apply IH, Hs|].
  destruct Hhd; [destruct n; constructor|]. destruct n; constructor. assumption.
Qed.

Lemma Sorted_drop {A : Type} (R : relation A) (n : nat) (l : list A) :
  Sorted R l -> Sorted R (drop n l).
Proof.
  revert l. induction n as [|n IH]; intros l Hs; [exact Hs|].
  destruct l as [|x l]; [constructor|]. cbn [drop].
  apply Sorted_inv in Hs as [Hs _]. apply IH, Hs.
Qed.

Lemma Sorted_weaken {A : Type} (R R' : relation A) (l : list A) :
  (forall a b, R a b -> R' a b) -> Sorted R l -> Sorted R' l.
Proof.
  intros Himpl. induction 1 as [|x l _ IH Hhd]; constructor; [exact IH|].
  destruct Hhd; constructor. auto.
Qed.

Lemma selectListed_spec (clientId : string) (db : Database) :
  Sorted (fun a b => Report.created_at b <= Report.created_at a)
    (ReportList.selectListed clientId db)
  /\ ReportList.selectListed clientId db
     ≡ₚ filter (fun r => Report.client_id r = Db.uuid clientId
                         /\ Report.deleted_at r = None)
          (reports db).
Proof.
  unfold ReportList.selectListed, ReportList.orderByDescending. split.
  - eapply Sorted_weaken; [|apply orderBy_sorted].
    intros a b Hab. cbn in Hab. lia.
  - apply orderBy_perm.
Qed.

Section Listing.

Variables (db : Database) (toNumber : string -> option Q)
  (u : ApiHelpers.AuthenticatedUser) (clientId : string).

Hypothesis Huuid : Zod.isUuid clientId = true.
Hypothesis Hview : mayView u clientId db.
Hypothesis Hclient : is_Some (Db.selectUser clientId ApiHelpers.client db).

Lemma list_steps (pageParam pageSizeParam : option string) (page pageSize : Z) :
  Pagination.ReportsQuerySchema toNumber pageParam pageSizeParam
  = Some (page, pageSize) ->
  ReportList.GET toNumber (Some u) clientId pageParam pageSizeParam db
  = (inr (mkResponse 200
            (Pagination.mkPaginated
               (ReportList.toDTO
                  <$> take (Z.to_nat pageSize)
                        (drop (Z.to_nat ((page - 1) * pageSize))
                           (ReportList.selectListed clientId db)))
               (Pagination.calculatePagination page pageSize
                  (Z.of_nat (length (ReportList.selectListed clientId db)))))),
     db).
Proof.
  intros Hquery. unfold ReportList.GET. run_handler.
  rewrite (UuidParamSchema_ok _ Huuid). run_handler.
  rewrite (proj2 (clientAccess_mayView u clientId db) Hview). cbn [negb].
  destruct Hclient as [row ->]. rewrite Hquery. run_handler.
  unfold Pagination.getPaginationRange, Pagination.createPaginatedResponse,
    ReportList.range. run_handler. cbv zeta.
  replace ((page - 1) * pageSize + pageSize - 1 - (page - 1) * pageSize + 1)
    with pageSize by lia.
  reflexivity.
Qed.

(** X13. For a principal who may view the client, a client that exists
    and an accepted query for the first page or for a page that
    starts within the rows, [GET /api/clients/{clientId}/reports] answers 200 and
    leaves the database alone; the items are reports of the client
    that are not deleted, without their note, newest first, at most
    [pageSize] of them, and the meta data count all such reports. *)
Theorem report_list_page (pageParam pageSizeParam : option string)
    (page pageSize : Z) :
  Pagination.ReportsQuerySchema toNumber pageParam pageSizeParam
  = Some (page, pageSize) ->
  let live := filter (fun r => Report.client_id r = Db.uuid clientId
                               /\ Report.deleted_at r = None) (reports db) in
  let total := Z.of_nat (length live) in
  page = 1 \/ (page - 1) * pageSize < total ->
  exists listing,
    ReportList.GET toNumber (Some u) clientId pageParam pageSizeParam db
    = (inr (mkResponse 200 listing), db)
    /\ Pagination.meta listing
       = Pagination.mkPaginationMeta page pageSize (Clock.ceilDiv total pageSize) total
    /\ Z.of_nat (length (Pagination.items listing))
       = Z.min pageSize (total - (page - 1) * pageSize)
    /\ Sorted (fun a b => ReportList.created_at b <= ReportList.created_at a)
         (Pagination.items listing)
    /\ (forall item, item ∈ Pagination.items listing ->
          exists r, r ∈ live /\ item = ReportList.toDTO r).
Proof.
  intros Hquery live total Hrange.
  destruct (PaginationQuerySchema_positive _ _ _ _ _ Hquery) as (Hp & Hps).
  destruct (selectListed_spec clientId db) as [Hsorted Hperm].
  assert (Hlen : Z.of_nat (length (ReportList.selectListed clientId db)) = total).
  { subst total live. rewrite Hperm. reflexivity. }
  eexists. split; [apply (list_steps _ _ _ _ Hquery)|].
  cbn [Pagination.meta Pagination.items]. rewrite Hlen.
  split; [reflexivity|]. split; [|split].
  - rewrite length_fmap, length_take, length_drop.
    assert (0 <= (page - 1) * pageSize) by nia.
    assert ((page - 1) * pageSize <= total) by (destruct Hrange; subst; lia). lia.
  - apply (Sorted_fmap _ (fun a b => Report.created_at b <= Report.created_at a)).
    + intros a b Hab. exact Hab.
    + apply Sorted_take, Sorted_drop, Hsorted.
  - intros item Hitem. apply list_elem_of_fmap in Hitem as (r & -> & Hr).
    exists r. split; [|reflexivity].
    apply (subseteq_take _ _ _) in Hr. apply (subseteq_drop _ _ _) in Hr.
    subst live. rewrite <- Hperm. exact Hr.
Qed.

(** X14. Fetching the pages 1 to [totalPages] of a client's reports
    with one page size, as the dashboard does, yields every report of
    the client that is not deleted exactly once, newest first. *)
Theorem report_list_pages_cover (pageParam : Z -> option string)
    (pageSizeParam : option string) (pageSize : Z) :
  1 <= pageSize ->
  let listed := ReportList.selectListed clientId db in
  let totalPages := Clock.ceilDiv (Z.of_nat (length listed)) pageSize in
  (forall page, 1 <= page <= totalPages ->
     Pagination.ReportsQuerySchema toNumber (pageParam page) pageSizeParam
     = Some (page, pageSize)) ->
  let fetch page :=
    ReportList.GET toNumber (Some u) clientId (pageParam page) pageSizeParam db in
  concat (omap (fun page => Pagination.items <$> returned (fetch page))
            (seqZ 1 totalPages))
  = ReportList.toDTO <$> listed.
Proof.
  intros Hps listed totalPages Hquery fetch.
  pose proof (ceilDiv_bounds (Z.of_nat (length listed)) pageSize ltac:(lia)) as Hceil.
  fold totalPages in Hceil.
  assert (Hpages : 0 <= totalPages) by nia.
  assert (Hprefix : forall k : nat,
            Z.of_nat k <= totalPages ->
            concat (omap (fun page => Pagination.items <$> returned (fetch page))
                      (seqZ 1 (Z.of_nat k)))
            = ReportList.toDTO <$> take (k * Z.to_nat pageSize) listed).
  { induction k as [|k IH]; intros Hk; [reflexivity|].
    rewrite seqZ_S, omap_app, concat_app, IH by lia.
    cbn [omap list_omap]. subst fetch. cbv beta.
    rewrite (list_steps _ _ _ _ (Hquery (1 + Z.of_nat k) ltac:(lia))).
    cbn [returned fst data fmap option_fmap option_map Pagination.items concat].
    rewrite app_nil_r, <- fmap_app. f_equal.
    replace (Z.to_nat ((1 + Z.of_nat k - 1) * pageSize))
      with (k * Z.to_nat pageSize)%nat by nia.
    fold listed. rewrite take_take_drop. f_equal. lia. }
  rewrite <- (Z2Nat.id totalPages Hpages), Hprefix by lia.
  rewrite take_ge; [reflexivity|]. nia.
Qed.

End Listing.

(* ===================================================================== *)
(** ** Images: deletion and retention *)

Lemma selectImageWithReport_Some (imageId : string) (db : Database)
    (image : ReportImage.Row) (report : Report.Row) :
  ReportImages.selectImageWithReport imageId db = Some (image, report) ->
  image ∈ report_images db /\ ReportImage.id image = Db.uuid imageId
  /\ ReportImage.is_deleted image = false
  /\ report ∈ reports db /\ Report.id report = ReportImage.report_id image.
Proof.
  unfold ReportImages.selectImageWithReport. intros Hsel.
  apply single_Some in Hsel.
  assert (Hin : (image, report) ∈ [(image, report)])
    by (apply list_elem_of_singleton; reflexivity).
  rewrite <- Hsel in Hin.
  apply list_elem_of_bind in Hin as (i & Hin & Hi).
  apply list_elem_of_filter in Hi as [[Hid Hlive] Hi].
  apply list_elem_of_bind in Hin as (r & Hin & Hr).
  apply list_elem_of_filter in Hr as [Hrid Hr].
  apply list_elem_of_singleton in Hin. injection Hin as -> ->. auto 6.
Qed.

Lemma selectImageWithReport_deleted (now : Z) (imageId : string) (db : Database) :
  ReportImages.selectImageWithReport imageId
    (setReportImages (ReportImages.markDeleted now imageId (report_images db)) db)
  = None.
Proof.
  unfold ReportImages.selectImageWithReport. cbn [report_images setReportImages].
  rewrite filter_none; [reflexivity|].
  intros i Hi [Hid Hlive]. unfold ReportImages.markDeleted in Hi.
  apply list_elem_of_fmap in Hi as (i0 & -> & _).
  destruct (decide (ReportImage.id i0 = Db.uuid imageId)); [discriminate|contradiction].
Qed.

Lemma markDeleted_held_one (now : Z) (rows : list ReportImage.Row)
    (image : ReportImage.Row) (imageId reportId : string) :
  NoDup (ReportImage.id <$> rows) -> image ∈ rows ->
  ReportImage.id image = Db.uuid imageId ->
  ReportImage.is_deleted image = false ->
  (imagesHeld reportId (ReportImages.markDeleted now imageId rows)
   + (if decide (ReportImage.report_id image = Db.uuid reportId) then 1 else 0)
   = imagesHeld reportId rows)%nat.
Proof.
  intros Hnd Hin Hid Hlive. unfold imagesHeld, ReportImages.markDeleted.
  rewrite <- Hid.
  induction rows as [|i rows IH]; [inversion Hin|].
  rewrite fmap_cons in Hnd. apply NoDup_cons in Hnd as [Hfresh Hnd].
  cbn [map]. rewrite !filter_cons.
  apply elem_of_cons in Hin as [<-|Hin].
  - destruct (decide (ReportImage.id image = ReportImage.id image)) as [_|Hn];
      [|contradiction].
    rewrite decide_False by (cbn; intros [_ ?]; discriminate).
    assert (Hrest : map (fun i => if decide (ReportImage.id i = ReportImage.id image)
                                  then ReportImage.mk (ReportImage.id i)
                                         (ReportImage.report_id i)
                                         (ReportImage.storage_path i)
                                         (ReportImage.size_bytes i)
                                         (ReportImage.width i) (ReportImage.height i)
                                         (ReportImage.created_at i) true (Some now)
                                  else i) rows = rows).
    { clear IH Hnd. induction rows as [|j rows IH]; [reflexivity|].
      cbn [map]. rewrite fmap_cons in Hfresh.
      destruct (decide (ReportImage.id j = ReportImage.id image)) as [Heq|_].
      - exfalso. apply Hfresh. rewrite <- Heq. apply elem_of_cons. left. reflexivity.
      - f_equal. apply IH. intros Hrest. apply Hfresh, elem_of_cons. right.
        exact Hrest. }
    rewrite Hrest.
    destruct (decide (ReportImage.report_id image = Db.uuid reportId)) as [Hr|Hr].
    + rewrite decide_True by auto. cbn [length]. lia.
    + rewrite decide_False by tauto. lia.
  - specialize (IH Hnd Hin).
    destruct (decide (ReportImage.id i = ReportImage.id image)) as [Heq|_].
    + exfalso. apply Hfresh. rewrite Heq. apply list_elem_of_fmap. eauto.
    + destruct (decide (_ /\ _)); cbn [length]; lia.
Qed.

Section ImageDeletion.

Variables (db : Database) (now : Z) (u : ApiHelpers.AuthenticatedUser)
  (imageId : string) (image : ReportImage.Row) (report : Report.Row).

Hypothesis Huuid : Zod.isUuid imageId = true.
Hypothesis Hsel : ReportImages.selectImageWithReport imageId db = Some (image, report).
Hypothesis Hmay :
  ApiHelpers.user_role u = ApiHelpers.super_admin
  \/ (ApiHelpers.user_role u = ApiHelpers.client
      /\ ApiHelpers.user_id u = Report.client_id report).

Lemma image_delete_steps (remove : list string -> bool) :
  ReportImages.DELETE now remove (Some u) imageId db
  = (inr (mkResponse 204 tt),
     setReportImages (ReportImages.markDeleted now imageId (report_images db)) db).
Proof.
  unfold ReportImages.DELETE. run_handler.
  rewrite (UuidParamSchema_ok _ Huuid). run_handler.
  unfold ReportImages.checkImageDeleteAccess. rewrite Hsel. cbv zeta.
  destruct (decide (ApiHelpers.user_role u = ApiHelpers.super_admin)) as [Ha|Ha].
  - cbn [negb ReportImages.hasAccess ReportImages.image].
    destruct (remove _); reflexivity.
  - destruct Hmay as [?|Hown]; [contradiction|].
    rewrite decide_True by exact Hown.
    cbn [negb ReportImages.hasAccess ReportImages.image].
    destruct (remove _); reflexivity.
Qed.

End ImageDeletion.

(** X17. When the owner of the report or an administrator deletes an
    image that is not deleted, the answer is 204 whatever the storage
    collaborator reports; only that row of [report_images] changes
    ([is_deleted] and [deleted_at]), its report holds one image less
    and every other report as many as before, and a second deletion
    is answered 403.  (Ids are compared as the database compares
    values of type [uuid].) *)
Theorem image_deletion (db : Database) (now : Z) (remove : list string -> bool)
    (u : ApiHelpers.AuthenticatedUser) (imageId : string)
    (image : ReportImage.Row) (report : Report.Row) :
  Zod.isUuid imageId = true ->
  primaryKeys db ->
  ReportImages.selectImageWithReport imageId db = Some (image, report) ->
  ApiHelpers.user_role u = ApiHelpers.super_admin
  \/ (ApiHelpers.user_role u = ApiHelpers.client
      /\ ApiHelpers.user_id u = Report.client_id report) ->
  let delete := ReportImages.DELETE now remove (Some u) imageId db in
  let db' := snd delete in
  statusOf delete = 204
  /\ (forall remove', ReportImages.DELETE now remove' (Some u) imageId db = delete)
  /\ users db' = users db /\ trainer_client db' = trainer_client db
  /\ reports db' = reports db
  /\ (forall i row, report_images db !! i = Some row ->
        report_images db' !! i
        = Some (if decide (ReportImage.id row = Db.uuid imageId)
                then ReportImage.mk (Db.uuid imageId) (ReportImage.report_id row)
                       (ReportImage.storage_path row) (ReportImage.size_bytes row)
                       (ReportImage.width row) (ReportImage.height row)
                       (ReportImage.created_at row) true (Some now)
                else row))
  /\ length (report_images db') = length (report_images db)
  /\ (forall reportId,
        (imagesHeld reportId (report_images db')
         + (if decide (ReportImage.report_id image = Db.uuid reportId) then 1 else 0)
         = imagesHeld reportId (report_images db))%nat)
  /\ (forall user remove',
        failsWith Forbidden (ReportImages.DELETE now remove' (Some user) imageId db')
        /\ snd (ReportImages.DELETE now remove' (Some user) imageId db') = db').
Proof.
  intros Huuid [_ Hids] Hsel Hmay delete db'.
  destruct (selectImageWithReport_Some _ _ _ _ Hsel) as (Hin & Hid & Hlive & _ & _).
  subst delete db'. rewrite !(image_delete_steps db now u imageId image report Huuid Hsel Hmay).
  cbn [snd]. split; [reflexivity|].
  split; [intros remove'; apply image_delete_steps with (image := image) (report := report);
          assumption|].
  split; [reflexivity|]. split; [reflexivity|]. split; [reflexivity|].
  cbn [report_images setReportImages].
  split.
  { intros i row Hrow. unfold ReportImages.markDeleted.
    change (map ?g ?l) with (g <$> l). rewrite list_lookup_fmap, Hrow. cbn.
    destruct (decide _) as [->|]; reflexivity. }
  split; [unfold ReportImages.markDeleted; apply length_map|].
  split.
  { intros reportId. apply markDeleted_held_one; assumption. }
  intros user remove'. unfold ReportImages.DELETE. run_handler.
  rewrite (UuidParamSchema_ok _ Huuid). run_handler.
  unfold ReportImages.checkImageDeleteAccess.
  rewrite selectImageWithReport_deleted.
  split; [apply failsWith_throw|reflexivity].
Qed.

Lemma same_id_same_report (rows : list Report.Row) (a b : Report.Row) :
  NoDup (Report.id <$> rows) -> a ∈ rows -> b ∈ rows ->
  Report.id a = Report.id b -> a = b.
Proof.
  intros Hnd Ha Hb Hid.
  pose proof (filter_by_id rows a Hnd Ha) as Hfilter.
  assert (Hin : b ∈ filter (fun x => Report.id x = Report.id a) rows)
    by (apply list_elem_of_filter; auto).
  rewrite Hfilter in Hin. apply list_elem_of_singleton in Hin. auto.
Qed.

(** X18. On a report that holds three images an upload request is
    refused; once one of them is deleted the same request is accepted,
    and the report holds three images again. *)
Theorem delete_image_then_upload (db : Database) (now later : Z)
    (remove : list string -> bool) (uuid : string)
    (sign : string -> option string) (u : ApiHelpers.AuthenticatedUser)
    (imageId reportId : string) (image : ReportImage.Row) (report : Report.Row)
    (body : gmap string jsval) (request : ApiHelpers.ImageUploadRequest)
    (signedUrl : string) :
  Zod.isUuid imageId = true -> Zod.isUuid reportId = true ->
  primaryKeys db ->
  Db.selectReport reportId db = Some report ->
  image ∈ report_images db -> ReportImage.id image = Db.uuid imageId ->
  ReportImage.report_id image = Db.uuid reportId ->
  ReportImage.is_deleted image = false ->
  ApiHelpers.user_role u = ApiHelpers.super_admin
  \/ (ApiHelpers.user_role u = ApiHelpers.client
      /\ ApiHelpers.user_id u = Report.client_id report) ->
  imagesHeld reportId (report_images db) = 3%nat ->
  ApiHelpers.ImageUploadRequestSchema body = Some request ->
  sign (UploadUrl.makeStoragePath reportId uuid (ApiHelpers.contentType request))
  = Some signedUrl ->
  Forall (fun i => ReportImage.id i <> Db.uuid uuid) (report_images db) ->
  let upload := UploadUrl.POST later uuid sign (Some u) reportId body in
  let db' := snd (ReportImages.DELETE now remove (Some u) imageId db) in
  (failsWith Validation (upload db) /\ snd (upload db) = db)
  /\ statusOf (ReportImages.DELETE now remove (Some u) imageId db) = 204
  /\ imagesHeld reportId (report_images db') = 2%nat
  /\ statusOf (upload db') = 200
  /\ imagesHeld reportId (report_images (snd (upload db'))) = 3%nat.
Proof.
  intros Himg Hrep Hpk Hsel Hin Hid Hrid Hlive Hmay Hheld Hbody Hsign Hfresh
    upload db'.
  destruct (selectReport_Some _ _ _ Hsel) as (Hrin & Hreportid & Hnotdeleted).
  assert (Hjoin : ReportImages.selectImageWithReport imageId db = Some (image, report)).
  { unfold ReportImages.selectImageWithReport. destruct Hpk as [Hrids Hiids].
    assert (Himages : filter (fun i => ReportImage.id i = Db.uuid imageId
                                       /\ ReportImage.is_deleted i = false)
                        (report_images db) = [image]).
    { clear - Hiids Hin Hid Hlive. induction (report_images db) as [|i rows IH];
        [inversion Hin|].
      rewrite fmap_cons in Hiids. apply NoDup_cons in Hiids as [Hfresh Hnd].
      rewrite filter_cons. apply elem_of_cons in Hin as [<-|Hin].
      - rewrite decide_True by auto. f_equal. apply filter_none.
        intros j Hj [Hjid _]. apply Hfresh. rewrite Hid, <- Hjid.
        apply list_elem_of_fmap. eauto.
      - rewrite decide_False; [apply IH; assumption|].
        intros [Hiid _]. apply Hfresh. rewrite Hiid, <- Hid.
        apply list_elem_of_fmap. eauto. }
    rewrite Himages, bind_singleton, Hrid, <- Hreportid.
    rewrite (filter_by_id _ _ Hrids Hrin). reflexivity. }
  assert (Haccess : forall db2,
            Db.selectReport reportId db2 = Some report ->
            Reports.hasAccess
              (UploadUrl.checkImageUploadAccess (ApiHelpers.user_id u)
                 (ApiHelpers.user_role u) reportId db2) = true).
  { intros db2 Hsel2. unfold UploadUrl.checkImageUploadAccess. rewrite Hsel2. cbv zeta.
    destruct (decide (_ /\ _)); [reflexivity|].
    destruct Hmay as [Ha|?]; [|contradiction].
    rewrite decide_True by exact Ha. reflexivity. }
  pose proof (image_delete_steps db now u imageId image report Himg Hjoin Hmay remove)
    as Hdelete.
  assert (Hstatus : statusOf (ReportImages.DELETE now remove (Some u) imageId db) = 204)
    by (rewrite Hdelete; reflexivity).
  assert (Hreports : reports db' = reports db)
    by (subst db'; rewrite Hdelete; reflexivity).
  assert (Hcount : (imagesHeld reportId (report_images db') + 1
                    = imagesHeld reportId (report_images db))%nat).
  { subst db'. rewrite Hdelete. cbn [snd report_images setReportImages].
    pose proof (markDeleted_held_one now (report_images db) image imageId reportId
                  (proj2 Hpk) Hin Hid Hlive) as Hone.
    rewrite decide_True in Hone by exact Hrid. exact Hone. }
  split.
  { subst upload. cbv beta.
    rewrite (upload_steps db later uuid sign u reportId body Hrep (Haccess db Hsel)
               request Hbody), Hheld.
    cbn [Nat.leb]. split; [eexists; split; reflexivity|reflexivity]. }
  split; [exact Hstatus|].
  assert (Hheld' : imagesHeld reportId (report_images db') = 2%nat).
  { lia. }
  split; [exact Hheld'|].
  assert (Hsel' : Db.selectReport reportId db' = Some report).
  { unfold Db.selectReport. rewrite Hreports. exact Hsel. }
  assert (Hfresh' : Forall (fun i => ReportImage.id i <> Db.uuid uuid)
                      (report_images db')).
  { subst db'. rewrite (image_delete_steps db now u imageId image report Himg Hjoin Hmay).
    cbn [snd report_images setReportImages].
    apply Forall_forall. intros i Hi Heq.
    assert (Hidin : ReportImage.id i
                    ∈ ReportImage.id
                        <$> ReportImages.markDeleted now imageId (report_images db))
      by (apply list_elem_of_fmap; eauto).
    rewrite markDeleted_ids in Hidin.
    apply list_elem_of_fmap in Hidin as (j & Hj & Hjin).
    rewrite Forall_forall in Hfresh. apply (Hfresh j Hjin). congruence. }
  subst upload. cbv beta.
  rewrite (upload_steps db' later uuid sign u reportId body Hrep (Haccess db' Hsel')
             request Hbody), Hheld'.
  cbn [Nat.leb]. cbv zeta. rewrite Hsign.
  rewrite (upload_record_accepted db' later uuid u reportId body (Haccess db' Hsel')
             request _ Hbody Hfresh').
  split; [reflexivity|]. cbn [snd report_images setReportImages].
  unfold imagesHeld in *. rewrite filter_app, length_app, Hheld'.
  rewrite filter_cons, decide_True by (cbn; auto). reflexivity.
Qed.

(* ===================================================================== *)
(** ** The retention sweep, a report with its images, and its deletion *)

(** X19. [cleanup_old_report_images] removes no row and changes only
    the images that are live and older than 180 days, which it marks
    deleted at the time of the sweep: afterwards every live image is
    at most 180 days old, no report holds more images than before,
    and a second sweep at the same instant changes nothing. *)
Theorem retention_sweep (now : Z) (rows : list ReportImage.Row) :
  let swept := Retention.cleanup_old_report_images now rows in
  length swept = length rows
  /\ (forall i row, rows !! i = Some row ->
        exists row', swept !! i = Some row' /\ sameImage row' row
          /\ (ReportImage.is_deleted row = true \/ now - Retention.retention
                                                  <= ReportImage.created_at row ->
              row' = row)
          /\ (ReportImage.is_deleted row = false ->
              ReportImage.created_at row < now - Retention.retention ->
              ReportImage.is_deleted row' = true
              /\ ReportImage.deleted_at row' = Some now))
  /\ (forall row, row ∈ swept -> ReportImage.is_deleted row = false ->
        now - 180 * 86400000 <= ReportImage.created_at row)
  /\ (forall reportId, (imagesHeld reportId swept <= imagesHeld reportId rows)%nat)
  /\ Retention.cleanup_old_report_images now swept = swept.
Proof.
  cbv zeta. unfold Retention.cleanup_old_report_images.
  split; [apply length_map|]. split; [|split; [|split]].
  - intros i row Hrow. change (map ?g ?l) with (g <$> l).
    rewrite list_lookup_fmap, Hrow. cbn [fmap option_fmap option_map].
    destruct (decide _) as [[Hold Hlive]|Hkeep].
    + eexists. split; [reflexivity|]. split; [repeat split|].
      split; [|auto]. intros [Hdel|Hyoung]; [congruence|lia].
    + exists row. split; [reflexivity|]. split; [repeat split|].
      split; [reflexivity|]. intros Hlive Hold. exfalso. apply Hkeep. auto.
  - intros row Hin Hlive. change (map ?g ?l) with (g <$> l) in Hin.
    apply list_elem_of_fmap in Hin as (row0 & -> & _).
    revert Hlive. destruct (decide _) as [|Hkeep]; [discriminate|]. intros Hlive.
    change (180 * 86400000) with Retention.retention.
    destruct (Z.le_gt_cases (now - Retention.retention) (ReportImage.created_at row0));
      [assumption|].
    exfalso. apply Hkeep. split; [lia|exact Hlive].
  - intros reportId. unfold imagesHeld.
    induction rows as [|row rows IH]; [reflexivity|].
    cbn [map]. rewrite !filter_cons.
    destruct (decide (_ < _ /\ _)) as [[Hold Hlive]|Hkeep].
    + rewrite decide_False by (cbn; intros [_ ?]; discriminate).
      destruct (decide _); cbn [length]; lia.
    + destruct (decide _); cbn [length]; lia.
  - induction rows as [|row rows IH]; [reflexivity|].
    cbn [map]. f_equal; [|exact IH].
    destruct (decide (ReportImage.created_at row < now - Retention.retention
                      /\ ReportImage.is_deleted row = false)) as [[Hold Hlive]|Hkeep].
    + destruct (decide _) as [[_ Hdel]|_]; [discriminate Hdel|reflexivity].
    + destruct (decide _) as [Hagain|_]; [contradiction|reflexivity].
Qed.

Lemma reportAccess_client (userId : string) (userRole : ApiHelpers.Role)
    (reportId : string) (report : Report.Row) (db : Database) :
  Db.selectReport reportId db = Some report ->
  Reports.hasAccess (Reports.checkReportAccess userId userRole reportId db)
  = ReportList.checkReportAccess userId userRole (Report.client_id report) db.
Proof.
  intros Hsel. unfold Reports.checkReportAccess, ReportList.checkReportAccess.
  rewrite Hsel. cbv zeta.
  destruct (decide _); [reflexivity|].
  destruct (decide _); [reflexivity|].
  destruct (decide _); [|reflexivity].
  destruct (Db.selectActiveAssignment _ _ db); reflexivity.
Qed.

(** X15. For a principal who may view the client of a report that is
    not deleted, [GET /api/reports/{reportId}] answers 200 with the
    report and its images: exactly the images of the report that are
    not deleted, oldest first; the database is left alone. *)
Theorem report_with_its_images (db : Database) (u : ApiHelpers.AuthenticatedUser)
    (reportId : string) (report : Report.Row) :
  Zod.isUuid reportId = true ->
  Db.selectReport reportId db = Some report ->
  mayView u (Report.client_id report) db ->
  exists images,
    Reports.GET (Some u) reportId db = (inr (mkResponse 200 (report, images)), db)
    /\ Sorted (fun a b => ReportImage.created_at a <= ReportImage.created_at b) images
    /\ images ≡ₚ filter (fun i => ReportImage.report_id i = Db.uuid reportId
                                 /\ ReportImage.is_deleted i = false)
                   (report_images db).
Proof.
  intros Huuid Hsel Hview. exists (Reports.fetchImages reportId db).
  split; [|split].
  - unfold Reports.GET. run_handler.
    rewrite (UuidParamSchema_ok _ Huuid). run_handler.
    rewrite (reportAccess_client _ _ _ _ _ Hsel).
    rewrite (proj2 (clientAccess_mayView u (Report.client_id report) db) Hview).
    cbn [negb]. rewrite Hsel. reflexivity.
  - apply orderBy_sorted.
  - apply orderBy_perm.
Qed.

Lemma report_delete_steps (db : Database) (now : Z)
    (u : ApiHelpers.AuthenticatedUser) (reportId : string) (report : Report.Row) :
  Zod.isUuid reportId = true ->
  Db.selectReport reportId db = Some report ->
  ApiHelpers.user_role u = ApiHelpers.super_admin
  \/ (ApiHelpers.user_role u = ApiHelpers.client
      /\ ApiHelpers.user_id u = Report.client_id report) ->
  Reports.DELETE now (Some u) reportId db
  = (inr (mkResponse 204 tt),
     setReports (Db.updateReports reportId (deletedAt now) (reports db)) db).
Proof.
  intros Huuid Hsel Hmay. unfold Reports.DELETE. run_handler.
  rewrite (UuidParamSchema_ok _ Huuid). run_handler.
  unfold Reports.checkReportAccess. rewrite Hsel. cbv zeta.
  destruct (decide (ApiHelpers.user_role u = ApiHelpers.super_admin)) as [Ha|Ha].
  - cbn [negb Reports.hasAccess]. rewrite Hsel.
    rewrite decide_False by tauto. reflexivity.
  - destruct Hmay as [?|Hown]; [contradiction|].
    rewrite decide_True by exact Hown. cbn [negb Reports.hasAccess]. rewrite Hsel.
    rewrite decide_False by (intros [_ ?]; tauto). reflexivity.
Qed.

Lemma selectReport_after_delete (now : Z) (reportId : string) (db : Database) :
  Db.selectReport reportId
    (setReports (Db.updateReports reportId (deletedAt now) (reports db)) db) = None.
Proof.
  apply selectReport_missing. cbn [reports setReports]. intros r Hr Hid.
  unfold Db.updateReports in Hr. change (map ?g ?l) with (g <$> l) in Hr.
  apply list_elem_of_fmap in Hr as (r0 & -> & _).
  destruct (decide (Report.id r0 = Db.uuid reportId)); [discriminate|contradiction].
Qed.

Lemma weekCount_after_delete (now : Z) (rows : list Report.Row)
    (report : Report.Row) (reportId clientId : string) (year weekNumber : Z) :
  NoDup (Report.id <$> rows) -> report ∈ rows ->
  Report.id report = Db.uuid reportId ->
  Report.deleted_at report = None ->
  let P := fun r : Report.Row =>
             Report.client_id r = clientId /\ Report.year r = year
             /\ Report.week_number r = weekNumber /\ Report.deleted_at r = None in
  (length (filter P (Db.updateReports reportId (deletedAt now) rows))
   + (if decide (P report) then 1 else 0)
   = length (filter P rows))%nat.
Proof.
  intros Hnd Hin Hid Hlive P. unfold Db.updateReports. rewrite <- Hid.
  induction rows as [|r rows IH]; [inversion Hin|].
  rewrite fmap_cons in Hnd. apply NoDup_cons in Hnd as [Hfresh Hnd].
  cbn [map]. rewrite !filter_cons.
  apply elem_of_cons in Hin as [<-|Hin].
  - destruct (decide (Report.id report = Report.id report)) as [_|?]; [|contradiction].
    rewrite (decide_False (P := P (deletedAt now report)))
      by (unfold P; cbn; intros (_ & _ & _ & ?); discriminate).
    assert (Hrest : map (fun r => if decide (Report.id r = Report.id report)
                                  then deletedAt now r else r) rows = rows).
    { clear IH Hnd. induction rows as [|j rows IH]; [reflexivity|].
      cbn [map]. rewrite fmap_cons in Hfresh.
      destruct (decide (Report.id j = Report.id report)) as [Heq|_].
      - exfalso. apply Hfresh. rewrite <- Heq. apply elem_of_cons. left. reflexivity.
      - f_equal. apply IH. intros Hrest. apply Hfresh, elem_of_cons. right.
        exact Hrest. }
    rewrite Hrest. destruct (decide (P report)); cbn [length]; lia.
  - specialize (IH Hnd Hin).
    destruct (decide (Report.id r = Report.id report)) as [Heq|_].
    + exfalso. apply Hfresh. rewrite Heq. apply list_elem_of_fmap. eauto.
    + destruct (decide (P r)); cbn [length]; lia.
Qed.

(** X16. When the owner or an administrator deletes a report that is
    not deleted, the answer is 204 and only [deleted_at] of that
    report is written: users, assignments and images are untouched
    (the images of the report stay live).  The report can then no
    longer be selected, so every later get, edit, delete or upload on
    it is answered 403; the quota count of its week drops by one while
    the rows stored for that week, which the unique key sees, are as
    many as before.  (Ids are compared as the database compares values
    of type [uuid]: the counts are those of any id that reads as the
    client of the report.) *)
Theorem report_deletion (db : Database) (now : Z)
    (u : ApiHelpers.AuthenticatedUser) (reportId : string) (report : Report.Row) :
  Zod.isUuid reportId = true ->
  primaryKeys db ->
  Db.selectReport reportId db = Some report ->
  ApiHelpers.user_role u = ApiHelpers.super_admin
  \/ (ApiHelpers.user_role u = ApiHelpers.client
      /\ ApiHelpers.user_id u = Report.client_id report) ->
  let delete := Reports.DELETE now (Some u) reportId db in
  let db' := snd delete in
  let year := Report.year report in
  let weekNumber := Report.week_number report in
  statusOf delete = 204
  /\ users db' = users db /\ trainer_client db' = trainer_client db
  /\ report_images db' = report_images db
  /\ (forall i row, reports db !! i = Some row ->
        reports db' !! i
        = Some (if decide (Report.id row = Db.uuid reportId)
                then deletedAt now row else row))
  /\ Db.selectReport reportId db' = None
  /\ (forall clientId, Db.uuid clientId = Report.client_id report ->
        (weekCount clientId year weekNumber db' + 1
         = weekCount clientId year weekNumber db)%nat
        /\ length (storedForWeek clientId year weekNumber (reports db'))
           = length (storedForWeek clientId year weekNumber (reports db)))
  /\ (forall user later uuid sign body,
        failsWith Forbidden (Reports.GET (Some user) reportId db')
        /\ failsWith Forbidden (Reports.PATCH later (Some user) reportId body db')
        /\ failsWith Forbidden (Reports.DELETE later (Some user) reportId db')
        /\ failsWith Forbidden
             (UploadUrl.POST later uuid sign (Some user) reportId body db')).
Proof.
  intros Huuid [Hids _] Hsel Hmay delete db' year weekNumber.
  subst delete db'. rewrite (report_delete_steps _ _ _ _ _ Huuid Hsel Hmay).
  cbn [snd]. destruct (selectReport_Some _ _ _ Hsel) as (Hin & Hid & Hlive).
  split; [reflexivity|]. split; [reflexivity|]. split; [reflexivity|].
  split; [reflexivity|]. cbn [reports setReports].
  split.
  { intros i row Hrow. unfold Db.updateReports.
    change (map ?g ?l) with (g <$> l). rewrite list_lookup_fmap, Hrow. reflexivity. }
  split; [apply selectReport_after_delete|].
  split.
  { intros clientId Hclient. split.
    - unfold weekCount. cbn [reports setReports].
      pose proof (weekCount_after_delete now (reports db) report reportId
                    (Db.uuid clientId) year weekNumber Hids Hin Hid Hlive) as Hcount.
      cbv zeta in Hcount.
      rewrite decide_True in Hcount by (subst year weekNumber; auto).
      exact Hcount.
    - unfold storedForWeek, Db.updateReports.
      rewrite filter_map_commute; [apply length_map|].
      intros r. destruct (decide _); reflexivity. }
  intros user later uuid sign body.
  pose proof (selectReport_after_delete now reportId db) as Hgone.
  unfold Reports.GET, Reports.PATCH, Reports.DELETE, UploadUrl.POST. run_handler.
  rewrite (UuidParamSchema_ok _ Huuid). run_handler.
  rewrite (checkReportAccess_missing _ _ _ _ Hgone).
  rewrite (checkImageUploadAccess_missing _ _ _ _ Hgone).
  cbn [negb Reports.hasAccess].
  repeat split; eexists; split; reflexivity.
Qed.

(* ===================================================================== *)
(** ** The outcome of a submission *)









(* ===================================================================== *)
(** ** Trends for any list of metrics *)

Lemma iter_commute {A : Type} (f : A -> A) (n : nat) (x : A) :
  Nat.iter n f (f x) = f (Nat.iter n f x).
Proof. rewrite <- Nat.iter_succ_r. apply Nat.iter_succ. Qed.

Lemma iter_push (c : nat) (v : option Q) (a : list Q) :
  Nat.iter c (fmap (pushValue v)) (Some (Some a))
  = Some (Some (a ++ match v with
                     | Some x => replicate c x
                     | None => []
                     end)).
Proof.
  induction c as [|c IH].
  - cbn. destruct v; rewrite app_nil_r; reflexivity.
  - rewrite Nat.iter_succ, IH. unfold pushValue. cbn [fmap option_fmap option_map].
    do 2 f_equal. rewrite <- app_assoc. f_equal.
    destruct v as [x|]; [|reflexivity].
    symmetry. apply (replicate_cons_app c x).
Qed.

Lemma iter_push_absent (c : nat) (v : option Q) :
  Nat.iter c (fmap (pushValue v)) None = None.
Proof. induction c as [|c IH]; [reflexivity|]. rewrite Nat.iter_succ, IH. reflexivity. Qed.

Lemma iter_push_undefined (c : nat) (v : option Q) :
  Nat.iter c (fmap (pushValue v)) (Some None) = Some None.
Proof. induction c as [|c IH]; [reflexivity|]. rewrite Nat.iter_succ, IH. reflexivity. Qed.

Lemma populateReport_occurrences (requestedMetrics : list string)
    (report : Report.Row) (metric : string)
    (trends : gmap string (option (list Q))) :
  Trends.populateReport requestedMetrics trends report !! metric
  = Nat.iter (occurrences metric requestedMetrics)
      (fmap (pushValue (Trends.column metric report))) (trends !! metric).
Proof.
  unfold Trends.populateReport, occurrences. revert trends.
  induction requestedMetrics as [|k ms IH]; intros trends; cbn [foldl];
    [reflexivity|].
  rewrite IH, populate_step_lookup, filter_cons.
  destruct (decide (k = metric)) as [->|Hne]; [|reflexivity].
  cbn [length]. rewrite iter_commute. reflexivity.
Qed.

Lemma populate_occurrences (requestedMetrics : list string)
    (reports : list Report.Row) (metric : string)
    (trends : gmap string (option (list Q))) :
  Trends.populate requestedMetrics reports trends !! metric
  = match trends !! metric with
    | Some (Some a) =>
        Some (Some (a ++ repeatedValues (occurrences metric requestedMetrics)
                           metric reports))
    | other => other
    end.
Proof.
  unfold Trends.populate, repeatedValues. revert trends.
  induction reports as [|report reports IH]; intros trends; cbn [foldl].
  - destruct (trends !! metric) as [[a|]|]; [|reflexivity..].
    cbn. rewrite app_nil_r. reflexivity.
  - rewrite IH, populateReport_occurrences.
    destruct (trends !! metric) as [[a|]|].
    + rewrite iter_push, bind_cons, app_assoc. reflexivity.
    + rewrite iter_push_undefined. reflexivity.
    + rewrite iter_push_absent. reflexivity.
Qed.

Lemma occurrences_absent (metric : string) (metrics : list string) :
  metric ∉ metrics -> occurrences metric metrics = 0%nat.
Proof.
  intros Hnot. unfold occurrences. rewrite filter_none; [reflexivity|].
  intros k Hk ->. contradiction.
Qed.

Lemma repeatedValues_none (metric : string) (reports : list Report.Row) :
  repeatedValues 0 metric reports = [].
Proof.
  unfold repeatedValues. induction reports as [|r reports IH]; [reflexivity|].
  rewrite bind_cons, IH. destruct (Trends.column metric r); reflexivity.
Qed.

Lemma repeatedValues_once (metric : string) (reports : list Report.Row) :
  repeatedValues 1 metric reports = metricValues metric reports.
Proof.
  unfold repeatedValues, metricValues.
  induction reports as [|r reports IH]; [reflexivity|].
  rewrite bind_cons, IH. cbn [omap list_omap].
  destruct (Trends.column metric r); reflexivity.
Qed.

Lemma buildTrends_occurrences (requestedMetrics : list string)
    (reports : list Report.Row) (metric : string) :
  Trends.buildTrends requestedMetrics reports !! metric
  = nonEmpty (repeatedValues (occurrences metric requestedMetrics) metric reports).
Proof.
  unfold Trends.buildTrends, Trends.filterUndefined, Trends.removeEmpty.
  rewrite lookup_omap, lookup_fmap, populate_occurrences.
  unfold Trends.initialize. rewrite initialize_lookup, lookup_empty.
  destruct (decide (metric ∈ requestedMetrics)) as [Hin|Hnot].
  - cbn. destruct (repeatedValues _ _ _); reflexivity.
  - rewrite (occurrences_absent _ _ Hnot), repeatedValues_none. reflexivity.
Qed.

(** X21. For a principal who may view the client, a client that exists
    and an accepted [metrics] parameter, the trends answered hold, for
    each metric, the non-null values of the client's reports that are
    not deleted, oldest first, each repeated as many times as the
    metric is named in the parameter: exactly those values for a name
    given once.  Only valid metric names are keys, no array is empty,
    and an absent or empty parameter asks for all eight metrics. *)
Theorem trends_values (db : Database) (u : ApiHelpers.AuthenticatedUser)
    (clientId : string) (metricsParam : option string)
    (metrics : option (list string)) :
  Zod.isUuid clientId = true ->
  mayView u clientId db ->
  is_Some (Db.selectUser clientId ApiHelpers.client db) ->
  ApiHelpers.TrendsQuerySchema metricsParam = Some metrics ->
  let requested := default Trends.allMetrics metrics in
  let listed := Trends.selectClientReports clientId db in
  exists trends,
    Trends.GET (Some u) clientId metricsParam db = (inr (mkResponse 200 trends), db)
    /\ (forall metric,
          trends !! metric
          = nonEmpty (repeatedValues (occurrences metric requested) metric listed))
    /\ (forall metric, occurrences metric requested = 1%nat ->
          trends !! metric = nonEmpty (metricValues metric listed))
    /\ (forall metric values, trends !! metric = Some values ->
          metric ∈ ApiHelpers.validMetrics /\ values <> [])
    /\ (metricsParam = None \/ metricsParam = Some "" ->
        requested = ApiHelpers.validMetrics).
Proof.
  intros Huuid Hview Hclient Hquery requested listed.
  eexists. split; [|split; [|split; [|split]]].
  - assert (Haccess : Trends.checkTrendsAccess (ApiHelpers.user_id u)
                        (ApiHelpers.user_role u) clientId db = true)
      by exact (proj2 (clientAccess_mayView u clientId db) Hview).
    exact (trends_GET_result db u clientId metricsParam metrics Huuid Haccess
             Hclient Hquery).
  - intros metric. apply buildTrends_occurrences.
  - intros metric Honce. rewrite buildTrends_occurrences. fold requested listed.
    rewrite Honce, repeatedValues_once. reflexivity.
  - intros metric values. rewrite buildTrends_occurrences. fold requested listed.
    intros Hvalues.
    assert (Hin : metric ∈ requested).
    { destruct (decide (metric ∈ requested)) as [Hin|Hnot]; [exact Hin|].
      rewrite (occurrences_absent _ _ Hnot), repeatedValues_none in Hvalues.
      discriminate. }
    split.
    + subst requested. unfold ApiHelpers.TrendsQuerySchema in Hquery.
      destruct metricsParam as [val|].
      * destruct (decide (val = "")); [injection Hquery as <-; exact Hin|].
        destruct (forallb _ _) eqn:Hall; [|discriminate].
        injection Hquery as <-. cbn [default] in Hin.
        rewrite forallb_forall in Hall. apply list_elem_of_In in Hin.
        exact (bool_decide_eq_true_1 _ (Hall metric Hin)).
      * injection Hquery as <-. exact Hin.
    + destruct (repeatedValues _ _ _); [discriminate|].
      injection Hvalues as <-. discriminate.
  - subst requested. unfold ApiHelpers.TrendsQuerySchema in Hquery.
    intros [->| ->]; injection Hquery as <-; reflexivity.
Qed.

(* ===================================================================== *)
(** ** The properties on the examples *)

Lemma pagination_query_bounds_witness :
  Pagination.PaginationQuerySchema Examples.decimal (Some "2") None = Some (2, 20)
  /\ 1 <= 2 /\ 1 <= 20 <= 100.
Proof.
  assert (Hquery : Pagination.PaginationQuerySchema Examples.decimal (Some "2") None
                   = Some (2, 20)) by reflexivity.
  split; [exact Hquery|].
  destruct (pagination_query_bounds _ _ _ _ _ Hquery) as (Hp & Hps & _).
  split; [exact Hp|exact Hps].
Defined.

Lemma pagination_pages_tile_witness :
  (1 <= 20 /\ 0 <= 44 < 45
   /\ Pagination.totalPages (Pagination.calculatePagination 1 20 45) * 20 <= 2 ^ 53)
  /\ exists page, 1 <= page <= 3
                  /\ Pagination.exactPage page 20
                  /\ fst (Pagination.getPaginationRange page 20) <= 44
                     <= snd (Pagination.getPaginationRange page 20).
Proof.
  assert (Hps : 1 <= 20) by lia. assert (Hoff : 0 <= 44 < 45) by lia.
  assert (Hexact : Pagination.totalPages (Pagination.calculatePagination 1 20 45) * 20
                   <= 2 ^ 53) by (vm_compute; discriminate).
  split; [split; [|split]; assumption|].
  destruct (pagination_pages_tile 20 45 44 Hps Hoff Hexact)
    as (_ & _ & page & Hpage & Hfits & Hin & _).
  exists page. split; [exact Hpage|]. split; [exact Hfits|exact Hin].
Defined.

Lemma sample_client_exists (tc : gmap (string * string) TrainerClient.Row)
    (rows : list Report.Row) (images : list ReportImage.Row)
    (coaches customers : gset string) :
  is_Some (Db.selectUser Sample.clientId ApiHelpers.client
             (mkDatabase Sample.people tc rows images coaches customers)).
Proof. eexists. vm_compute. reflexivity. Defined.

Lemma owner_may_view (db : Database) : mayView Sample.owner Sample.clientId db.
Proof. right. left. split; reflexivity. Defined.

Lemma report_list_page_witness :
  (Zod.isUuid Sample.clientId = true
   /\ mayView Sample.owner Sample.clientId Examples.threeReports
   /\ is_Some (Db.selectUser Sample.clientId ApiHelpers.client Examples.threeReports)
   /\ Pagination.ReportsQuerySchema Examples.decimal (Some "2") (Some "2")
      = Some (2, 2))
  /\ exists listing,
       ReportList.GET Examples.decimal (Some Sample.owner) Sample.clientId
         (Some "2") (Some "2") Examples.threeReports
       = (inr (mkResponse 200 listing), Examples.threeReports)
       /\ Z.of_nat (length (Pagination.items listing)) = 1.
Proof.
  assert (Huuid : Zod.isUuid Sample.clientId = true) by reflexivity.
  assert (Hquery : Pagination.ReportsQuerySchema Examples.decimal (Some "2") (Some "2")
                   = Some (2, 2)) by reflexivity.
  pose proof (owner_may_view Examples.threeReports) as Hview.
  pose proof (sample_client_exists ∅ (reports Examples.threeReports) []
                Sample.coaches Sample.customers) as Hclient.
  split; [auto|].
  destruct (report_list_page Examples.threeReports Examples.decimal Sample.owner
              Sample.clientId Huuid Hview Hclient (Some "2") (Some "2") 2 2 Hquery
              ltac:(right; vm_compute; reflexivity))
    as (listing & Hget & _ & Hlen & _).
  exists listing. split; [exact Hget|exact Hlen].
Defined.

Lemma report_list_pages_cover_witness :
  let pageParam := fun page : Z => if page =? 1 then Some "1" else Some "2" in
  (Zod.isUuid Sample.clientId = true
   /\ mayView Sample.owner Sample.clientId Examples.threeReports
   /\ is_Some (Db.selectUser Sample.clientId ApiHelpers.client Examples.threeReports)
   /\ 1 <= 2)
  /\ concat
       (omap (fun page =>
                Pagination.items
                  <$> returned (ReportList.GET Examples.decimal (Some Sample.owner)
                                  Sample.clientId (pageParam page) (Some "2")
                                  Examples.threeReports))
          [1; 2])
     = ReportList.toDTO <$> [Examples.third; Examples.second; Examples.first].
Proof.
  intros pageParam.
  assert (Huuid : Zod.isUuid Sample.clientId = true) by reflexivity.
  pose proof (owner_may_view Examples.threeReports) as Hview.
  pose proof (sample_client_exists ∅ (reports Examples.threeReports) []
                Sample.coaches Sample.customers) as Hclient.
  assert (Hps : 1 <= 2) by lia.
  split; [auto|].
  refine (report_list_pages_cover Examples.threeReports Examples.decimal Sample.owner
            Sample.clientId Huuid Hview Hclient pageParam (Some "2") 2 Hps _).
  intros page Hpage.
  change (Clock.ceilDiv _ 2) with 2 in Hpage.
  assert (Hcases : page = 1 \/ page = 2) by lia.
  destruct Hcases as [-> | ->]; reflexivity.
Defined.

Lemma report_with_its_images_witness :
  (Zod.isUuid Sample.reportA = true
   /\ Db.selectReport Sample.reportA Examples.threeImages = Some Examples.first
   /\ mayView Sample.admin (Report.client_id Examples.first) Examples.threeImages)
  /\ exists images,
       Reports.GET (Some Sample.admin) Sample.reportA Examples.threeImages
       = (inr (mkResponse 200 (Examples.first, images)), Examples.threeImages).
Proof.
  assert (Huuid : Zod.isUuid Sample.reportA = true) by reflexivity.
  assert (Hsel : Db.selectReport Sample.reportA Examples.threeImages
                 = Some Examples.first) by reflexivity.
  assert (Hview : mayView Sample.admin (Report.client_id Examples.first)
                    Examples.threeImages) by (left; reflexivity).
  split; [auto|].
  destruct (report_with_its_images _ _ _ _ Huuid Hsel Hview) as (images & Hget & _).
  exists images. exact Hget.
Defined.

Lemma threeImages_primaryKeys : primaryKeys Examples.threeImages.
Proof. split; apply (bool_decide_unpack _); vm_compute; exact I. Defined.

Lemma owner_of_first :
  ApiHelpers.user_role Sample.owner = ApiHelpers.super_admin
  \/ (ApiHelpers.user_role Sample.owner = ApiHelpers.client
      /\ ApiHelpers.user_id Sample.owner = Report.client_id Examples.first).
Proof. right. split; reflexivity. Defined.

Lemma report_deletion_witness :
  (Zod.isUuid Sample.reportA = true /\ primaryKeys Examples.threeImages
   /\ Db.selectReport Sample.reportA Examples.threeImages = Some Examples.first)
  /\ statusOf (Reports.DELETE 5 (Some Sample.owner) Sample.reportA Examples.threeImages)
     = 204
  /\ report_images
       (snd (Reports.DELETE 5 (Some Sample.owner) Sample.reportA Examples.threeImages))
     = report_images Examples.threeImages.
Proof.
  assert (Huuid : Zod.isUuid Sample.reportA = true) by reflexivity.
  assert (Hsel : Db.selectReport Sample.reportA Examples.threeImages
                 = Some Examples.first) by reflexivity.
  split; [split; [exact Huuid|split; [exact threeImages_primaryKeys|exact Hsel]]|].
  destruct (report_deletion Examples.threeImages 5 Sample.owner Sample.reportA
              Examples.first Huuid threeImages_primaryKeys Hsel owner_of_first)
    as (Hstatus & _ & _ & Himages & _).
  split; [exact Hstatus|exact Himages].
Defined.

Lemma first_image_joined :
  ReportImages.selectImageWithReport (Sample.imageId 1) Examples.threeImages
  = Some (Sample.image 1 Sample.reportA false, Examples.first).
Proof. reflexivity. Defined.

Lemma image_deletion_witness :
  (Zod.isUuid (Sample.imageId 1) = true /\ primaryKeys Examples.threeImages
   /\ ReportImages.selectImageWithReport (Sample.imageId 1) Examples.threeImages
      = Some (Sample.image 1 Sample.reportA false, Examples.first))
  /\ statusOf (ReportImages.DELETE 5 (fun _ => true) (Some Sample.owner)
                 (Sample.imageId 1) Examples.threeImages) = 204
  /\ (imagesHeld Sample.reportA
        (report_images
           (snd (ReportImages.DELETE 5 (fun _ => true) (Some Sample.owner)
                   (Sample.imageId 1) Examples.threeImages))) + 1
      = imagesHeld Sample.reportA (report_images Examples.threeImages))%nat.
Proof.
  assert (Huuid : Zod.isUuid (Sample.imageId 1) = true) by reflexivity.
  split; [split; [exact Huuid|split; [exact threeImages_primaryKeys|
                                      exact first_image_joined]]|].
  destruct (image_deletion Examples.threeImages 5 (fun _ => true) Sample.owner
              (Sample.imageId 1) _ _ Huuid threeImages_primaryKeys first_image_joined
              owner_of_first)
    as (Hstatus & _ & _ & _ & _ & _ & _ & Hheld & _).
  split; [exact Hstatus|exact (Hheld Sample.reportA)].
Defined.

Lemma delete_image_then_upload_witness :
  let upload := UploadUrl.POST 9 (Sample.imageId 4) Examples.sign (Some Sample.owner)
                  Sample.reportA Examples.uploadBody in
  (imagesHeld Sample.reportA (report_images Examples.threeImages) = 3%nat
   /\ Forall (fun i => ReportImage.id i <> Db.uuid (Sample.imageId 4))
        (report_images Examples.threeImages))
  /\ failsWith Validation (upload Examples.threeImages)
  /\ statusOf (upload (snd (ReportImages.DELETE 5 (fun _ => false) (Some Sample.owner)
                              (Sample.imageId 1) Examples.threeImages))) = 200.
Proof.
  intros upload.
  assert (Hheld : imagesHeld Sample.reportA (report_images Examples.threeImages)
                  = 3%nat) by reflexivity.
  assert (Hfresh : Forall (fun i => ReportImage.id i <> Db.uuid (Sample.imageId 4))
                     (report_images Examples.threeImages))
    by (apply (bool_decide_unpack _); vm_compute; exact I).
  split; [split; assumption|].
  destruct (delete_image_then_upload Examples.threeImages 5 9 (fun _ => false)
              (Sample.imageId 4) Examples.sign Sample.owner (Sample.imageId 1)
              Sample.reportA (Sample.image 1 Sample.reportA false) Examples.first
              Examples.uploadBody
              (ApiHelpers.mkImageUploadRequest ApiHelpers.image_png 2048)
              ("https://storage.example/"
               +:+ UploadUrl.makeStoragePath Sample.reportA (Sample.imageId 4)
                     ApiHelpers.image_png)
              eq_refl eq_refl threeImages_primaryKeys eq_refl
              ltac:(apply list_elem_of_here)
              eq_refl eq_refl eq_refl owner_of_first Hheld eq_refl eq_refl Hfresh)
    as ([Hlimit _] & _ & _ & Hok & _).
  split; [exact Hlimit|exact Hok].
Defined.


Lemma trends_values_witness :
  (Zod.isUuid Sample.clientId = true
   /\ mayView Sample.owner Sample.clientId Examples.threeReports
   /\ is_Some (Db.selectUser Sample.clientId ApiHelpers.client Examples.threeReports)
   /\ ApiHelpers.TrendsQuerySchema (Some "weight, waist")
      = Some (Some ["weight"; "waist"]))
  /\ exists trends,
       Trends.GET (Some Sample.owner) Sample.clientId (Some "weight, waist")
         Examples.threeReports
       = (inr (mkResponse 200 trends), Examples.threeReports)
       /\ trends !! "weight" = Some [70%Q; 68%Q]
       /\ trends !! "waist" = None.
Proof.
  assert (Huuid : Zod.isUuid Sample.clientId = true) by reflexivity.
  pose proof (owner_may_view Examples.threeReports) as Hview.
  pose proof (sample_client_exists ∅ (reports Examples.threeReports) []
                Sample.coaches Sample.customers) as Hclient.
  assert (Hquery : ApiHelpers.TrendsQuerySchema (Some "weight, waist")
                   = Some (Some ["weight"; "waist"])) by reflexivity.
  split; [auto|].
  destruct (trends_values Examples.threeReports Sample.owner Sample.clientId
              (Some "weight, waist") _ Huuid Hview Hclient Hquery)
    as (trends & Hget & Hvalues & _).
  exists trends. split; [exact Hget|].
  split; [rewrite (Hvalues "weight")|rewrite (Hvalues "waist")]; reflexivity.
Defined.

(* ===================================================================== *)
(** ** How the requests compose *)

Lemma trainer_mayView (trainerId clientId : string) (db : Database) :
  mayView (ApiHelpers.mkUser trainerId ApiHelpers.trainer) clientId db
  <-> isActive trainerId clientId db = true.
Proof.
  unfold mayView. cbn [ApiHelpers.user_id ApiHelpers.user_role]. split.
  - intros [H|[[H _]|[_ H]]]; [discriminate|discriminate|exact H].
  - intros H. right. right. auto.
Qed.

Lemma isActive_insert (key : string * string) (t c : string)
    (row : TrainerClient.Row) (db : Database) :
  isActive t c (setTrainerClient (<[key := row]> (trainer_client db)) db)
  = if decide (key = (Db.uuid t, Db.uuid c)) then TrainerClient.is_active row
    else isActive t c db.
Proof.
  unfold isActive, Db.selectActiveAssignment. cbn [trainer_client setTrainerClient].
  destruct (decide _) as [->|Hne].
  - rewrite lookup_insert_eq. destruct (TrainerClient.is_active row); reflexivity.
  - rewrite lookup_insert_ne by exact Hne. reflexivity.
Qed.

Lemma isActive_uuid (t c : string) (db : Database) :
  isActive t (Db.uuid c) db = isActive t c db.
Proof. unfold isActive, Db.selectActiveAssignment. rewrite uuid_idem. reflexivity. Qed.

Lemma forbidden_without_view (db : Database) (u : ApiHelpers.AuthenticatedUser)
    (clientId : string) :
  Zod.isUuid clientId = true ->
  ~ mayView u clientId db ->
  (forall metrics, statusOf (Trends.GET (Some u) clientId metrics db) = Forbidden)
  /\ (forall toNumber page pageSize,
        statusOf (ReportList.GET toNumber (Some u) clientId page pageSize db)
        = Forbidden)
  /\ (forall reportId report,
        Zod.isUuid reportId = true ->
        Db.selectReport reportId db = Some report ->
        Report.client_id report = clientId ->
        statusOf (Reports.GET (Some u) reportId db) = Forbidden).
Proof.
  intros Huuid Hno.
  assert (Haccess : ReportList.checkReportAccess (ApiHelpers.user_id u)
                      (ApiHelpers.user_role u) clientId db = false).
  { destruct (ReportList.checkReportAccess _ _ _ _) eqn:Hacc; [|reflexivity].
    exfalso. apply Hno, clientAccess_mayView, Hacc. }
  split; [|split].
  - intros metrics. unfold Trends.GET. run_handler.
    rewrite (UuidParamSchema_ok _ Huuid). run_handler.
    change (Trends.checkTrendsAccess ?a ?b ?c ?d)
      with (ReportList.checkReportAccess a b c d).
    rewrite Haccess. reflexivity.
  - intros toNumber page pageSize. unfold ReportList.GET. run_handler.
    rewrite (UuidParamSchema_ok _ Huuid). run_handler.
    rewrite Haccess. reflexivity.
  - intros reportId report Hrid Hsel Hclient. unfold Reports.GET. run_handler.
    rewrite (UuidParamSchema_ok _ Hrid). run_handler.
    rewrite (reportAccess_client _ _ _ _ _ Hsel), Hclient, Haccess. reflexivity.
Qed.

Lemma report_get_steps (db : Database) (u : ApiHelpers.AuthenticatedUser)
    (reportId : string) (report : Report.Row) :
  Zod.isUuid reportId = true ->
  Db.selectReport reportId db = Some report ->
  mayView u (Report.client_id report) db ->
  Reports.GET (Some u) reportId db
  = (inr (mkResponse 200 (report, Reports.fetchImages reportId db)), db).
Proof.
  intros Huuid Hsel Hview. unfold Reports.GET. run_handler.
  rewrite (UuidParamSchema_ok _ Huuid). run_handler.
  rewrite (reportAccess_client _ _ _ _ _ Hsel).
  rewrite (proj2 (clientAccess_mayView u (Report.client_id report) db) Hview).
  cbn [negb]. rewrite Hsel. reflexivity.
Qed.

Lemma report_forbidden_without_view (db : Database)
    (u : ApiHelpers.AuthenticatedUser) (reportId : string) (report : Report.Row) :
  Zod.isUuid reportId = true ->
  Db.selectReport reportId db = Some report ->
  ~ mayView u (Report.client_id report) db ->
  statusOf (Reports.GET (Some u) reportId db) = Forbidden.
Proof.
  intros Hrid Hsel Hno. unfold Reports.GET. run_handler.
  rewrite (UuidParamSchema_ok _ Hrid). run_handler.
  rewrite (reportAccess_client _ _ _ _ _ Hsel).
  destruct (ReportList.checkReportAccess _ _ _ _) eqn:Hacc; [|reflexivity].
  exfalso. apply Hno, clientAccess_mayView, Hacc.
Qed.

(** X22. The access of a trainer follows the assignment.  An
    activation that is not answered 200 changes nothing.  After an
    activation that is answered 200 the trainer may view the client
    and is answered 200 with each report of the client; the
    deactivation that follows is answered 200, and after it the
    trends, the listing and each report of the client are answered
    403 to the trainer.  The two requests change the activity of no
    other pair, and no user, report or image.  (Ids are compared as
    the database compares values of type [uuid].) *)
Theorem assignment_controls_access (db : Database) (now : Z)
    (u : ApiHelpers.AuthenticatedUser) (trainerId clientId : string) :
  Zod.isUuid trainerId = true ->
  Zod.isUuid clientId = true ->
  mayManage u trainerId ->
  let coach := ApiHelpers.mkUser trainerId ApiHelpers.trainer in
  let activate := Activate.POST now (Some u) trainerId clientId db in
  let on := snd activate in
  let deactivate := Deactivate.POST (Some u) trainerId clientId on in
  let off := snd deactivate in
  (statusOf activate <> 200 -> on = db)
  /\ (statusOf activate = 200 ->
      (mayView coach clientId on
       /\ forall reportId report,
            Zod.isUuid reportId = true ->
            Db.selectReport reportId on = Some report ->
            Report.client_id report = Db.uuid clientId ->
            exists images,
              Reports.GET (Some coach) reportId on
              = (inr (mkResponse 200 (report, images)), on))
      /\ statusOf deactivate = 200
      /\ (~ mayView coach clientId off
          /\ (forall metrics,
                statusOf (Trends.GET (Some coach) clientId metrics off) = Forbidden)
          /\ (forall toNumber page pageSize,
                statusOf (ReportList.GET toNumber (Some coach) clientId page pageSize
                            off)
                = Forbidden)
          /\ (forall reportId report,
                Zod.isUuid reportId = true ->
                Db.selectReport reportId off = Some report ->
                Report.client_id report = Db.uuid clientId ->
                statusOf (Reports.GET (Some coach) reportId off) = Forbidden))
      /\ (forall t c,
            (Db.uuid t, Db.uuid c) <> (Db.uuid trainerId, Db.uuid clientId) ->
            isActive t c off = isActive t c db)
      /\ users off = users db /\ reports off = reports db
      /\ report_images off = report_images db).
Proof.
  intros Htrainer Hclient Hmay coach activate on deactivate off.
  destruct (activate_outcome u trainerId clientId Htrainer Hclient Hmay now db)
    as [(Hok & Hends & Hon)|(Hfailed & Hsame)].
  2:{ split; [intros _; exact Hsame|]. intros Hok. contradiction. }
  split; [intros Hfailed; contradiction|]. intros _.
  fold activate on in Hon.
  assert (Hends' : endsExist trainerId clientId on).
  { rewrite Hon. apply (endsExist_users trainerId clientId db); [reflexivity|].
    exact Hends. }
  assert (Hrow : trainer_client on !! (Db.uuid trainerId, Db.uuid clientId)
                 = Some (TrainerClient.mk true now)).
  { rewrite Hon. cbn [trainer_client setTrainerClient]. apply lookup_insert_eq. }
  pose proof (deactivate_result u trainerId clientId Htrainer Hclient Hmay on _
                Hends' Hrow) as Hoff.
  fold deactivate in Hoff.
  assert (Hactive : isActive trainerId clientId on = true).
  { rewrite Hon, isActive_insert, decide_True by reflexivity. reflexivity. }
  assert (Hinactive : isActive trainerId clientId off = false).
  { subst off. rewrite Hoff. cbn [snd].
    rewrite isActive_insert, decide_True by reflexivity. reflexivity. }
  split; [|split; [|split; [|split]]].
  - split; [apply trainer_mayView, Hactive|].
    intros reportId report Hrid Hsel Hcl.
    eexists. apply report_get_steps; [exact Hrid|exact Hsel|].
    rewrite Hcl. apply trainer_mayView. rewrite isActive_uuid. exact Hactive.
  - rewrite Hoff. reflexivity.
  - assert (Hno : ~ mayView coach clientId off).
    { intros Hview. apply trainer_mayView in Hview. congruence. }
    split; [exact Hno|].
    destruct (forbidden_without_view off coach clientId Hclient Hno)
      as (Htrends & Hlist & _).
    split; [exact Htrends|]. split; [exact Hlist|].
    intros reportId report Hrid Hsel Hcl.
    apply (report_forbidden_without_view off coach reportId report Hrid Hsel).
    rewrite Hcl. intros Hview. apply trainer_mayView in Hview.
    rewrite isActive_uuid in Hview. congruence.
  - intros t c Hne. subst off. rewrite Hoff. cbn [snd].
    rewrite isActive_insert, decide_False by congruence.
    rewrite Hon, isActive_insert, decide_False by congruence. reflexivity.
  - subst off. rewrite Hoff. cbn [snd]. rewrite Hon. repeat split.
Qed.

(** X23. A report that [POST] stored can be read back: it is the last
    row of [reports] and the one its id selects, [GET] of it by its
    owner, the client the row names, answers 200 with that very row,
    and it is among the rows the listing and the trends of the client
    are drawn from, each of its non-null values among the values of
    its metric. *)
Theorem submitted_report_is_readable (db : Database) (now : Z)
    (uuid clientId : string) (body : gmap string jsval)
    (reportData : ApiHelpers.ReportData) (year weekNumber : Z) :
  Zod.isUuid clientId = true -> Zod.isUuid uuid = true ->
  is_Some (Db.selectUser clientId ApiHelpers.client db) ->
  ApiHelpers.SubmitReportSchema body = Some reportData ->
  ApiHelpers.getCurrentWeekInfo now = (year, weekNumber) ->
  let owner := ApiHelpers.mkUser clientId ApiHelpers.client in
  let submit := ClientReports.POST now uuid (Some owner) clientId body db in
  forall row, returned submit = Some (row, []) ->
  let db' := snd submit in
  let reader := ApiHelpers.mkUser (Report.client_id row) ApiHelpers.client in
  reports db' = reports db ++ [row]
  /\ Report.client_id row = Db.uuid clientId
  /\ Db.selectReport uuid db' = Some row
  /\ Reports.GET (Some reader) uuid db'
     = (inr (mkResponse 200 (row, Reports.fetchImages uuid db)), db')
  /\ row ∈ ReportList.selectListed clientId db'
  /\ row ∈ Trends.selectClientReports clientId db'
  /\ (forall metric value, Trends.column metric row = Some value ->
        value ∈ metricValues metric (Trends.selectClientReports clientId db')).
Proof.
  intros Hclient Huuid Hexists Hbody Hweek owner submit row Hreturned db' reader.
  destruct submit as [[e|resp] dbs] eqn:Hrun; [discriminate|].
  destruct (submit_success_inv _ _ _ _ _ _ _ _ Hrun)
    as (d & y & w & sq & Hd & -> & Hrows).
  cbn in Hreturned. injection Hreturned as <-.
  cbn [fst data] in Hrows. subst db' reader. cbn [snd].
  set (row := Db.set_report_week_and_year
                (Db.reportColumns
                   (ClientReports.newReportRow now uuid clientId y w sq d))) in *.
  assert (Hfresh : Forall (fun r => Report.id r <> Db.uuid uuid) (reports db)).
  { revert Hrun. subst submit. unfold ClientReports.POST. run_handler.
    rewrite (UuidParamSchema_ok _ Hclient). run_handler.
    destruct (decide _); [discriminate|].
    destruct (Db.selectUser clientId _ db); [|discriminate].
    rewrite Hbody. run_handler. rewrite Hweek. run_handler.
    destruct (2 <=? _)%nat; [discriminate|].
    unfold Db.insertReport. destruct (decide _) as [(Hf & _)|]; [|discriminate].
    intros _. exact Hf. }
  assert (Hsel : Db.selectReport uuid dbs = Some row).
  { unfold Db.selectReport. rewrite Hrows, filter_app.
    rewrite (filter_none _ (reports db)).
    - rewrite filter_cons, decide_True by (split; reflexivity). reflexivity.
    - intros r Hr [Hid _]. rewrite Forall_forall in Hfresh. exact (Hfresh r Hr Hid). }
  assert (Hin : row ∈ filter (fun r => Report.client_id r = Db.uuid clientId
                                       /\ Report.deleted_at r = None) (reports dbs)).
  { apply list_elem_of_filter. split; [split; reflexivity|].
    rewrite Hrows. apply elem_of_app. right. apply list_elem_of_singleton. reflexivity. }
  assert (Himages : report_images dbs = report_images db).
  { revert Hrun. subst submit. unfold ClientReports.POST. run_handler.
    rewrite (UuidParamSchema_ok _ Hclient). run_handler.
    destruct (decide _); [discriminate|].
    destruct (Db.selectUser clientId _ db); [|discriminate].
    rewrite Hbody. run_handler. rewrite Hweek. run_handler.
    destruct (2 <=? _)%nat; [discriminate|].
    destruct (Db.insertReport _ _) as [[? ?]|]; [|discriminate].
    intros [= _ <-]. reflexivity. }
  split; [exact Hrows|]. split; [reflexivity|]. split; [exact Hsel|].
  split.
  { rewrite (report_get_steps dbs _ uuid row Huuid Hsel).
    - unfold Reports.fetchImages, Db.selectImages. rewrite Himages. reflexivity.
    - right. left. split; reflexivity. }
  split.
  { unfold ReportList.selectListed, ReportList.orderByDescending.
    rewrite orderBy_perm. exact Hin. }
  assert (Hlisted : row ∈ Trends.selectClientReports clientId dbs).
  { unfold Trends.selectClientReports. rewrite orderBy_perm. exact Hin. }
  split; [exact Hlisted|].
  intros metric value Hvalue. unfold metricValues.
  apply list_elem_of_omap. exists row. split; [exact Hlisted|exact Hvalue].
Qed.

(** X24. When an upload request is answered with a ticket, exactly one
    record was added to [report_images]: it carries the id of the
    ticket as the database prints it, the id of the report and the
    path of the ticket, for which the storage collaborator signed the
    URL of the ticket, and the time of the request.  The report then
    holds one image more, at most three, and [GET] of the report by
    the same caller lists the record. *)
Theorem uploaded_image_is_listed (db : Database) (now : Z) (uuid : string)
    (sign : string -> option string) (u : ApiHelpers.AuthenticatedUser)
    (reportId : string) (report : Report.Row) (body : gmap string jsval) :
  Zod.isUuid reportId = true ->
  Db.selectReport reportId db = Some report ->
  let upload := UploadUrl.POST now uuid sign (Some u) reportId body db in
  forall ticket, returned upload = Some ticket ->
  let db' := snd upload in
  exists record images,
    report_images db' = report_images db ++ [record]
    /\ ReportImage.id record = Db.uuid uuid
    /\ ReportImage.report_id record = Report.id report
    /\ ReportImage.storage_path record = UploadUrl.storagePath ticket
    /\ ReportImage.created_at record = now /\ ReportImage.is_deleted record = false
    /\ UploadUrl.imageId ticket = uuid
    /\ sign (UploadUrl.storagePath ticket) = Some (UploadUrl.url ticket)
    /\ (imagesHeld reportId (report_images db') = imagesHeld reportId (report_images db) + 1
        /\ imagesHeld reportId (report_images db') <= 3)%nat
    /\ Reports.GET (Some u) reportId db' = (inr (mkResponse 200 (report, images)), db')
    /\ record ∈ images.
Proof.
  intros Huuid Hsel upload ticket Hreturned db'.
  assert (Haccess : Reports.hasAccess
                      (UploadUrl.checkImageUploadAccess (ApiHelpers.user_id u)
                         (ApiHelpers.user_role u) reportId db) = true).
  { destruct (Reports.hasAccess _) eqn:Hacc; [reflexivity|]. exfalso.
    revert Hreturned. subst upload. unfold UploadUrl.POST. run_handler.
    rewrite (UuidParamSchema_ok _ Huuid). run_handler. rewrite Hacc. discriminate. }
  destruct (ApiHelpers.ImageUploadRequestSchema body) as [request|] eqn:Hbody.
  2:{ exfalso. revert Hreturned. subst upload.
      destruct (upload_invalid db now uuid sign u reportId body Huuid Haccess Hbody)
        as [[e [He _]] _].
      unfold returned. rewrite He. discriminate. }
  pose proof (upload_steps db now uuid sign u reportId body Huuid Haccess request Hbody)
    as Hsteps.
  fold upload in Hsteps. subst db'. revert Hreturned. rewrite Hsteps. clear Hsteps.
  destruct (Nat.leb_spec 3 (imagesHeld reportId (report_images db))) as [|Hheld];
    [discriminate|].
  cbv zeta. destruct (sign _) as [signedUrl|] eqn:Hsign; [|discriminate].
  unfold Db.insertImage. destruct (decide _) as [Hacc|]; [|discriminate].
  intros [= <-]. cbn [snd report_images setReportImages].
  pose proof (proj1 (proj2 (selectReport_Some _ _ _ Hsel))) as Hreportid.
  set (record := Db.imageColumns _).
  assert (Hview : mayView u (Report.client_id report)
                    (setReportImages (report_images db ++ [record]) db)).
  { unfold UploadUrl.checkImageUploadAccess in Haccess. rewrite Hsel in Haccess.
    cbv zeta in Haccess. unfold mayView.
    destruct (decide (_ /\ _)) as [Hown|]; [tauto|].
    destruct (decide _) as [Hadmin|]; [tauto|discriminate]. }
  exists record, (Reports.fetchImages reportId
                    (setReportImages (report_images db ++ [record]) db)).
  split; [reflexivity|]. split; [reflexivity|]. split; [symmetry; exact Hreportid|].
  split; [reflexivity|]. split; [reflexivity|]. split; [reflexivity|].
  split; [reflexivity|]. split; [exact Hsign|].
  assert (Hcount : (imagesHeld reportId (report_images db ++ [record])
                    = imagesHeld reportId (report_images db) + 1)%nat).
  { unfold imagesHeld. rewrite filter_app, length_app, filter_cons.
    rewrite decide_True by (split; reflexivity). reflexivity. }
  split; [split; [exact Hcount|lia]|].
  split.
  - apply report_get_steps; [exact Huuid|exact Hsel|exact Hview].
  - unfold Reports.fetchImages, Db.selectImages. rewrite orderBy_perm.
    cbn [report_images setReportImages]. apply list_elem_of_filter.
    split; [split; reflexivity|]. apply elem_of_app. right.
    apply list_elem_of_singleton. reflexivity.
Qed.




Lemma assignment_controls_access_witness :
  let activate := Activate.POST 5 (Some Sample.coach) Sample.coachId Sample.clientId
                    Examples.threeReports in
  let on := snd activate in
  let deactivate := Deactivate.POST (Some Sample.coach) Sample.coachId Sample.clientId
                      on in
  let off := snd deactivate in
  let refused := Activate.POST 5 (Some Sample.coach) Sample.coachId Sample.coachId
                   Examples.threeReports in
  (Zod.isUuid Sample.coachId = true /\ Zod.isUuid Sample.clientId = true
   /\ mayManage Sample.coach Sample.coachId
   /\ statusOf activate = 200 /\ statusOf refused <> 200)
  /\ mayView Sample.coach Sample.clientId on
  /\ statusOf deactivate = 200
  /\ statusOf (Trends.GET (Some Sample.coach) Sample.clientId None off) = Forbidden
  /\ snd refused = Examples.threeReports.
Proof.
  intros activate on deactivate off refused.
  assert (Htrainer : Zod.isUuid Sample.coachId = true) by reflexivity.
  assert (Hclient : Zod.isUuid Sample.clientId = true) by reflexivity.
  assert (Hmay : mayManage Sample.coach Sample.coachId) by (right; reflexivity).
  assert (Hok : statusOf activate = 200) by (vm_compute; reflexivity).
  assert (Hno : statusOf refused <> 200) by (vm_compute; discriminate).
  split; [auto 6|].
  destruct (assignment_controls_access Examples.threeReports 5 Sample.coach
              Sample.coachId Sample.clientId Htrainer Hclient Hmay)
    as (_ & Hafter).
  destruct (Hafter Hok) as ((Hview & _) & Hdeactivated & (_ & Htrends & _) & _).
  split; [exact Hview|]. split; [exact Hdeactivated|]. split; [exact (Htrends None)|].
  exact (proj1 (assignment_controls_access Examples.threeReports 5 Sample.coach
                  Sample.coachId Sample.coachId Htrainer Htrainer Hmay) Hno).
Defined.

Lemma submitted_report_is_readable_witness :
  let body : gmap string jsval := {[ "weight" := JNum 70 ]} in
  let submit := ClientReports.POST Examples.t0 Sample.reportA (Some Sample.owner)
                  Sample.clientId body Sample.empty in
  (Zod.isUuid Sample.clientId = true /\ Zod.isUuid Sample.reportA = true
   /\ is_Some (Db.selectUser Sample.clientId ApiHelpers.client Sample.empty)
   /\ ApiHelpers.getCurrentWeekInfo Examples.t0 = (2024, 2))
  /\ exists row,
       returned submit = Some (row, [])
       /\ Db.selectReport Sample.reportA (snd submit) = Some row
       /\ Report.weight row = Some 70%Q.
Proof.
  intros body submit.
  assert (Hclient : Zod.isUuid Sample.clientId = true) by reflexivity.
  assert (Huuid : Zod.isUuid Sample.reportA = true) by reflexivity.
  pose proof (sample_client_exists ∅ [] [] Sample.coaches Sample.customers) as Hexists.
  assert (Hweek : ApiHelpers.getCurrentWeekInfo Examples.t0 = (2024, 2)) by reflexivity.
  split; [auto|].
  assert (Hreturned : exists row, returned submit = Some (row, [])
                                  /\ Report.weight row = Some 70%Q)
    by (eexists; split; vm_compute; reflexivity).
  destruct Hreturned as (row & Hreturned & Hweight).
  exists row. split; [exact Hreturned|]. split; [|exact Hweight].
  exact (proj1 (proj2 (proj2 (submitted_report_is_readable Sample.empty Examples.t0
                                Sample.reportA Sample.clientId body
                                (ApiHelpers.mkReportData (Some 70%Q) None None None
                                   None None None None None)
                                2024 2 Hclient Huuid Hexists eq_refl Hweek row
                                Hreturned)))).
Defined.

Lemma uploaded_image_is_listed_witness :
  let db := setReports [Examples.first] Sample.empty in
  let upload := UploadUrl.POST 9 (Sample.imageId 1) Examples.sign (Some Sample.owner)
                  Sample.reportA Examples.uploadBody db in
  (Zod.isUuid Sample.reportA = true
   /\ Db.selectReport Sample.reportA db = Some Examples.first)
  /\ exists ticket record images,
       returned upload = Some ticket
       /\ Reports.GET (Some Sample.owner) Sample.reportA (snd upload)
          = (inr (mkResponse 200 (Examples.first, images)), snd upload)
       /\ record ∈ images /\ ReportImage.id record = Sample.imageId 1.
Proof.
  intros db upload.
  assert (Huuid : Zod.isUuid Sample.reportA = true) by reflexivity.
  assert (Hsel : Db.selectReport Sample.reportA db = Some Examples.first)
    by reflexivity.
  split; [auto|].
  assert (Hreturned : exists ticket, returned upload = Some ticket)
    by (eexists; vm_compute; reflexivity).
  destruct Hreturned as (ticket & Hreturned).
  destruct (uploaded_image_is_listed db 9 (Sample.imageId 1) Examples.sign Sample.owner
              Sample.reportA Examples.first Examples.uploadBody Huuid Hsel ticket
              Hreturned)
    as (record & images & _ & Hid & _ & _ & _ & _ & _ & _ & _ & Hget & Hin).
  exists ticket, record, images. auto.
Defined.

